(** * anpush: the poll cycle, the payload builder and the subscription store

    A shallow embedding of [server.ts].  The server polls a feed, decides
    whether what it fetched is new, and pushes a notification to every stored
    subscription, pruning those whose endpoint is gone.

    Layout: JavaScript data (strings, parsed JSON), the pure helpers of
    [server.ts], a state-and-exception monad for the asynchronous code, the
    cycle [pollLatest] and the [/subscribe] handler, then the properties. *)

From Stdlib Require Import List NArith ZArith Bool String Ascii Lia.
Import ListNotations.

Set Implicit Arguments.
Local Set Warnings "-register-all".

(* ------------------------------------------------------------------ *)
(** ** JavaScript strings *)

(** A JavaScript string is a sequence of UTF-16 code units. *)
Definition codeunit := N.
Definition jsstring := list codeunit.

(** An ASCII literal of the source, as a JavaScript string. *)
Definition js (s : string) : jsstring :=
  map N_of_ascii (list_ascii_of_string s).

Fixpoint jseqb (a b : jsstring) : bool :=
  match a, b with
  | [], [] => true
  | x :: a', y :: b' => N.eqb x y && jseqb a' b'
  | _, _ => false
  end.

(** A string is truthy when it is not empty. *)
Definition nonEmpty (s : jsstring) : bool :=
  match s with [] => false | _ :: _ => true end.

(** [s || undefined]. *)
Definition orUndefined (s : jsstring) : option jsstring :=
  if nonEmpty s then Some s else None.

(** [a !== b] for a string [a] and a possibly undefined string [b]. *)
Definition strictNeq (a : jsstring) (b : option jsstring) : bool :=
  match b with
  | Some s => negb (jseqb a s)
  | None => true
  end.

(** The code units [String.prototype.trim] strips: ECMAScript's WhiteSpace
    and LineTerminator. *)
Definition isWhiteSpace (c : codeunit) : bool :=
  existsb (N.eqb c)
    [9; 10; 11; 12; 13; 32; 160; 5760;
     8192; 8193; 8194; 8195; 8196; 8197; 8198; 8199; 8200; 8201; 8202;
     8232; 8233; 8239; 8287; 12288; 65279]%N.

Fixpoint trimStart (s : jsstring) : jsstring :=
  match s with
  | c :: s' => if isWhiteSpace c then trimStart s' else s
  | [] => []
  end.

Definition trimEnd (s : jsstring) : jsstring := rev (trimStart (rev s)).

Definition trim (s : jsstring) : jsstring := trimEnd (trimStart s).

(** [s.replaceAll(c, empty)] for a one-character pattern [c]: every
    occurrence is removed. *)
Definition removeAll (c : codeunit) (s : jsstring) : jsstring :=
  filter (fun x => negb (N.eqb x c)) s.

(* ------------------------------------------------------------------ *)
(** ** btoa *)

Definition base64Alphabet : jsstring :=
  js "ABCDEFGHIJKLMNOPQRSTUVWXYZabcdefghijklmnopqrstuvwxyz0123456789+/".

Definition sextet (n : N) : codeunit :=
  nth (N.to_nat (N.land n 63)) base64Alphabet 0%N.

Definition padChar : codeunit := 61%N.

Fixpoint base64 (bytes : list N) : jsstring :=
  match bytes with
  | a :: b :: c :: rest =>
      sextet (N.shiftr a 2)
      :: sextet (N.lor (N.shiftl (N.land a 3) 4) (N.shiftr b 4))
      :: sextet (N.lor (N.shiftl (N.land b 15) 2) (N.shiftr c 6))
      :: sextet (N.land c 63)
      :: base64 rest
  | [a; b] =>
      [sextet (N.shiftr a 2);
       sextet (N.lor (N.shiftl (N.land a 3) 4) (N.shiftr b 4));
       sextet (N.shiftl (N.land b 15) 2);
       padChar]
  | [a] =>
      [sextet (N.shiftr a 2); sextet (N.shiftl (N.land a 3) 4);
       padChar; padChar]
  | [] => []
  end.

(** [btoa] throws InvalidCharacterError ([None]) on a code unit above 255. *)
Definition btoa (s : jsstring) : option jsstring :=
  if forallb (fun c => N.ltb c 256) s then Some (base64 s) else None.

(* ------------------------------------------------------------------ *)
(** ** JavaScript values, as [JSON.parse] yields them *)

(** A number.  The program only asks whether a value is a number and takes
    [String] of it, so a number is carried by the characters [String] prints
    for it; there is always at least one. *)
Record jsnumber := { num_first : codeunit; num_rest : jsstring }.

Definition Number_toString (n : jsnumber) : jsstring :=
  num_first n :: num_rest n.

(** An object is the list of its properties, each name once, in the order
    of the text. *)
Inductive json :=
| JNull
| JBool (b : bool)
| JNum (n : jsnumber)
| JStr (s : jsstring)
| JArr (items : list json)
| JObj (props : list (jsstring * json)).

(** [v && typeof v === "object"]: arrays and objects, not [null]. *)
Definition isObject (v : json) : bool :=
  match v with
  | JArr _ | JObj _ => true
  | _ => false
  end.

Fixpoint lookup (k : jsstring) (props : list (jsstring * json)) : option json :=
  match props with
  | (k', v) :: rest => if jseqb k k' then Some v else lookup k rest
  | [] => None
  end.

(** [record.k] for one of the names the program reads ([hash], [id],
    [timestamp], [ts], [text], [author], [name], [body]); [None] is
    [undefined].  None of them is a property of an array. *)
Definition get (k : string) (record : json) : option json :=
  match record with
  | JObj props => lookup (js k) props
  | _ => None
  end.

(** [a ?? b]: [b] when [a] is [undefined] or [null]. *)
Definition nullish (a b : option json) : option json :=
  match a with
  | None | Some JNull => b
  | Some _ => a
  end.

(** [typeof v === "string" ? v : d]. *)
Definition stringOr (v : option json) (d : jsstring) : jsstring :=
  match v with
  | Some (JStr s) => s
  | _ => d
  end.

(** [typeof v === "string" ? v : undefined]. *)
Definition stringField (v : option json) : option jsstring :=
  match v with
  | Some (JStr s) => Some s
  | _ => None
  end.

(* ------------------------------------------------------------------ *)
(** ** The stored data ([data/state.json], [data/subscriptions.json]) *)

Record Keys := { p256dh : jsstring; auth : jsstring }.

Record Subscription := {
  sub_id : jsstring;
  endpoint : jsstring;
  keys : Keys;
  createdAt : jsstring;
  lastNotifiedAt : option jsstring
}.

Record State := {
  lastSeenId : option jsstring;
  lastSeenHash : option jsstring
}.

(** [{}], the fallback of [loadState]. *)
Definition emptyState : State :=
  {| lastSeenId := None; lastSeenHash := None |}.

(** [{ ...sub, lastNotifiedAt: now }]. *)
Definition notifiedAt (now : jsstring) (sub : Subscription) : Subscription :=
  {| sub_id := sub_id sub;
     endpoint := endpoint sub;
     keys := keys sub;
     createdAt := createdAt sub;
     lastNotifiedAt := Some now |}.

(* ------------------------------------------------------------------ *)
(** ** What the platform provides *)

(** The library functions the server calls and the process environment.
    [JSON_parse] and [parseYaml] return [None] when they throw; [SHA256] is
    the digest of the UTF-8 encoding of its argument, as a 256-bit number. *)
Record Platform := {
  JSON_parse : jsstring -> option json;
  SHA256 : jsstring -> N;
  parseYaml : jsstring -> option json;
  env_get : string -> option jsstring
}.

Definition PUSH_ICON_URL (P : Platform) : jsstring :=
  match env_get P "PUSH_ICON_URL" with
  | Some v => v
  | None => js "https://wiredove.net/dovepurple_sm.png"
  end.

(* ------------------------------------------------------------------ *)
(** ** Pure helpers of [server.ts] *)

(** [subscriptionId(endpoint)]: [btoa(endpoint)] with every [=] removed. *)
Definition subscriptionId (endpoint : jsstring) : option jsstring :=
  option_map (removeAll padChar) (btoa endpoint).

(** The 32 bytes of a digest, most significant first. *)
Definition digestBytes (d : N) : list N :=
  map (fun i => N.land (N.shiftr d (8 * N.of_nat (31 - i))) 255) (seq 0 32).

Definition hexDigit (n : N) : codeunit :=
  nth (N.to_nat (N.land n 15)) (js "0123456789abcdef") 0%N.

(** [b.toString(16)] for a byte. *)
Definition toString16 (b : N) : jsstring :=
  if N.ltb b 16 then [hexDigit b]
  else [hexDigit (N.shiftr b 4); hexDigit (N.land b 15)].

(** [s.padStart(2, "0")]. *)
Definition padStart2 (s : jsstring) : jsstring :=
  match s with
  | [] => [48; 48]%N
  | [c] => [48%N; c]
  | _ => s
  end.

(** The loop of [hashText]: [for (const b of bytes) out += ...]. *)
Definition hexOf (bytes : list N) : jsstring :=
  fold_left (fun out b => out ++ padStart2 (toString16 b)) bytes [].

Definition fingerprint (P : Platform) (text : jsstring) : jsstring :=
  hexOf (digestBytes (SHA256 P text)).

Record PostFields := { name : option jsstring; post_body : option jsstring }.

Definition noFields : PostFields := {| name := None; post_body := None |}.

(** [typeof v === "string" ? v.trim() : undefined], then [x || undefined]. *)
Definition trimmedField (v : option json) : option jsstring :=
  match stringField v with
  | Some s => orUndefined (trim s)
  | None => None
  end.

Definition parsePostYaml (P : Platform) (text : jsstring) : PostFields :=
  match parseYaml P text with
  | Some parsed =>
      if isObject parsed
      then {| name := trimmedField (get "name" parsed);
              post_body := trimmedField (get "body" parsed) |}
      else noFields
  | None => noFields
  end.

Definition formatPushTitle (name : option jsstring) : jsstring :=
  match name with
  | Some (c :: n) => js "New Wiredove Message from " ++ c :: n
  | _ => js "New anproto message"
  end.

Definition formatPushBody (body : option jsstring) : jsstring :=
  match body with
  | Some b =>
      if nonEmpty b && nonEmpty (trim b) then trim b
      else js "Tap to view the latest update"
  | None => js "Tap to view the latest update"
  end.

Record Payload := {
  title : jsstring;
  body : jsstring;
  url : jsstring;
  hash : jsstring;
  icon : jsstring;
  p_latest : json
}.

(** [toPushPayload(latest)], before [JSON.stringify]. *)
Definition toPushPayload (P : Platform) (latest : json) : Payload :=
  let record := if isObject latest then Some latest else None in
  let hash :=
    match record with
    | Some r => stringOr (get "hash" r) []
    | None => []
    end in
  let targetUrl :=
    if nonEmpty hash then js "https://wiredove.net/#" ++ hash
    else js "https://wiredove.net/" in
  let rawText :=
    match record with
    | Some r => stringOr (get "text" r) []
    | None => []
    end in
  let parsed := if nonEmpty rawText then parsePostYaml P rawText else noFields in
  {| title := formatPushTitle (name parsed);
     body := formatPushBody (post_body parsed);
     url := targetUrl;
     hash := hash;
     icon := PUSH_ICON_URL P;
     p_latest := latest |}.

Record Summary := {
  s_hash : option jsstring;
  s_author : option jsstring;
  s_ts : option jsstring;
  textPreview : option jsstring
}.

(** What the template literal of [summarizeLatest] holds after
    [text.slice(0, 400)]: the three code units U+00E2, U+20AC, U+00A6 (the
    bytes c3 a2, e2 82 ac, c2 a6 of the source file). *)
Definition ellipsis : jsstring := [226; 8364; 166]%N.

Definition summarizeLatest (record : json) : Summary :=
  let text := stringOr (get "text" record) [] in
  let preview :=
    if Nat.ltb 400 (List.length text) then firstn 400 text ++ ellipsis else text in
  {| s_hash := stringField (get "hash" record);
     s_author := stringField (get "author" record);
     s_ts := stringField (get "ts" record);
     textPreview := orUndefined preview |}.

(** The record and the identifier [pollLatest] takes from a response body:
    the inner [try] block around [JSON.parse].  When parsing throws, nothing
    has been assigned: [latestJson] is still the body text. *)
Definition recordOf (latestJson : json) : option json :=
  match latestJson with
  | JArr items =>
      match items with
      | first :: _ => if isObject first then Some first else None
      | [] => None
      end
  | JObj _ => Some latestJson
  | _ => None
  end.

Definition candidateOf (latestRecord : json) : option json :=
  nullish (get "hash" latestRecord)
    (nullish (get "id" latestRecord)
       (nullish (get "timestamp" latestRecord) (get "ts" latestRecord))).

Definition idOf (latestRecord : option json) : jsstring :=
  match latestRecord with
  | Some r =>
      match candidateOf r with
      | Some (JStr s) => s
      | Some (JNum n) => Number_toString n
      | _ => []
      end
  | None => []
  end.

Record Parsed := {
  latestId : jsstring;
  latestJson : json;
  latestRecord : option json
}.

Definition parseBody (P : Platform) (bodyText : jsstring) : Parsed :=
  match JSON_parse P bodyText with
  | Some v =>
      {| latestId := idOf (recordOf v);
         latestJson := v;
         latestRecord := recordOf v |}
  | None =>
      {| latestId := []; latestJson := JStr bodyText; latestRecord := None |}
  end.

(** [isNew] of [pollLatest]. *)
Definition isNew (latestId latestHash : jsstring) (state : State) : bool :=
  if nonEmpty latestId
  then strictNeq latestId (lastSeenId state)
  else strictNeq latestHash (lastSeenHash state).

(* ------------------------------------------------------------------ *)
(** ** Effects: the two files, the network, exceptions *)

Inductive Path := SUBS_FILE | STATE_FILE.

(** What each file holds, as the casts of [readJsonFile] type it.  [None]
    is a file that cannot be read or does not parse. *)
Record Disk := {
  stateFile : option State;
  subsFile : option (list Subscription)
}.

Inductive Exn :=
| FetchError
| ReadError (path : Path)
| WriteError (path : Path)
| WebPushError (statusCode : option Z)
| InvalidCharacterError.

(** What a run does to the outside, in the order it does it.  A write is
    recorded when it is attempted.  What the server prints on the console
    is left out. *)
Inductive Event :=
| EvFetch
| EvRead (path : Path)
| EvWriteState (s : State)
| EvWriteSubs (subs : list Subscription)
| EvDigest (text : jsstring)
| EvSend (endpoint : jsstring) (keys : Keys) (payload : Payload).

Record World := { disk : Disk; trace : list Event }.

Record FetchResponse := {
  ok : bool;
  status : Z;
  text : option jsstring   (* [None]: reading the body fails *)
}.

Inductive SendResult :=
| Delivered
| Refused (statusCode : option Z).

(** What the outside answers during one run: the response of the feed
    ([None]: [fetch] rejects), the outcome of the n-th call of
    [webpush.sendNotification], whether a file can be written, and the time
    [new Date().toISOString()] shows. *)
Record Oracle := {
  fetched : option FetchResponse;
  pushOutcome : nat -> SendResult;
  writable : Path -> bool;
  clock : jsstring
}.

Inductive Outcome (A : Type) :=
| Returned (a : A)
| Thrown (e : Exn).
Arguments Thrown {A} e.

(** An asynchronous computation: it changes the world and returns or
    throws.  What it did before throwing stays done. *)
Definition M (A : Type) : Type := World -> Outcome A * World.

Definition ret {A} (a : A) : M A := fun w => (Returned a, w).

Definition throw {A} (e : Exn) : M A := fun w => (Thrown e, w).

Definition bind {A B} (m : M A) (k : A -> M B) : M B :=
  fun w =>
    match m w with
    | (Returned a, w') => k a w'
    | (Thrown e, w') => (Thrown e, w')
    end.

Definition try_catch {A} (m : M A) (handler : Exn -> M A) : M A :=
  fun w =>
    match m w with
    | (Returned a, w') => (Returned a, w')
    | (Thrown e, w') => handler e w'
    end.

Declare Scope async_scope.
Delimit Scope async_scope with async.
Notation "x <- m ;; k" := (bind m (fun x => k))
  (at level 61, m at next level, right associativity) : async_scope.
Notation "m ;; k" := (bind m (fun _ => k))
  (at level 61, right associativity) : async_scope.
Local Open Scope async_scope.

Definition logEvent (ev : Event) (w : World) : World :=
  {| disk := disk w; trace := trace w ++ [ev] |}.

Definition emit (ev : Event) : M unit := fun w => (Returned tt, logEvent ev w).

(** [Deno.readTextFile(path)] followed by [JSON.parse(raw) as T]. *)
Definition readAndParse {T} (path : Path) (file : Disk -> option T) : M T :=
  fun w =>
    match file (disk w) with
    | Some v => (Returned v, logEvent (EvRead path) w)
    | None => (Thrown (ReadError path), logEvent (EvRead path) w)
    end.

Definition readJsonFile {T} (path : Path) (file : Disk -> option T)
    (fallback : T) : M T :=
  try_catch (readAndParse path file) (fun _ => ret fallback).

(** [Deno.writeTextFile(path, JSON.stringify(value))].  A write that fails
    leaves the file as it was. *)
Definition writeJsonFile (O : Oracle) (path : Path) (ev : Event)
    (store : Disk -> Disk) : M unit :=
  fun w =>
    if writable O path
    then (Returned tt, {| disk := store (disk w); trace := trace w ++ [ev] |})
    else (Thrown (WriteError path), logEvent ev w).

Definition loadSubscriptions : M (list Subscription) :=
  readJsonFile SUBS_FILE subsFile [].

Definition saveSubscriptions (O : Oracle) (subs : list Subscription) : M unit :=
  writeJsonFile O SUBS_FILE (EvWriteSubs subs)
    (fun d => {| stateFile := stateFile d; subsFile := Some subs |}).

Definition loadState : M State :=
  readJsonFile STATE_FILE stateFile emptyState.

Definition saveState (O : Oracle) (state : State) : M unit :=
  writeJsonFile O STATE_FILE (EvWriteState state)
    (fun d => {| stateFile := Some state; subsFile := subsFile d |}).

Definition hashText (P : Platform) (text : jsstring) : M jsstring :=
  emit (EvDigest text) ;; ret (fingerprint P text).

Definition fetchLatest (O : Oracle) : M FetchResponse :=
  emit EvFetch ;;
  match fetched O with
  | Some res => ret res
  | None => throw FetchError
  end.

Definition res_text (res : FetchResponse) : M jsstring :=
  match text res with
  | Some t => ret t
  | None => throw FetchError
  end.

(** The n-th call of [webpush.sendNotification] in a run. *)
Definition sendNotification (O : Oracle) (n : nat) (endpoint : jsstring)
    (keys : Keys) (payload : Payload) : M unit :=
  emit (EvSend endpoint keys payload) ;;
  match pushOutcome O n with
  | Delivered => ret tt
  | Refused statusCode => throw (WebPushError statusCode)
  end.

(** [(err as { statusCode?: number }).statusCode]. *)
Definition statusCodeOf (err : Exn) : option Z :=
  match err with
  | WebPushError statusCode => statusCode
  | _ => None
  end.

Definition gone (status : option Z) : bool :=
  match status with
  | Some c => Z.eqb c 404 || Z.eqb c 410
  | None => false
  end.

(* ------------------------------------------------------------------ *)
(** ** The poll cycle *)

Record PollResult := {
  changed : bool;
  sent : bool;
  reason : option jsstring;
  latest : option Summary
}.

(** The [for (const sub of subs)] loop of [pollLatest]; [n] counts the
    calls of [sendNotification] made so far. *)
Fixpoint dispatch (O : Oracle) (payload : Payload) (now : jsstring) (n : nat)
    (subs nextSubs : list Subscription) : M (list Subscription) :=
  match subs with
  | [] => ret nextSubs
  | sub :: rest =>
      nextSubs' <-
        try_catch
          (sendNotification O n (endpoint sub) (keys sub) payload ;;
           ret (nextSubs ++ [notifiedAt now sub]))
          (fun err =>
             if gone (statusCodeOf err) then ret nextSubs
             else ret (nextSubs ++ [sub])) ;;
      dispatch O payload now (S n) rest nextSubs'
  end.

Definition pollError : PollResult :=
  {| changed := false; sent := false;
     reason := Some (js "poll error"); latest := None |}.

Definition pollLatest (P : Platform) (O : Oracle) (force : bool) : M PollResult :=
  try_catch
    (res <- fetchLatest O ;;
     if negb (ok res) then
       ret {| changed := false; sent := false;
              reason := Some (js "latest fetch failed"); latest := None |}
     else
     bodyText <- res_text res ;;
     if negb (nonEmpty (trim bodyText)) then
       ret {| changed := false; sent := false;
              reason := Some (js "empty response"); latest := None |}
     else
     let parsed := parseBody P bodyText in
     state <- loadState ;;
     latestHash <-
       (if nonEmpty (latestId parsed) then ret [] else hashText P bodyText) ;;
     let latestSummary := option_map summarizeLatest (latestRecord parsed) in
     let isNew := isNew (latestId parsed) latestHash state in
     if negb isNew && negb force then
       ret {| changed := false; sent := false;
              reason := Some (js "no new messages"); latest := latestSummary |}
     else
     (if isNew then
        saveState O {| lastSeenId := orUndefined (latestId parsed);
                       lastSeenHash := orUndefined latestHash |}
      else ret tt) ;;
     subs <- loadSubscriptions ;;
     if Nat.eqb (List.length subs) 0 then
       ret {| changed := true; sent := false;
              reason := Some (js "no subscriptions"); latest := latestSummary |}
     else
     let payload :=
       toPushPayload P
         (match latestRecord parsed with
          | Some r => r
          | None => latestJson parsed
          end) in
     let now := clock O in
     nextSubs <- dispatch O payload now 0 subs [] ;;
     saveSubscriptions O nextSubs ;;
     ret {| changed := true; sent := true; reason := None;
            latest := latestSummary |})
    (fun _ => ret pollError).

(* ------------------------------------------------------------------ *)
(** ** POST /subscribe *)

Inductive ResponseBody :=
| JsonBody (value : json)
| TextBody (text : jsstring).

Record HttpResponse := { http_status : Z; http_body : ResponseBody }.

Definition jsonError (message : string) : HttpResponse :=
  {| http_status := 400;
     http_body := JsonBody (JObj [(js "error", JStr (js message))]) |}.

Definition okResponse : HttpResponse :=
  {| http_status := 200; http_body := TextBody (js "ok") |}.

(** The request body as the handler's cast types it. *)
Record KeysBody := { b_p256dh : option jsstring; b_auth : option jsstring }.

Record SubscribeBody := {
  b_endpoint : option jsstring;
  b_keys : option KeysBody
}.

Definition truthy (s : option jsstring) : bool :=
  match s with
  | Some s => nonEmpty s
  | None => false
  end.

Definition orEmpty (s : option jsstring) : jsstring :=
  match s with
  | Some s => s
  | None => []
  end.

(** [sub.keys?.p256dh] and [sub.keys?.auth]. *)
Definition keys_p256dh (sub : SubscribeBody) : option jsstring :=
  match b_keys sub with
  | Some k => b_p256dh k
  | None => None
  end.

Definition keys_auth (sub : SubscribeBody) : option jsstring :=
  match b_keys sub with
  | Some k => b_auth k
  | None => None
  end.

(** [subscriptionId] where it is called: [btoa] may throw. *)
Definition subscriptionIdM (endpoint : jsstring) : M jsstring :=
  match subscriptionId endpoint with
  | Some id => ret id
  | None => throw InvalidCharacterError
  end.

(** The handler of [POST /subscribe].  [body] is [None] when the request
    holds no JSON object.  An exception leaves the handler. *)
Definition subscribe (O : Oracle) (body : option SubscribeBody) : M HttpResponse :=
  match body with
  | None => ret (jsonError "invalid subscription")
  | Some sub =>
      if negb (truthy (b_endpoint sub))
         || negb (truthy (keys_p256dh sub))
         || negb (truthy (keys_auth sub))
      then ret (jsonError "missing fields")
      else
        subs <- loadSubscriptions ;;
        id <- subscriptionIdM (orEmpty (b_endpoint sub)) ;;
        match find (fun item => jseqb (sub_id item) id) subs with
        | None =>
            saveSubscriptions O
              (subs ++
               [{| sub_id := id;
                   endpoint := orEmpty (b_endpoint sub);
                   keys := {| p256dh := orEmpty (keys_p256dh sub);
                              auth := orEmpty (keys_auth sub) |};
                   createdAt := clock O;
                   lastNotifiedAt := None |}]) ;;
            ret okResponse
        | Some _ => ret okResponse
        end
  end.

(** A run from a given content of the files, with nothing recorded yet. *)
Definition run {A} (m : M A) (d : Disk) : Outcome A * World :=
  m {| disk := d; trace := [] |}.

(* ------------------------------------------------------------------ *)
(** ** Reading a run *)

(** What the loads return for a disk. *)
Definition loadedState (d : Disk) : State :=
  match stateFile d with
  | Some s => s
  | None => emptyState
  end.

Definition loadedSubs (d : Disk) : list Subscription :=
  match subsFile d with
  | Some subs => subs
  | None => []
  end.

(** [latestHash] of [pollLatest] for a body. *)
Definition latestHashOf (P : Platform) (bodyText : jsstring) : jsstring :=
  if nonEmpty (latestId (parseBody P bodyText)) then []
  else fingerprint P bodyText.

Definition isNewFor (P : Platform) (bodyText : jsstring) (state : State) : bool :=
  isNew (latestId (parseBody P bodyText)) (latestHashOf P bodyText) state.

(** The marker [pollLatest] saves for a body. *)
Definition markerOf (P : Platform) (bodyText : jsstring) : State :=
  {| lastSeenId := orUndefined (latestId (parseBody P bodyText));
     lastSeenHash := orUndefined (latestHashOf P bodyText) |}.

(** The stored marker is the one of this body: its identifier, or its
    fingerprint when it has no identifier. *)
Definition handled (P : Platform) (bodyText : jsstring) (state : State) : Prop :=
  if nonEmpty (latestId (parseBody P bodyText))
  then lastSeenId state = Some (latestId (parseBody P bodyText))
  else lastSeenHash state = Some (fingerprint P bodyText).

Definition payloadOf (P : Platform) (bodyText : jsstring) : Payload :=
  toPushPayload P
    (match latestRecord (parseBody P bodyText) with
     | Some r => r
     | None => latestJson (parseBody P bodyText)
     end).

Definition summaryOf (P : Platform) (bodyText : jsstring) : option Summary :=
  option_map summarizeLatest (latestRecord (parseBody P bodyText)).

Definition sendEvent (payload : Payload) (sub : Subscription) : Event :=
  EvSend (endpoint sub) (keys sub) payload.

Definition isSend (ev : Event) : bool :=
  match ev with EvSend _ _ _ => true | _ => false end.

Definition isDigest (ev : Event) : bool :=
  match ev with EvDigest _ => true | _ => false end.

Definition isStateWrite (ev : Event) : bool :=
  match ev with EvWriteState _ => true | _ => false end.

Definition isSubsWrite (ev : Event) : bool :=
  match ev with EvWriteSubs _ => true | _ => false end.

Definition isStoreAccess (ev : Event) : bool :=
  match ev with
  | EvRead _ | EvWriteState _ | EvWriteSubs _ => true
  | _ => false
  end.

(** What one delivery leaves of a subscription, in the words of the
    dispatcher's contract: kept with [lastNotifiedAt] on success, dropped
    when the endpoint is gone (404 or 410), kept as it is otherwise. *)
Definition retained (now : jsstring) (result : SendResult) (sub : Subscription)
    : list Subscription :=
  match result with
  | Delivered => [notifiedAt now sub]
  | Refused status => if gone status then [] else [sub]
  end.

(** The next set of subscriptions, one delivery after the other; the first
    delivery is the n-th of the run. *)
Fixpoint nextSet (O : Oracle) (now : jsstring) (n : nat)
    (subs : list Subscription) : list Subscription :=
  match subs with
  | [] => []
  | sub :: rest => retained now (pushOutcome O n) sub ++ nextSet O now (S n) rest
  end.

(** The events of a cycle around the marker: the digest, computed only
    for a body without identifier, and the write of the marker. *)
Definition digestsOf (P : Platform) (bodyText : jsstring) : list Event :=
  if nonEmpty (latestId (parseBody P bodyText)) then [] else [EvDigest bodyText].

Definition savesOf (P : Platform) (bodyText : jsstring) (fresh : bool) : list Event :=
  if fresh then [EvWriteState (markerOf P bodyText)] else [].

Definition savedDisk (P : Platform) (bodyText : jsstring) (fresh : bool)
    (d : Disk) : Disk :=
  if fresh
  then {| stateFile := Some (markerOf P bodyText); subsFile := subsFile d |}
  else d.

(** The cycle in direct style, once the feed has answered with the body
    [b]: what it returns, what the files hold afterwards and what it did,
    in order.  [pollLatest_run] proves that [pollLatest] does exactly this. *)
Definition afterFetch (P : Platform) (O : Oracle) (force : bool) (d : Disk)
    (b : jsstring) : Outcome PollResult * World :=
  let fresh := isNewFor P b (loadedState d) in
  let next := nextSet O (clock O) 0 (loadedSubs d) in
  let upToSave :=
    EvFetch :: EvRead STATE_FILE :: digestsOf P b ++ savesOf P b fresh in
  let upToWrite :=
    upToSave ++ EvRead SUBS_FILE
      :: map (sendEvent (payloadOf P b)) (loadedSubs d) ++ [EvWriteSubs next] in
  if negb fresh && negb force then
    (Returned {| changed := false; sent := false;
                 reason := Some (js "no new messages");
                 latest := summaryOf P b |},
     {| disk := d; trace := EvFetch :: EvRead STATE_FILE :: digestsOf P b |})
  else if fresh && negb (writable O STATE_FILE) then
    (Returned pollError, {| disk := d; trace := upToSave |})
  else if Nat.eqb (List.length (loadedSubs d)) 0 then
    (Returned {| changed := true; sent := false;
                 reason := Some (js "no subscriptions");
                 latest := summaryOf P b |},
     {| disk := savedDisk P b fresh d;
        trace := upToSave ++ [EvRead SUBS_FILE] |})
  else if writable O SUBS_FILE then
    (Returned {| changed := true; sent := true; reason := None;
                 latest := summaryOf P b |},
     {| disk := {| stateFile := stateFile (savedDisk P b fresh d);
                   subsFile := Some next |};
        trace := upToWrite |})
  else
    (Returned pollError,
     {| disk := savedDisk P b fresh d; trace := upToWrite |}).

(** The disk on which every file can be read and holds what the loads
    return for [d]. *)
Definition readable (d : Disk) : Disk :=
  {| stateFile := Some (loadedState d); subsFile := Some (loadedSubs d) |}.

(** The subscriptions with the number of the delivery each one gets. *)
Definition numbered (n : nat) (subs : list Subscription) : list (nat * Subscription) :=
  combine (seq n (List.length subs)) subs.

(** The body a browser posts for an endpoint and its keys. *)
Definition request (e : jsstring) (k : Keys) : SubscribeBody :=
  {| b_endpoint := Some e;
     b_keys := Some {| b_p256dh := Some (p256dh k); b_auth := Some (auth k) |} |}.

(** What [/subscribe] stores for a new endpoint. *)
Definition registered (id e : jsstring) (k : Keys) (time : jsstring) : Subscription :=
  {| sub_id := id; endpoint := e; keys := k; createdAt := time;
     lastNotifiedAt := None |}.

Definition hasId (id : jsstring) (item : Subscription) : bool :=
  jseqb (sub_id item) id.

(** The candidate in the words of the spec: the first of the identifier
    fields, in priority order, that the record has (neither [undefined]
    nor [null]). *)
Definition present (v : option json) : bool :=
  match v with
  | None | Some JNull => false
  | Some _ => true
  end.

Fixpoint firstPresent (names : list string) (r : json) : option json :=
  match names with
  | [] => None
  | k :: rest => if present (get k r) then get k r else firstPresent rest r
  end.

Definition idFields : list string := ["hash"; "id"; "timestamp"; "ts"]%string.

Definition asIdentifier (v : option json) : jsstring :=
  match v with
  | Some (JStr s) => s
  | Some (JNum n) => Number_toString n
  | _ => []
  end.

(* ------------------------------------------------------------------ *)
(** ** A sample feed, for the examples *)

(** A literal in which ['] stands for the double quote of JSON text. *)
Definition quoted (s : string) : jsstring :=
  map (fun c => if N.eqb c 39 then 34%N else c) (js s).

Module Sample.

(** The feed of the README: one post by Alice. *)
Definition body_abc : jsstring :=
  quoted "{'hash':'abc123','text':'name: Alice\nbody: Hello world'}".

Definition text_abc : jsstring :=
  js "name: Alice" ++ [10%N] ++ js "body: Hello world".

Definition record_abc : json :=
  JObj [(js "hash", JStr (js "abc123")); (js "text", JStr text_abc)].

(** A record whose [hash] is the empty string. *)
Definition body_nohash : jsstring :=
  quoted "{'hash':'','ts':'1700000000'}".

Definition record_nohash : json :=
  JObj [(js "hash", JStr []); (js "ts", JStr (js "1700000000"))].

(** A record identified by [id] only, without text. *)
Definition record_id : json := JObj [(js "id", JStr (js "42"))].

(** A body that is not JSON. *)
Definition body_plain : jsstring := js "hello".

(** [JSON.parse] and [apds.parseYaml] on the texts above, and a stand-in
    for the digest: no example depends on its value. *)
Definition platform : Platform :=
  {| JSON_parse := fun s =>
       if jseqb s body_abc then Some record_abc
       else if jseqb s body_nohash then Some record_nohash
       else None;
     SHA256 := fun s =>
       fold_left (fun h c => N.modulo (h * 65599 + c) (2 ^ 256)) s 0%N;
     parseYaml := fun t =>
       if jseqb t text_abc
       then Some (JObj [(js "name", JStr (js "Alice"));
                        (js "body", JStr (js "Hello world"))])
       else None;
     env_get := fun _ => None |}.

Definition stored (e : string) (auth : string) : Subscription :=
  {| sub_id := match subscriptionId (js e) with Some i => i | None => [] end;
     endpoint := js e;
     keys := {| p256dh := js "BPubKey"; auth := js auth |};
     createdAt := js "2025-12-31T08:00:00.000Z";
     lastNotifiedAt := None |}.

Definition alice : Subscription := stored "https://push.example/alice" "a1".
Definition bob : Subscription := stored "https://push.example/bob" "b2".
Definition carol : Subscription := stored "https://push.example/carol" "c3".

Definition now : jsstring := js "2026-01-01T00:00:00.000Z".

Definition answers (body : jsstring) : FetchResponse :=
  {| ok := true; status := 200; text := Some body |}.

(** Everything works; the second delivery of the run finds the endpoint
    gone (410). *)
Definition oracle (body : jsstring) : Oracle :=
  {| fetched := Some (answers body);
     pushOutcome := fun n =>
       match n with 1 => Refused (Some 410%Z) | _ => Delivered end;
     writable := fun _ => true;
     clock := now |}.

(** The same, with files that cannot be written. *)
Definition readOnly (body : jsstring) : Oracle :=
  {| fetched := Some (answers body);
     pushOutcome := pushOutcome (oracle body);
     writable := fun _ => false;
     clock := now |}.

(** The feed answers 503. *)
Definition down : Oracle :=
  {| fetched := Some {| ok := false; status := 503; text := None |};
     pushOutcome := fun _ => Delivered;
     writable := fun _ => true;
     clock := now |}.

Definition seen_abc : State :=
  {| lastSeenId := Some (js "abc123"); lastSeenHash := None |}.

Definition disk0 : Disk := {| stateFile := None; subsFile := None |}.

Definition disk3 : Disk :=
  {| stateFile := Some seen_abc; subsFile := Some [alice; bob; carol] |}.

End Sample.

(* ------------------------------------------------------------------ *)
(** ** More of the server: [/unsubscribe], encodings, [config.json] *)

(** The handler of [POST /unsubscribe].  [endpoint] is [body?.endpoint]:
    [None] when the request holds no JSON or no such property. *)
Definition unsubscribe (O : Oracle) (endpoint : option jsstring) : M HttpResponse :=
  if negb (truthy endpoint) then ret (jsonError "missing endpoint")
  else
    subs <- loadSubscriptions ;;
    id <- subscriptionIdM (orEmpty endpoint) ;;
    let nextSubs := filter (fun item => negb (jseqb (sub_id item) id)) subs in
    if negb (Nat.eqb (List.length nextSubs) (List.length subs))
    then saveSubscriptions O nextSubs ;; ret okResponse
    else ret okResponse.

(** Every stored id is the one [/subscribe] computes for the endpoint. *)
Definition wellFormed (subs : list Subscription) : Prop :=
  Forall (fun s => subscriptionId (endpoint s) = Some (sub_id s)) subs.

Definition ids (subs : list Subscription) : list jsstring := map sub_id subs.

Definition earlyReasons : list jsstring :=
  [js "poll error"; js "latest fetch failed"; js "empty response"].

Definition isHexDigit (c : codeunit) : bool :=
  existsb (N.eqb c) (js "0123456789abcdef").

Definition genericPayload (P : Platform) (latest : json) : Payload :=
  {| title := js "New anproto message";
     body := js "Tap to view the latest update";
     url := js "https://wiredove.net/";
     hash := [];
     icon := PUSH_ICON_URL P;
     p_latest := latest |}.

(** The characters of [base64] without the padding. *)
Fixpoint core (bytes : list N) : jsstring :=
  match bytes with
  | a :: b :: c :: rest =>
      sextet (N.shiftr a 2)
      :: sextet (N.lor (N.shiftl (N.land a 3) 4) (N.shiftr b 4))
      :: sextet (N.lor (N.shiftl (N.land b 15) 2) (N.shiftr c 6))
      :: sextet (N.land c 63)
      :: core rest
  | [a; b] =>
      [sextet (N.shiftr a 2);
       sextet (N.lor (N.shiftl (N.land a 3) 4) (N.shiftr b 4));
       sextet (N.shiftl (N.land b 15) 2)]
  | [a] => [sextet (N.shiftr a 2); sextet (N.shiftl (N.land a 3) 4)]
  | [] => []
  end.

(** The place of a character in the alphabet (64 when it has none). *)
Fixpoint indexOf (c : codeunit) (alphabet : jsstring) : N :=
  match alphabet with
  | [] => 0
  | x :: rest => if N.eqb c x then 0 else N.succ (indexOf c rest)
  end.

Definition unsextet (c : codeunit) : N := indexOf c base64Alphabet.

Definition below (k : nat) : list N := map N.of_nat (seq 0 k).

Definition isByte (n : N) : Prop := (n < 256)%N.

Definition hasEndpoint (e : jsstring) (s : Subscription) : bool :=
  jseqb (endpoint s) e.

Definition hexPair (b : N) : jsstring := padStart2 (toString16 b).

(** The configuration as [config.json] may hold it: a property the file
    does not have is [None]. *)
Record VapidConfig := {
  vapidPublicKey : option jsstring;
  vapidPrivateKey : option jsstring;
  vapidSubject : option jsstring
}.

Record KeyPair := { publicKey : jsstring; privateKey : jsstring }.

(** What the outside answers during one run of [ensureVapidConfig]: the
    pair [webpush.generateVAPIDKeys()] returns and whether [config.json]
    can be written. *)
Record ConfigOracle := {
  generateVAPIDKeys : KeyPair;
  configWritable : bool
}.

Inductive ConfigOutcome :=
| Configured (config : VapidConfig)
| ConfigWriteFailed.

(** A run: what it returns, what the file holds afterwards, and the writes
    it attempted. *)
Record ConfigRun := {
  outcome : ConfigOutcome;
  fileAfter : option VapidConfig;
  writes : list VapidConfig
}.

(** [await writeJsonFile(configPath, value); return value]. *)
Definition writeAndReturn (E : ConfigOracle) (file : option VapidConfig)
    (value : VapidConfig) : ConfigRun :=
  if configWritable E
  then {| outcome := Configured value; fileAfter := Some value; writes := [value] |}
  else {| outcome := ConfigWriteFailed; fileAfter := file; writes := [value] |}.

Definition ensureVapidConfig (E : ConfigOracle) (subject : jsstring)
    (file : option VapidConfig) : ConfigRun :=
  let fallback :=
    {| vapidPublicKey := Some []; vapidPrivateKey := Some [];
       vapidSubject := Some subject |} in
  let config := match file with Some c => c | None => fallback end in
  if negb (truthy (vapidPublicKey config)) || negb (truthy (vapidPrivateKey config))
  then
    let keys := generateVAPIDKeys E in
    writeAndReturn E file
      {| vapidPublicKey := Some (publicKey keys);
         vapidPrivateKey := Some (privateKey keys);
         vapidSubject :=
           Some (if truthy (vapidSubject config)
                 then orEmpty (vapidSubject config) else subject) |}
  else if negb (truthy (vapidSubject config))
  then
    writeAndReturn E file
      {| vapidPublicKey := vapidPublicKey config;
         vapidPrivateKey := vapidPrivateKey config;
         vapidSubject := Some subject |}
  else {| outcome := Configured config; fileAfter := file; writes := [] |}.

Definition VAPID_SUBJECT (P : Platform) : jsstring :=
  match env_get P "VAPID_SUBJECT" with
  | Some v => v
  | None => js "mailto:ops@wiredove.net"
  end.

(** [loadOrCreateConfig] of [server.ts]. *)
Definition loadOrCreateConfig (P : Platform) (E : ConfigOracle)
    (file : option VapidConfig) : ConfigRun :=
  ensureVapidConfig E (VAPID_SUBJECT P) file.

Definition complete (c : VapidConfig) : Prop :=
  truthy (vapidPublicKey c) = true
  /\ truthy (vapidPrivateKey c) = true
  /\ truthy (vapidSubject c) = true.

Module Cases.

(** Every endpoint is gone: each delivery is refused with 410. *)
Definition allGone (body : jsstring) : Oracle :=
  {| fetched := Some (Sample.answers body);
     pushOutcome := fun _ => Refused (Some 410%Z);
     writable := fun _ => true;
     clock := Sample.now |}.

(** The feed cannot be reached: [fetch] rejects. *)
Definition offline : Oracle :=
  {| fetched := None;
     pushOutcome := fun _ => Delivered;
     writable := fun _ => true;
     clock := Sample.now |}.

Definition freshKeys : ConfigOracle :=
  {| generateVAPIDKeys := {| publicKey := js "BNewPublic"; privateKey := js "newPrivate" |};
     configWritable := true |}.

(** A [config.json] that lost its private key. *)
Definition halfConfig : VapidConfig :=
  {| vapidPublicKey := Some (js "BOldPublic");
     vapidPrivateKey := None;
     vapidSubject := Some (js "mailto:me@example.org") |}.

(** A record that has all four identifier fields, each with another
    value; [timestamp] is a number. *)
Definition body_all : jsstring :=
  quoted "{'hash':'abc123','id':'42','timestamp':1700000001,'ts':'1700000000'}".

Definition record_all : json :=
  JObj [(js "hash", JStr (js "abc123"));
        (js "id", JStr (js "42"));
        (js "timestamp", JNum {| num_first := 49%N; num_rest := js "700000001" |});
        (js "ts", JStr (js "1700000000"))].

(** [Sample.platform], with [JSON.parse] knowing [body_all] too. *)
Definition reader : Platform :=
  {| JSON_parse := fun s =>
       if jseqb s body_all then Some record_all
       else JSON_parse Sample.platform s;
     SHA256 := SHA256 Sample.platform;
     parseYaml := parseYaml Sample.platform;
     env_get := env_get Sample.platform |}.

(** An address that [btoa] refuses: its last code unit is U+2713. *)
Definition oddEndpoint : jsstring := js "https://push.example/" ++ [10003%N].

End Cases.

(** Poll cycles run one after the other, none overlapping another or a
    request: each starts on the files the one before left.  What they do,
    in order, and the files after the last one. *)
Fixpoint cycles (P : Platform) (runs : list (Oracle * bool)) (d : Disk)
    : list Event * Disk :=
  match runs with
  | [] => ([], d)
  | (answers, force) :: rest =>
      let w := snd (run (pollLatest P answers force) d) in
      let (later, d') := cycles P rest (disk w) in
      (trace w ++ later, d')
  end.

(* ------------------------------------------------------------------ *)
(** ** Strings and fingerprints *)

Lemma jseqb_eq (a b : jsstring) : jseqb a b = true <-> a = b.
Proof.
  revert b; induction a as [|x a IH]; intros [|y b]; simpl; split; intro H;
    try reflexivity; try discriminate.
  - apply andb_true_iff in H as [Hx Hr]. apply N.eqb_eq in Hx.
    apply IH in Hr. congruence.
  - inversion H; subst. rewrite N.eqb_refl. simpl. now apply IH.
Qed.

Lemma jseqb_refl (a : jsstring) : jseqb a a = true.
Proof. now apply jseqb_eq. Qed.

Lemma strictNeq_same (a : jsstring) : strictNeq a (Some a) = false.
Proof. unfold strictNeq. now rewrite jseqb_refl. Qed.

Lemma nonEmpty_true (s : jsstring) : nonEmpty s = true <-> s <> [].
Proof. destruct s; simpl; split; intro H; congruence. Qed.

Lemma nonEmpty_false (s : jsstring) : nonEmpty s = false <-> s = [].
Proof. destruct s; simpl; split; intro H; congruence. Qed.

Lemma hexOf_acc (bytes : list N) (acc : jsstring) :
  fold_left (fun out b => out ++ padStart2 (toString16 b)) bytes acc
  = acc ++ hexOf bytes.
Proof.
  unfold hexOf. revert acc.
  induction bytes as [|b bytes IH] using rev_ind; intro acc.
  - simpl. now rewrite app_nil_r.
  - rewrite !fold_left_app. simpl. rewrite IH. now rewrite app_assoc.
Qed.

Lemma padStart2_length (s : jsstring) : List.length (padStart2 s) >= 2 .
Proof. destruct s as [|a [|b s]]; simpl; lia. Qed.

Lemma hexOf_length (bytes : list N) :
  List.length (hexOf bytes) = 2 * List.length bytes.
Proof.
  induction bytes as [|b bytes IH] using rev_ind.
  - reflexivity.
  - unfold hexOf in *. rewrite fold_left_app. simpl.
    rewrite !length_app, IH. simpl.
    unfold toString16. destruct (N.ltb b 16); simpl; lia.
Qed.

Lemma fingerprint_length (P : Platform) (text : jsstring) :
  List.length (fingerprint P text) = 64.
Proof.
  unfold fingerprint. rewrite hexOf_length. unfold digestBytes.
  rewrite length_map, length_seq. reflexivity.
Qed.

Lemma fingerprint_nonEmpty (P : Platform) (text : jsstring) :
  nonEmpty (fingerprint P text) = true.
Proof.
  pose proof (fingerprint_length P text) as H.
  destruct (fingerprint P text); [discriminate | reflexivity].
Qed.


(* ------------------------------------------------------------------ *)
(** ** The dispatch loop *)

Lemma gone_spec (status : option Z) :
  gone status = true <-> status = Some 404%Z \/ status = Some 410%Z.
Proof.
  destruct status as [c|]; simpl.
  - rewrite orb_true_iff, !Z.eqb_eq. split; intros [H|H]; [left|right|left|right]; congruence.
  - split; [discriminate | intros [H|H]; discriminate].
Qed.

Lemma dispatch_run (O : Oracle) (payload : Payload) (now : jsstring)
    (subs : list Subscription) :
  forall (n : nat) (acc : list Subscription) (w : World),
    dispatch O payload now n subs acc w
    = (Returned (acc ++ nextSet O now n subs),
       {| disk := disk w; trace := trace w ++ map (sendEvent payload) subs |}).
Proof.
  induction subs as [|sub rest IH]; intros n acc w.
  - simpl. unfold ret. rewrite !app_nil_r. now destruct w.
  - simpl dispatch. unfold bind at 1. unfold try_catch, sendNotification, bind, emit.
    simpl. destruct (pushOutcome O n) as [|sc] eqn:Hout; simpl.
    + rewrite IH. simpl. rewrite <- !app_assoc. reflexivity.
    + unfold throw. destruct (gone sc); simpl; rewrite IH; simpl;
        rewrite <- !app_assoc; reflexivity.
Qed.

(* ------------------------------------------------------------------ *)
(** ** The cycle once the feed has answered with a body *)

Arguments js : simpl never.
Arguments dispatch : simpl never.
Arguments isNew : simpl never.
Arguments trim : simpl never.
Section CycleEquation.
#[local] Arguments parseBody : simpl never.
#[local] Arguments toPushPayload : simpl never.
#[local] Arguments summarizeLatest : simpl never.
#[local] Arguments fingerprint : simpl never.
#[local] Arguments orUndefined : simpl never.
#[local] Arguments nonEmpty : simpl never.
#[local] Arguments option_map : simpl never.

Lemma pollLatest_run (P : Platform) (O : Oracle) (force : bool) (d : Disk)
    (res : FetchResponse) (b : jsstring) :
  fetched O = Some res ->
  ok res = true ->
  text res = Some b ->
  nonEmpty (trim b) = true ->
  run (pollLatest P O force) d = afterFetch P O force d b.
Proof.
  intros Hfetch Hok Htext Hbody.
  unfold afterFetch, digestsOf, savesOf, savedDisk.
  unfold isNewFor, markerOf, latestHashOf, loadedState, loadedSubs, summaryOf, payloadOf.
  unfold run, pollLatest, try_catch, bind, fetchLatest, emit, res_text, ret, throw.
  cbn. rewrite Hfetch. cbn. rewrite Hok. cbn. rewrite Htext. cbn.
  rewrite Hbody. cbn.
  unfold loadState, loadSubscriptions, readJsonFile, try_catch, readAndParse, ret,
    hashText, saveState, saveSubscriptions, writeJsonFile, bind, emit, ret.
  cbn.
  destruct (stateFile d) as [st|]; cbn;
    destruct (nonEmpty (latestId (parseBody P b))) eqn:Hid; cbn;
    match goal with |- context [isNew ?i ?h ?s] => destruct (isNew i h s) eqn:Hnew end;
    cbn; destruct force; cbn; try reflexivity;
    destruct (writable O STATE_FILE); cbn; try reflexivity;
    destruct (subsFile d) as [subs|]; cbn; try reflexivity;
    try (destruct (Nat.eqb (List.length subs) 0) eqn:Hlen; cbn; try reflexivity;
         rewrite dispatch_run; cbn; destruct (writable O SUBS_FILE); cbn; reflexivity).
Qed.

End CycleEquation.

Lemma strictNeq_none (a : jsstring) : strictNeq a None = true.
Proof. reflexivity. Qed.

Lemma pollLatest_rejected (P : Platform) (O : Oracle) (force : bool) (d : Disk) :
  fetched O = None ->
  run (pollLatest P O force) d
  = (Returned pollError, {| disk := d; trace := [EvFetch] |}).
Proof.
  intros Hfetch.
  unfold run, pollLatest, try_catch, bind, fetchLatest, emit, ret, throw.
  cbn. rewrite Hfetch. reflexivity.
Qed.

Lemma pollLatest_not_ok (P : Platform) (O : Oracle) (force : bool) (d : Disk)
    (res : FetchResponse) :
  fetched O = Some res ->
  ok res = false ->
  run (pollLatest P O force) d
  = (Returned {| changed := false; sent := false;
                 reason := Some (js "latest fetch failed"); latest := None |},
     {| disk := d; trace := [EvFetch] |}).
Proof.
  intros Hfetch Hok.
  unfold run, pollLatest, try_catch, bind, fetchLatest, emit, ret, throw.
  cbn. rewrite Hfetch. cbn. rewrite Hok. reflexivity.
Qed.

Lemma pollLatest_no_body (P : Platform) (O : Oracle) (force : bool) (d : Disk)
    (res : FetchResponse) :
  fetched O = Some res ->
  ok res = true ->
  text res = None ->
  run (pollLatest P O force) d
  = (Returned pollError, {| disk := d; trace := [EvFetch] |}).
Proof.
  intros Hfetch Hok Htext.
  unfold run, pollLatest, try_catch, bind, fetchLatest, emit, res_text, ret, throw.
  cbn. rewrite Hfetch. cbn. rewrite Hok. cbn. rewrite Htext. reflexivity.
Qed.

Lemma pollLatest_blank (P : Platform) (O : Oracle) (force : bool) (d : Disk)
    (res : FetchResponse) (b : jsstring) :
  fetched O = Some res ->
  ok res = true ->
  text res = Some b ->
  trim b = [] ->
  run (pollLatest P O force) d
  = (Returned {| changed := false; sent := false;
                 reason := Some (js "empty response"); latest := None |},
     {| disk := d; trace := [EvFetch] |}).
Proof.
  intros Hfetch Hok Htext Hblank.
  unfold run, pollLatest, try_catch, bind, fetchLatest, emit, res_text, ret, throw.
  cbn. rewrite Hfetch. cbn. rewrite Hok. cbn. rewrite Htext. cbn.
  rewrite Hblank. reflexivity.
Qed.

(* ------------------------------------------------------------------ *)
(** ** Reading traces *)

Lemma handled_iff (P : Platform) (b : jsstring) (s : State) :
  handled P b s <-> isNewFor P b s = false.
Proof.
  unfold handled, isNewFor, isNew, latestHashOf, strictNeq.
  destruct (nonEmpty (latestId (parseBody P b))).
  - destruct (lastSeenId s) as [x|]; split; intro H; try discriminate.
    + inversion H; subst. now rewrite jseqb_refl.
    + apply negb_false_iff, jseqb_eq in H. now subst.
  - destruct (lastSeenHash s) as [x|]; split; intro H; try discriminate.
    + inversion H; subst. now rewrite jseqb_refl.
    + apply negb_false_iff, jseqb_eq in H. now subst.
Qed.

Lemma sends_are_sends (payload : Payload) (subs : list Subscription) :
  filter isSend (map (sendEvent payload) subs) = map (sendEvent payload) subs.
Proof. induction subs as [|s l IH]; simpl; [reflexivity | now rewrite IH]. Qed.

Lemma sends_only (f : Event -> bool) (payload : Payload) (subs : list Subscription) :
  (forall e k p, f (EvSend e k p) = false) ->
  filter f (map (sendEvent payload) subs) = [].
Proof.
  intro Hf. induction subs as [|s l IH]; [reflexivity |].
  cbn [map filter]. unfold sendEvent at 1. now rewrite Hf.
Qed.

Lemma digests_only (f : Event -> bool) (P : Platform) (b : jsstring) :
  (forall t, f (EvDigest t) = false) ->
  filter f (digestsOf P b) = [].
Proof.
  intro Hf. unfold digestsOf.
  destruct (nonEmpty _); simpl; [reflexivity | now rewrite Hf].
Qed.

Ltac read_trace :=
  cbn [trace disk fst snd];
  repeat (rewrite ?filter_app; cbn [filter isSend isStateWrite isSubsWrite isDigest isStoreAccess app]);
  rewrite ?sends_are_sends;
  repeat rewrite sends_only by reflexivity;
  repeat rewrite digests_only by reflexivity;
  cbn [app]; rewrite ?app_nil_r.

(* ------------------------------------------------------------------ *)
(** ** Unavailable feed *)

(** C8: when the feed answers with a non-success response, or with a body
    that is empty once trimmed, the cycle stops at once: it returns
    [changed = false] and [sent = false] with the reason
    "latest fetch failed" or "empty response", the fetch is the only thing
    it did, and neither file has been read or written. *)
Theorem unavailable_feed_is_atomic (P : Platform) (O : Oracle) (force : bool)
    (d : Disk) (res : FetchResponse) :
  fetched O = Some res ->
  (ok res = false \/ exists b, text res = Some b /\ trim b = []) ->
  exists r w',
    run (pollLatest P O force) d = (Returned r, w')
    /\ changed r = false
    /\ sent r = false
    /\ reason r = Some (if ok res then js "empty response"
                        else js "latest fetch failed")
    /\ disk w' = d
    /\ trace w' = [EvFetch]
    /\ filter isStoreAccess (trace w') = [].
Proof.
  intros Hfetch Hcase.
  destruct (ok res) eqn:Hok.
  - destruct Hcase as [Hno | [b [Htext Hblank]]]; [discriminate |].
    do 2 eexists.
    split; [now apply pollLatest_blank with (res := res) (b := b) |].
    repeat split.
  - do 2 eexists. split; [now apply pollLatest_not_ok with (res := res) |].
    repeat split.
Qed.

Lemma unavailable_feed_is_atomic_witness :
  exists r w',
    run (pollLatest Sample.platform Sample.down false) Sample.disk3
    = (Returned r, w')
    /\ changed r = false
    /\ sent r = false
    /\ reason r = Some (js "latest fetch failed")
    /\ disk w' = Sample.disk3
    /\ trace w' = [EvFetch]
    /\ filter isStoreAccess (trace w') = [].
Proof.
  apply (@unavailable_feed_is_atomic Sample.platform Sample.down false
           Sample.disk3 {| ok := false; status := 503; text := None |}).
  - reflexivity.
  - left. reflexivity.
Defined.

(* ------------------------------------------------------------------ *)
(** ** Polling content that was handled before *)

(** C1: when the stored marker is the one of the fetched body (its
    identifier, or its fingerprint when it has none), a soft cycle returns
    [changed = false] and [sent = false] with the reason "no new messages",
    sends nothing, writes neither file and leaves both files as they
    were. *)
Theorem idempotent_repoll (P : Platform) (O : Oracle) (d : Disk)
    (res : FetchResponse) (b : jsstring) (s : State) :
  fetched O = Some res ->
  ok res = true ->
  text res = Some b ->
  trim b <> [] ->
  stateFile d = Some s ->
  handled P b s ->
  exists r w',
    run (pollLatest P O false) d = (Returned r, w')
    /\ changed r = false
    /\ sent r = false
    /\ reason r = Some (js "no new messages")
    /\ disk w' = d
    /\ filter isSend (trace w') = []
    /\ filter isStateWrite (trace w') = []
    /\ filter isSubsWrite (trace w') = [].
Proof.
  intros Hfetch Hok Htext Hbody Hstate Hseen.
  apply nonEmpty_true in Hbody.
  rewrite (pollLatest_run P O false d Hfetch Hok Htext Hbody).
  unfold afterFetch, loadedState. rewrite Hstate.
  apply handled_iff in Hseen. rewrite Hseen. cbn [negb andb].
  do 2 eexists. split; [reflexivity |].
  repeat split; read_trace; reflexivity.
Qed.

Lemma idempotent_repoll_witness :
  exists r w',
    run (pollLatest Sample.platform (Sample.oracle Sample.body_abc) false)
      Sample.disk3 = (Returned r, w')
    /\ changed r = false
    /\ sent r = false
    /\ reason r = Some (js "no new messages")
    /\ disk w' = Sample.disk3
    /\ filter isSend (trace w') = []
    /\ filter isStateWrite (trace w') = []
    /\ filter isSubsWrite (trace w') = [].
Proof.
  apply (@idempotent_repoll Sample.platform (Sample.oracle Sample.body_abc)
           Sample.disk3 (Sample.answers Sample.body_abc) Sample.body_abc
           Sample.seen_abc).
  - reflexivity.
  - reflexivity.
  - reflexivity.
  - vm_compute. discriminate.
  - reflexivity.
  - vm_compute. reflexivity.
Defined.


Lemma marker_is_handled (P : Platform) (b : jsstring) :
  isNewFor P b (markerOf P b) = false.
Proof.
  apply handled_iff. unfold handled, markerOf, latestHashOf, orUndefined.
  destruct (nonEmpty (latestId (parseBody P b))) eqn:Hid.
  - reflexivity.
  - rewrite fingerprint_nonEmpty. reflexivity.
Qed.

(** Two soft cycles in a row on the same body: once the first has stored
    the marker, the second one changes nothing and sends nothing. *)
Lemma consecutive_soft_cycles (P : Platform) (O1 O2 : Oracle) (d : Disk)
    (res1 res2 : FetchResponse) (b : jsstring) :
  fetched O1 = Some res1 -> ok res1 = true -> text res1 = Some b ->
  fetched O2 = Some res2 -> ok res2 = true -> text res2 = Some b ->
  trim b <> [] ->
  writable O1 STATE_FILE = true ->
  exists r1 w1 r2 w2,
    run (pollLatest P O1 false) d = (Returned r1, w1)
    /\ run (pollLatest P O2 false) (disk w1) = (Returned r2, w2)
    /\ changed r2 = false
    /\ sent r2 = false
    /\ disk w2 = disk w1
    /\ filter isSend (trace w2) = [].
Proof.
  intros Hf1 Hok1 Ht1 Hf2 Hok2 Ht2 Hbody Hwrite.
  apply nonEmpty_true in Hbody.
  rewrite (pollLatest_run P O1 false d Hf1 Hok1 Ht1 Hbody).
  assert (Hsecond : forall d1, isNewFor P b (loadedState d1) = false ->
            exists r2 w2,
              run (pollLatest P O2 false) d1 = (Returned r2, w2)
              /\ changed r2 = false /\ sent r2 = false /\ disk w2 = d1
              /\ filter isSend (trace w2) = []).
  { intros d1 Hseen.
    rewrite (pollLatest_run P O2 false d1 Hf2 Hok2 Ht2 Hbody).
    unfold afterFetch. rewrite Hseen. cbn [negb andb].
    do 2 eexists. split; [reflexivity |].
    split; [reflexivity |]. split; [reflexivity |]. split; [reflexivity |].
    read_trace. reflexivity. }
  unfold afterFetch. rewrite Hwrite.
  destruct (isNewFor P b (loadedState d)) eqn:Hnew; cbn [negb andb savedDisk].
  - assert (Hm : forall subs,
              isNewFor P b (loadedState {| stateFile := Some (markerOf P b);
                                           subsFile := subs |}) = false)
      by (intro subs; apply marker_is_handled).
    destruct (Nat.eqb _ 0); [| destruct (writable O1 SUBS_FILE)].
    + destruct (Hsecond _ (Hm (subsFile d))) as [r2 [w2 [Hrun Hrest]]].
      do 2 eexists. exists r2, w2. split; [reflexivity |].
      split; [exact Hrun |]. exact Hrest.
    + destruct (Hsecond _ (Hm (Some (nextSet O1 (clock O1) 0 (loadedSubs d)))))
        as [r2 [w2 [Hrun Hrest]]].
      do 2 eexists. exists r2, w2. split; [reflexivity |].
      split; [exact Hrun |]. exact Hrest.
    + destruct (Hsecond _ (Hm (subsFile d))) as [r2 [w2 [Hrun Hrest]]].
      do 2 eexists. exists r2, w2. split; [reflexivity |].
      split; [exact Hrun |]. exact Hrest.
  - destruct (Hsecond d Hnew) as [r2 [w2 [Hrun Hrest]]].
    do 2 eexists. exists r2, w2. split; [reflexivity |].
    split; [exact Hrun |]. exact Hrest.
Qed.

(** C2: a forced cycle on a body whose marker is already stored attempts
    a delivery to every stored subscription, in order, and writes no
    marker: the state file is what it was.  In any cycle, a marker is
    written only when the body was classified as new, and it is then the
    marker of that body. *)
Theorem forced_dispatch_keeps_marker (P : Platform) (O : Oracle) (d : Disk) :
  (forall res b s,
     fetched O = Some res ->
     ok res = true ->
     text res = Some b ->
     trim b <> [] ->
     stateFile d = Some s ->
     handled P b s ->
     exists out w',
       run (pollLatest P O true) d = (out, w')
       /\ stateFile (disk w') = stateFile d
       /\ filter isStateWrite (trace w') = []
       /\ filter isSend (trace w')
          = map (sendEvent (payloadOf P b)) (loadedSubs d))
  /\ (forall force out w' m,
        run (pollLatest P O force) d = (out, w') ->
        In (EvWriteState m) (trace w') ->
        exists res b,
          fetched O = Some res
          /\ ok res = true
          /\ text res = Some b
          /\ isNewFor P b (loadedState d) = true
          /\ m = markerOf P b).
Proof.
  split.
  - intros res b s Hfetch Hok Htext Hbody Hstate Hseen.
    apply nonEmpty_true in Hbody.
    assert (Hloaded : loadedState d = s)
      by (unfold loadedState; now rewrite Hstate).
    rewrite (pollLatest_run P O true d Hfetch Hok Htext Hbody).
    unfold afterFetch. rewrite Hloaded.
    apply handled_iff in Hseen. rewrite Hseen. cbn [negb andb savesOf savedDisk].
    destruct (loadedSubs d) as [|sub subs] eqn:Hsubs.
    + cbn [List.length Nat.eqb]. do 2 eexists. split; [reflexivity |].
      repeat split; read_trace; reflexivity.
    + cbn [List.length Nat.eqb].
      destruct (writable O SUBS_FILE); do 2 eexists;
        (split; [reflexivity |]); repeat split; read_trace; try reflexivity.
  - intros force out w' m Hrun Hin.
    assert (Hearly : forall t, t = [EvFetch] -> ~ In (EvWriteState m) t)
      by (intros t -> [H | []]; discriminate).
    destruct (fetched O) as [res|] eqn:Hfetch.
    2: { rewrite (pollLatest_rejected P O force d Hfetch) in Hrun.
         inversion Hrun; subst. now apply (Hearly _ eq_refl) in Hin. }
    destruct (ok res) eqn:Hok.
    2: { rewrite (pollLatest_not_ok P O force d Hfetch Hok) in Hrun.
         inversion Hrun; subst. now apply (Hearly _ eq_refl) in Hin. }
    destruct (text res) as [b|] eqn:Htext.
    2: { rewrite (pollLatest_no_body P O force d Hfetch Hok Htext) in Hrun.
         inversion Hrun; subst. now apply (Hearly _ eq_refl) in Hin. }
    destruct (nonEmpty (trim b)) eqn:Hbody.
    2: { apply nonEmpty_false in Hbody.
         rewrite (pollLatest_blank P O force d Hfetch Hok Htext Hbody) in Hrun.
         inversion Hrun; subst. now apply (Hearly _ eq_refl) in Hin. }
    exists res, b.
    split; [reflexivity |]. split; [exact Hok |]. split; [exact Htext |].
    rewrite (pollLatest_run P O force d Hfetch Hok Htext Hbody) in Hrun.
    unfold afterFetch in Hrun.
    destruct (isNewFor P b (loadedState d)) eqn:Hnew.
    + split; [reflexivity |].
      assert (Hw : filter isStateWrite (trace w') = [EvWriteState (markerOf P b)]).
      { cbn [negb andb savesOf savedDisk] in Hrun.
        destruct (negb (writable O STATE_FILE));
          [|destruct (Nat.eqb _ 0); [|destruct (writable O SUBS_FILE)]];
          inversion Hrun; subst; read_trace; reflexivity. }
      assert (Hm : In (EvWriteState m) (filter isStateWrite (trace w')))
        by (apply filter_In; split; [exact Hin | reflexivity]).
      rewrite Hw in Hm. destruct Hm as [Hm | []]. now inversion Hm.
    + exfalso.
      assert (Hw : filter isStateWrite (trace w') = []).
      { cbn [negb andb savesOf savedDisk] in Hrun.
        destruct (negb force);
          [|destruct (Nat.eqb _ 0); [|destruct (writable O SUBS_FILE)]];
          inversion Hrun; subst; read_trace; reflexivity. }
      assert (Hm : In (EvWriteState m) (filter isStateWrite (trace w')))
        by (apply filter_In; split; [exact Hin | reflexivity]).
      rewrite Hw in Hm. exact Hm.
Qed.

Lemma forced_dispatch_keeps_marker_witness :
  exists out w',
    run (pollLatest Sample.platform (Sample.oracle Sample.body_abc) true)
      Sample.disk3 = (out, w')
    /\ stateFile (disk w') = stateFile Sample.disk3
    /\ filter isStateWrite (trace w') = []
    /\ filter isSend (trace w')
       = map (sendEvent (payloadOf Sample.platform Sample.body_abc))
           (loadedSubs Sample.disk3).
Proof.
  apply (proj1 (forced_dispatch_keeps_marker Sample.platform
                  (Sample.oracle Sample.body_abc) Sample.disk3))
    with (res := Sample.answers Sample.body_abc) (s := Sample.seen_abc).
  - reflexivity.
  - reflexivity.
  - reflexivity.
  - vm_compute. discriminate.
  - reflexivity.
  - vm_compute. reflexivity.
Defined.

Lemma loadState_run (d : Disk) :
  run loadState d
  = (Returned (loadedState d), {| disk := d; trace := [EvRead STATE_FILE] |}).
Proof.
  unfold run, loadState, readJsonFile, try_catch, readAndParse, loadedState, ret.
  cbn. destruct (stateFile d); reflexivity.
Qed.

Lemma loadSubscriptions_run (d : Disk) :
  run loadSubscriptions d
  = (Returned (loadedSubs d), {| disk := d; trace := [EvRead SUBS_FILE] |}).
Proof.
  unfold run, loadSubscriptions, readJsonFile, try_catch, readAndParse, loadedSubs, ret.
  cbn. destruct (subsFile d); reflexivity.
Qed.

Lemma isNewFor_emptyState (P : Platform) (b : jsstring) :
  isNewFor P b emptyState = true.
Proof.
  unfold isNewFor, isNew. now destruct (nonEmpty _).
Qed.

(* ------------------------------------------------------------------ *)
(** ** New content and no subscription *)

Lemma markerOf_cases (P : Platform) (b : jsstring) :
  (latestId (parseBody P b) <> []
   /\ markerOf P b = {| lastSeenId := Some (latestId (parseBody P b));
                        lastSeenHash := None |})
  \/ (latestId (parseBody P b) = []
      /\ markerOf P b = {| lastSeenId := None;
                           lastSeenHash := Some (fingerprint P b) |}).
Proof.
  unfold markerOf, latestHashOf, orUndefined.
  destruct (latestId (parseBody P b)) as [|c id] eqn:Hid.
  - right. split; [reflexivity |]. cbn [nonEmpty].
    now rewrite fingerprint_nonEmpty.
  - left. split; [discriminate | reflexivity].
Qed.

(** A cycle that finds new content and no subscription returns the reason
    "no subscriptions", which is not "no recipients". *)
Lemma no_recipients_reason_counterexample :
  exists r w',
    run (pollLatest Sample.platform (Sample.oracle Sample.body_abc) false)
      Sample.disk0 = (Returned r, w')
    /\ isNewFor Sample.platform Sample.body_abc (loadedState Sample.disk0) = true
    /\ loadedSubs Sample.disk0 = []
    /\ changed r = true
    /\ reason r = Some (js "no subscriptions")
    /\ reason r <> Some (js "no recipients").
Proof.
  do 2 eexists. split; [vm_compute; reflexivity |].
  split; [vm_compute; reflexivity |].
  split; [vm_compute; reflexivity |].
  split; [vm_compute; reflexivity |].
  split; [vm_compute; reflexivity |].
  vm_compute. discriminate.
Qed.

(** C7: a cycle that fetches new content while no subscription is stored,
    and whose write of the marker succeeds, returns [changed = true] and
    [sent = false] with the reason "no subscriptions", sends nothing, and
    has written the marker of the new content (its identifier, or its
    fingerprint when it has none) before it read the subscriptions. *)
Theorem new_content_without_subscriptions (P : Platform) (O : Oracle)
    (force : bool) (d : Disk) (res : FetchResponse) (b : jsstring) :
  fetched O = Some res ->
  ok res = true ->
  text res = Some b ->
  trim b <> [] ->
  isNewFor P b (loadedState d) = true ->
  loadedSubs d = [] ->
  writable O STATE_FILE = true ->
  exists w' before,
    run (pollLatest P O force) d
    = (Returned {| changed := true; sent := false;
                   reason := Some (js "no subscriptions");
                   latest := summaryOf P b |}, w')
    /\ filter isSend (trace w') = []
    /\ trace w' = before ++ [EvWriteState (markerOf P b); EvRead SUBS_FILE]
    /\ stateFile (disk w') = Some (markerOf P b)
    /\ subsFile (disk w') = subsFile d
    /\ ((latestId (parseBody P b) <> []
         /\ markerOf P b = {| lastSeenId := Some (latestId (parseBody P b));
                              lastSeenHash := None |})
        \/ (latestId (parseBody P b) = []
            /\ markerOf P b = {| lastSeenId := None;
                                 lastSeenHash := Some (fingerprint P b) |})).
Proof.
  intros Hfetch Hok Htext Hbody Hnew Hsubs Hwrite.
  apply nonEmpty_true in Hbody.
  rewrite (pollLatest_run P O force d Hfetch Hok Htext Hbody).
  unfold afterFetch. rewrite Hnew, Hsubs, Hwrite.
  cbn [negb andb savesOf savedDisk List.length Nat.eqb].
  exists {| disk := {| stateFile := Some (markerOf P b); subsFile := subsFile d |};
            trace := (EvFetch :: EvRead STATE_FILE :: digestsOf P b
                        ++ [EvWriteState (markerOf P b)]) ++ [EvRead SUBS_FILE] |}.
  exists (EvFetch :: EvRead STATE_FILE :: digestsOf P b).
  split; [reflexivity |].
  split; [read_trace; reflexivity |].
  split; [cbn [trace app]; now rewrite <- app_assoc |].
  split; [reflexivity |].
  split; [reflexivity |].
  apply markerOf_cases.
Qed.

Lemma new_content_without_subscriptions_witness :
  exists w' before,
    run (pollLatest Sample.platform (Sample.oracle Sample.body_abc) false)
      Sample.disk0
    = (Returned {| changed := true; sent := false;
                   reason := Some (js "no subscriptions");
                   latest := summaryOf Sample.platform Sample.body_abc |}, w')
    /\ trace w'
       = before ++ [EvWriteState Sample.seen_abc; EvRead SUBS_FILE]
    /\ stateFile (disk w') = Some Sample.seen_abc.
Proof.
  destruct (@new_content_without_subscriptions Sample.platform
              (Sample.oracle Sample.body_abc) false Sample.disk0
              (Sample.answers Sample.body_abc) Sample.body_abc)
    as [w' [before [Hrun [_ [Htrace [Hstate _]]]]]].
  - reflexivity.
  - reflexivity.
  - reflexivity.
  - vm_compute. discriminate.
  - vm_compute. reflexivity.
  - reflexivity.
  - reflexivity.
  - exists w', before. split; [exact Hrun |]. split.
    + rewrite Htrace. vm_compute. reflexivity.
    + rewrite Hstate. vm_compute. reflexivity.
Defined.

(* ------------------------------------------------------------------ *)
(** ** Files that cannot be read or written *)

(** C10: the loads never throw.  [loadState] always returns, and returns
    the empty marker when the state file cannot be read or parsed, so that
    whatever is fetched next is classified as new; [loadSubscriptions]
    always returns, and returns the empty list when the subscriptions file
    cannot be read or parsed, so that a cycle that gets that far reports
    "no subscriptions" and sends nothing. *)
Theorem loads_total_under_read_failure :
  (forall d, exists s,
      run loadState d
      = (Returned s, {| disk := d; trace := [EvRead STATE_FILE] |}))
  /\ (forall d, stateFile d = None ->
        run loadState d
        = (Returned emptyState, {| disk := d; trace := [EvRead STATE_FILE] |}))
  /\ (forall P b d, stateFile d = None ->
        isNewFor P b (loadedState d) = true)
  /\ (forall d, exists subs,
        run loadSubscriptions d
        = (Returned subs, {| disk := d; trace := [EvRead SUBS_FILE] |}))
  /\ (forall d, subsFile d = None ->
        run loadSubscriptions d
        = (Returned [], {| disk := d; trace := [EvRead SUBS_FILE] |}))
  /\ (forall P O force d res b,
        fetched O = Some res ->
        ok res = true ->
        text res = Some b ->
        trim b <> [] ->
        subsFile d = None ->
        isNewFor P b (loadedState d) || force = true ->
        writable O STATE_FILE = true ->
        exists w',
          run (pollLatest P O force) d
          = (Returned {| changed := true; sent := false;
                         reason := Some (js "no subscriptions");
                         latest := summaryOf P b |}, w')
          /\ filter isSend (trace w') = []).
Proof.
  split; [intro d; eexists; apply loadState_run |].
  split.
  { intros d Hnone. rewrite loadState_run. unfold loadedState.
    now rewrite Hnone. }
  split.
  { intros P b d Hnone. unfold loadedState. rewrite Hnone.
    apply isNewFor_emptyState. }
  split; [intro d; eexists; apply loadSubscriptions_run |].
  split.
  { intros d Hnone. rewrite loadSubscriptions_run. unfold loadedSubs.
    now rewrite Hnone. }
  intros P O force d res b Hfetch Hok Htext Hbody Hsubs Hgo Hwrite.
  apply nonEmpty_true in Hbody.
  rewrite (pollLatest_run P O force d Hfetch Hok Htext Hbody).
  unfold afterFetch.
  assert (Hl : loadedSubs d = []) by (unfold loadedSubs; now rewrite Hsubs).
  rewrite Hl, Hwrite. cbn [List.length Nat.eqb negb].
  rewrite andb_false_r.
  assert (Hcont : negb (isNewFor P b (loadedState d)) && negb force = false)
    by (rewrite <- negb_orb, Hgo; reflexivity).
  rewrite Hcont. eexists. split; [reflexivity |].
  unfold savesOf. destruct (isNewFor P b (loadedState d)); read_trace; reflexivity.
Qed.

Lemma loads_total_under_read_failure_witness :
  exists w',
    run (pollLatest Sample.platform (Sample.oracle Sample.body_abc) false)
      Sample.disk0
    = (Returned {| changed := true; sent := false;
                   reason := Some (js "no subscriptions");
                   latest := summaryOf Sample.platform Sample.body_abc |}, w')
    /\ filter isSend (trace w') = [].
Proof.
  apply (proj2 (proj2 (proj2 (proj2 (proj2 loads_total_under_read_failure))))
           Sample.platform (Sample.oracle Sample.body_abc) false Sample.disk0
           (Sample.answers Sample.body_abc) Sample.body_abc).
  - reflexivity.
  - reflexivity.
  - reflexivity.
  - vm_compute. discriminate.
  - reflexivity.
  - reflexivity.
  - reflexivity.
Defined.


(** A cycle whose state file cannot be read and whose write of the marker
    fails throws nothing: it returns the "poll error" summary. *)
Lemma write_failure_is_caught_counterexample :
  exists r w' m,
    run (pollLatest Sample.platform (Sample.readOnly Sample.body_abc) false)
      Sample.disk0 = (Returned r, w')
    /\ In (EvWriteState m) (trace w')
    /\ writable (Sample.readOnly Sample.body_abc) STATE_FILE = false
    /\ stateFile (disk w') = None
    /\ r = pollError
    /\ forall e,
         fst (run (pollLatest Sample.platform
                     (Sample.readOnly Sample.body_abc) false) Sample.disk0)
         <> Thrown e.
Proof.
  do 3 eexists. split; [vm_compute; reflexivity |].
  split; [cbn [trace]; right; right; left; reflexivity |].
  split; [reflexivity |]. split; [reflexivity |]. split; [reflexivity |].
  intros e. vm_compute. discriminate.
Qed.


Lemma in_filter_nil (f : Event -> bool) (ev : Event) (t : list Event) :
  f ev = true -> filter f t = [] -> ~ In ev t.
Proof.
  intros Hf Hnil Hin.
  assert (H : In ev (filter f t)) by (apply filter_In; now split).
  now rewrite Hnil in H.
Qed.

Lemma afterFetch_returns (P : Platform) (O : Oracle) (force : bool) (d : Disk)
    (b : jsstring) :
  exists r w',
    afterFetch P O force d b = (Returned r, w')
    /\ (filter isStateWrite (trace w') <> [] -> writable O STATE_FILE = false ->
        r = pollError)
    /\ (filter isSubsWrite (trace w') <> [] -> writable O SUBS_FILE = false ->
        r = pollError).
Proof.
  unfold afterFetch, savesOf.
  destruct (isNewFor P b (loadedState d)); destruct force;
    destruct (writable O STATE_FILE); cbn [negb andb];
    try (do 2 eexists; split; [reflexivity |]; split; intros Hw Hno;
         first [ reflexivity | discriminate
               | exfalso; apply Hw; read_trace; reflexivity ]);
    destruct (Nat.eqb (List.length (loadedSubs d)) 0);
    try (do 2 eexists; split; [reflexivity |]; split; intros Hw Hno;
         first [ reflexivity | discriminate
               | exfalso; apply Hw; read_trace; reflexivity ]);
    destruct (writable O SUBS_FILE);
    do 2 eexists; (split; [reflexivity |]); split; intros Hw Hno;
    first [ reflexivity | discriminate
          | exfalso; apply Hw; read_trace; reflexivity ].
Qed.

Lemma afterFetch_readable (P : Platform) (O : Oracle) (force : bool) (d : Disk)
    (b : jsstring) :
  fst (afterFetch P O force d b) = fst (afterFetch P O force (readable d) b)
  /\ trace (snd (afterFetch P O force d b))
     = trace (snd (afterFetch P O force (readable d) b)).
Proof.
  unfold afterFetch.
  change (loadedState (readable d)) with (loadedState d).
  change (loadedSubs (readable d)) with (loadedSubs d).
  destruct (negb (isNewFor P b (loadedState d)) && negb force);
    [split; reflexivity |].
  destruct (isNewFor P b (loadedState d) && negb (writable O STATE_FILE));
    [split; reflexivity |].
  destruct (Nat.eqb (List.length (loadedSubs d)) 0); [split; reflexivity |].
  destruct (writable O SUBS_FILE); split; reflexivity.
Qed.

(** C9: no failure of a store leaves the cycle.  Every cycle returns a
    summary; when a write of the state file or of the subscriptions file
    was attempted and failed, the summary is [changed = false],
    [sent = false], reason "poll error"; and a file that cannot be read is
    taken for its fallback: the cycle returns and does what it would on a
    disk whose files hold the fallbacks. *)
Theorem store_failures_stay_in_the_cycle (P : Platform) (O : Oracle)
    (force : bool) (d : Disk) :
  exists r w',
    run (pollLatest P O force) d = (Returned r, w')
    /\ (forall m, In (EvWriteState m) (trace w') ->
        writable O STATE_FILE = false -> r = pollError)
    /\ (forall subs, In (EvWriteSubs subs) (trace w') ->
        writable O SUBS_FILE = false -> r = pollError)
    /\ fst (run (pollLatest P O force) (readable d)) = Returned r
    /\ trace (snd (run (pollLatest P O force) (readable d))) = trace w'.
Proof.
  destruct (fetched O) as [res|] eqn:Hfetch.
  2: { rewrite !(pollLatest_rejected P O force _ Hfetch).
       do 2 eexists. split; [reflexivity |].
       repeat split; intros x [Hin | []]; discriminate. }
  destruct (ok res) eqn:Hok.
  2: { rewrite !(pollLatest_not_ok P O force _ Hfetch Hok).
       do 2 eexists. split; [reflexivity |].
       repeat split; intros x [Hin | []]; discriminate. }
  destruct (text res) as [b|] eqn:Htext.
  2: { rewrite !(pollLatest_no_body P O force _ Hfetch Hok Htext).
       do 2 eexists. split; [reflexivity |].
       repeat split; intros x [Hin | []]; discriminate. }
  destruct (nonEmpty (trim b)) eqn:Hbody.
  2: { apply nonEmpty_false in Hbody.
       rewrite !(pollLatest_blank P O force _ Hfetch Hok Htext Hbody).
       do 2 eexists. split; [reflexivity |].
       repeat split; intros x [Hin | []]; discriminate. }
  rewrite !(pollLatest_run P O force _ Hfetch Hok Htext Hbody).
  destruct (afterFetch_returns P O force d b) as [r [w' [Hrun [Hstate Hsubs]]]].
  destruct (afterFetch_readable P O force d b) as [Hfst Htrace].
  exists r, w'. rewrite <- Hfst, <- Htrace, Hrun.
  split; [reflexivity |].
  split.
  { intros m Hin Hno. apply Hstate; [| exact Hno].
    intro Hnil. now apply (in_filter_nil isStateWrite (EvWriteState m) (trace w')). }
  split.
  { intros subs Hin Hno. apply Hsubs; [| exact Hno].
    intro Hnil. now apply (in_filter_nil isSubsWrite (EvWriteSubs subs) (trace w')). }
  split; reflexivity.
Qed.

(* ------------------------------------------------------------------ *)
(** ** Dispatch and pruning *)

Lemma nextSet_concat (O : Oracle) (now : jsstring) (subs : list Subscription) :
  forall n,
    nextSet O now n subs
    = List.concat (map (fun ns => retained now (pushOutcome O (fst ns)) (snd ns))
                (numbered n subs)).
Proof.
  unfold numbered.
  induction subs as [|sub rest IH]; intro n; [reflexivity |].
  cbn [nextSet List.length seq combine map List.concat fst snd].
  now rewrite IH.
Qed.

Lemma retained_cases (now : jsstring) (sub : Subscription) :
  retained now Delivered sub = [notifiedAt now sub]
  /\ retained now (Refused (Some 404%Z)) sub = []
  /\ retained now (Refused (Some 410%Z)) sub = []
  /\ (forall status, status <> Some 404%Z -> status <> Some 410%Z ->
      retained now (Refused status) sub = [sub]).
Proof.
  repeat split. intros status H404 H410. unfold retained.
  destruct (gone status) eqn:Hgone; [| reflexivity].
  apply gone_spec in Hgone. tauto.
Qed.

(** C4: in a cycle that dispatches, a delivery is attempted for every
    stored subscription in order; the next set keeps a subscription when
    its delivery succeeded, with its id, endpoint, keys and [createdAt] as
    they were and [lastNotifiedAt] set to the time of the dispatch, drops
    it when the delivery failed with status 404 or 410, and keeps it
    unchanged when the delivery failed otherwise; the next set is written
    once, after the last delivery, and nothing else is written to the
    subscriptions file. *)
Theorem selective_pruning (P : Platform) (O : Oracle) (force : bool)
    (d : Disk) (res : FetchResponse) (b : jsstring) :
  fetched O = Some res ->
  ok res = true ->
  text res = Some b ->
  trim b <> [] ->
  isNewFor P b (loadedState d) || force = true ->
  (isNewFor P b (loadedState d) = true -> writable O STATE_FILE = true) ->
  loadedSubs d <> [] ->
  exists out w' before,
    run (pollLatest P O force) d = (out, w')
    /\ trace w'
       = before ++ map (sendEvent (payloadOf P b)) (loadedSubs d)
           ++ [EvWriteSubs (nextSet O (clock O) 0 (loadedSubs d))]
    /\ filter isSend before = []
    /\ filter isSubsWrite before = []
    /\ filter isSubsWrite (trace w')
       = [EvWriteSubs (nextSet O (clock O) 0 (loadedSubs d))]
    /\ nextSet O (clock O) 0 (loadedSubs d)
       = List.concat (map (fun ns => retained (clock O) (pushOutcome O (fst ns)) (snd ns))
                   (numbered 0 (loadedSubs d)))
    /\ (forall sub,
          retained (clock O) Delivered sub = [notifiedAt (clock O) sub]
          /\ notifiedAt (clock O) sub
             = {| sub_id := sub_id sub;
                  endpoint := endpoint sub;
                  keys := keys sub;
                  createdAt := createdAt sub;
                  lastNotifiedAt := Some (clock O) |}
          /\ lastNotifiedAt (notifiedAt (clock O) sub) = Some (clock O)
          /\ retained (clock O) (Refused (Some 404%Z)) sub = []
          /\ retained (clock O) (Refused (Some 410%Z)) sub = []
          /\ (forall status, status <> Some 404%Z -> status <> Some 410%Z ->
              retained (clock O) (Refused status) sub = [sub]))
    /\ (writable O SUBS_FILE = true ->
        subsFile (disk w') = Some (nextSet O (clock O) 0 (loadedSubs d))
        /\ out = Returned {| changed := true; sent := true; reason := None;
                             latest := summaryOf P b |}).
Proof.
  intros Hfetch Hok Htext Hbody Hgo Hstate Hsubs.
  apply nonEmpty_true in Hbody.
  rewrite (pollLatest_run P O force d Hfetch Hok Htext Hbody).
  unfold afterFetch.
  assert (Hcont : negb (isNewFor P b (loadedState d)) && negb force = false)
    by (rewrite <- negb_orb, Hgo; reflexivity).
  assert (Hsave : isNewFor P b (loadedState d) && negb (writable O STATE_FILE) = false).
  { destruct (isNewFor P b (loadedState d)); [| reflexivity].
    now rewrite Hstate. }
  assert (Hlen : Nat.eqb (List.length (loadedSubs d)) 0 = false)
    by (destruct (loadedSubs d); [contradiction | reflexivity]).
  rewrite Hcont, Hsave, Hlen.
  destruct (writable O SUBS_FILE) eqn:Hw; do 2 eexists;
    exists (EvFetch :: EvRead STATE_FILE :: digestsOf P b
              ++ savesOf P b (isNewFor P b (loadedState d)) ++ [EvRead SUBS_FILE]);
    (split; [reflexivity |]);
    (split; [cbn [trace app]; rewrite <- !app_assoc; reflexivity |]);
    (split; [unfold savesOf; destruct (isNewFor _ _ _); read_trace; reflexivity |]);
    (split; [unfold savesOf; destruct (isNewFor _ _ _); read_trace; reflexivity |]);
    (split; [unfold savesOf; destruct (isNewFor _ _ _); read_trace; reflexivity |]);
    (split; [apply nextSet_concat |]);
    (split; [intro sub; destruct (retained_cases (clock O) sub) as [H1 [H2 [H3 H4]]];
             repeat split; assumption |]);
    intro Hyes; [split; reflexivity | discriminate].
Qed.

Lemma selective_pruning_witness :
  exists out w' before,
    run (pollLatest Sample.platform (Sample.oracle Sample.body_abc) true)
      Sample.disk3 = (out, w')
    /\ trace w'
       = before
           ++ map (sendEvent (payloadOf Sample.platform Sample.body_abc))
                [Sample.alice; Sample.bob; Sample.carol]
           ++ [EvWriteSubs [notifiedAt Sample.now Sample.alice;
                            notifiedAt Sample.now Sample.carol]]
    /\ subsFile (disk w')
       = Some [{| sub_id := js "aHR0cHM6Ly9wdXNoLmV4YW1wbGUvYWxpY2U";
                  endpoint := js "https://push.example/alice";
                  keys := {| p256dh := js "BPubKey"; auth := js "a1" |};
                  createdAt := js "2025-12-31T08:00:00.000Z";
                  lastNotifiedAt := Some (js "2026-01-01T00:00:00.000Z") |};
               {| sub_id := js "aHR0cHM6Ly9wdXNoLmV4YW1wbGUvY2Fyb2w";
                  endpoint := js "https://push.example/carol";
                  keys := {| p256dh := js "BPubKey"; auth := js "c3" |};
                  createdAt := js "2025-12-31T08:00:00.000Z";
                  lastNotifiedAt := Some (js "2026-01-01T00:00:00.000Z") |}].
Proof.
  destruct (@selective_pruning Sample.platform (Sample.oracle Sample.body_abc)
              true Sample.disk3 (Sample.answers Sample.body_abc)
              Sample.body_abc eq_refl eq_refl eq_refl
              ltac:(vm_compute; discriminate) eq_refl
              ltac:(vm_compute; discriminate)
              ltac:(vm_compute; discriminate))
    as [out [w' [before [Hrun [Htrace [_ [_ [_ [_ [_ Hdisk]]]]]]]]]].
  exists out, w', before.
  split; [exact Hrun |].
  split; [exact Htrace |].
  rewrite (proj1 (Hdisk eq_refl)).
  vm_compute. reflexivity.
Defined.

(* ------------------------------------------------------------------ *)
(** ** Registration *)

Lemma find_none_filter (f : Subscription -> bool) (l : list Subscription) :
  find f l = None -> filter f l = [].
Proof.
  induction l as [|x l IH]; [reflexivity |].
  cbn [find filter]. destruct (f x); [discriminate | exact IH].
Qed.

Lemma subscribe_run (O : Oracle) (d : Disk) (e id : jsstring) (k : Keys) :
  e <> [] -> p256dh k <> [] -> auth k <> [] ->
  subscriptionId e = Some id ->
  run (subscribe O (Some (request e k))) d
  = match find (hasId id) (loadedSubs d) with
    | Some _ =>
        (Returned okResponse, {| disk := d; trace := [EvRead SUBS_FILE] |})
    | None =>
        let subs := loadedSubs d ++ [registered id e k (clock O)] in
        if writable O SUBS_FILE
        then (Returned okResponse,
              {| disk := {| stateFile := stateFile d; subsFile := Some subs |};
                 trace := [EvRead SUBS_FILE; EvWriteSubs subs] |})
        else (Thrown (WriteError SUBS_FILE),
              {| disk := d; trace := [EvRead SUBS_FILE; EvWriteSubs subs] |})
    end.
Proof.
  intros He Hp Ha Hid.
  unfold run, subscribe, request.
  cbn [b_endpoint b_keys keys_p256dh keys_auth b_p256dh b_auth truthy orEmpty].
  apply nonEmpty_true in He, Hp, Ha. rewrite He, Hp, Ha. cbn [negb orb].
  unfold bind, loadSubscriptions, readJsonFile, try_catch, readAndParse,
    subscriptionIdM, saveSubscriptions, writeJsonFile, loadedSubs, ret, hasId.
  cbn. rewrite Hid.
  destruct k as [p a].
  destruct (subsFile d) as [subs|]; cbn.
  - destruct (find _ subs); cbn; [reflexivity |].
    destruct (writable O SUBS_FILE); reflexivity.
  - destruct (writable O SUBS_FILE); reflexivity.
Qed.

(** The addresses [btoa] accepts. *)
Lemma encodable (e : jsstring) :
  Forall isByte e <-> forallb (fun c => N.ltb c 256) e = true.
Proof.
  rewrite forallb_forall, Forall_forall. unfold isByte.
  split; intros H x Hx; apply N.ltb_lt; now apply H.
Qed.

Lemma subscriptionId_defined (e : jsstring) :
  Forall isByte e -> exists id, subscriptionId e = Some id.
Proof.
  intro H. apply encodable in H. unfold subscriptionId, btoa. rewrite H.
  eexists. reflexivity.
Qed.

(** Two registrations of one endpoint, the first of which is stored. *)
Lemma registration_twice (O1 O2 : Oracle) (d : Disk) (e id : jsstring)
    (k1 k2 : Keys) :
  e <> [] ->
  p256dh k1 <> [] -> auth k1 <> [] ->
  p256dh k2 <> [] -> auth k2 <> [] ->
  subscriptionId e = Some id ->
  find (hasId id) (loadedSubs d) = None ->
  writable O1 SUBS_FILE = true ->
  exists w1 w2,
    run (subscribe O1 (Some (request e k1))) d = (Returned okResponse, w1)
    /\ run (subscribe O2 (Some (request e k2))) (disk w1)
       = (Returned okResponse, w2)
    /\ disk w2 = disk w1
    /\ filter isSubsWrite (trace w2) = []
    /\ subsFile (disk w2)
       = Some (loadedSubs d ++ [registered id e k1 (clock O1)])
    /\ filter (hasId id) (loadedSubs (disk w2))
       = [registered id e k1 (clock O1)].
Proof.
  intros He Hp1 Ha1 Hp2 Ha2 Hid Hnew Hwrite.
  set (first := registered id e k1 (clock O1)).
  assert (Hfilter : filter (hasId id) (loadedSubs d ++ [first]) = [first]).
  { rewrite filter_app, (find_none_filter _ _ Hnew). cbn.
    unfold hasId. cbn. now rewrite jseqb_refl. }
  assert (Hfound : exists x, find (hasId id) (loadedSubs d ++ [first]) = Some x).
  { destruct (find (hasId id) (loadedSubs d ++ [first])) as [x|] eqn:Hf;
      [now exists x |].
    apply find_none_filter in Hf. rewrite Hf in Hfilter. discriminate. }
  destruct Hfound as [x Hx].
  exists {| disk := {| stateFile := stateFile d;
                       subsFile := Some (loadedSubs d ++ [first]) |};
            trace := [EvRead SUBS_FILE; EvWriteSubs (loadedSubs d ++ [first])] |}.
  rewrite (subscribe_run O1 d k1 He Hp1 Ha1 Hid), Hnew, Hwrite.
  rewrite (subscribe_run O2 _ k2 He Hp2 Ha2 Hid).
  cbn [disk].
  change (loadedSubs {| stateFile := stateFile d;
                        subsFile := Some (loadedSubs d ++ [first]) |})
    with (loadedSubs d ++ [first]).
  rewrite Hx.
  eexists. split; [reflexivity |]. split; [reflexivity |].
  split; [reflexivity |]. split; [reflexivity |]. split; [reflexivity |].
  exact Hfilter.
Qed.

(** An address with a code unit above 255: [btoa] throws in the first
    registration and in the second, each time after the subscriptions were
    read and before anything is written; no subscription with that address
    is stored. *)
Lemma unencodable_address_counterexample :
  Cases.oddEndpoint <> []
  /\ subscriptionId Cases.oddEndpoint = None
  /\ run (subscribe (Sample.oracle Sample.body_abc)
            (Some (request Cases.oddEndpoint
                     {| p256dh := js "BKey1"; auth := js "s1" |})))
       Sample.disk3
     = (Thrown InvalidCharacterError,
        {| disk := Sample.disk3; trace := [EvRead SUBS_FILE] |})
  /\ run (subscribe (Sample.oracle Sample.body_abc)
            (Some (request Cases.oddEndpoint
                     {| p256dh := js "BKey2"; auth := js "s2" |})))
       Sample.disk3
     = (Thrown InvalidCharacterError,
        {| disk := Sample.disk3; trace := [EvRead SUBS_FILE] |})
  /\ List.length (filter (hasEndpoint Cases.oddEndpoint) (loadedSubs Sample.disk3))
     <> 1.
Proof.
  split; [vm_compute; discriminate |].
  split; [vm_compute; reflexivity |].
  split; [vm_compute; reflexivity |].
  split; [vm_compute; reflexivity |].
  vm_compute. discriminate.
Qed.


(* ------------------------------------------------------------------ *)
(** ** The identifier of a record *)

Lemma nullish_present (a b : option json) :
  nullish a b = if present a then a else b.
Proof. destruct a as [[]|]; reflexivity. Qed.

Lemma asIdentifier_absent (v : option json) :
  present v = false -> asIdentifier v = [].
Proof. destruct v as [[]|]; try discriminate; reflexivity. Qed.

Lemma idOf_priority (r : json) :
  idOf (Some r) = asIdentifier (firstPresent idFields r).
Proof.
  unfold idOf, candidateOf, idFields. cbn [firstPresent].
  rewrite !nullish_present.
  destruct (present (get "hash" r)); [reflexivity |].
  destruct (present (get "id" r)); [reflexivity |].
  destruct (present (get "timestamp" r)); [reflexivity |].
  destruct (present (get "ts" r)) eqn:Hts; [reflexivity |].
  destruct (get "ts" r) as [[]|]; try discriminate; reflexivity.
Qed.

Lemma latestId_of_record (P : Platform) (b : jsstring) (r : json) :
  latestRecord (parseBody P b) = Some r ->
  latestId (parseBody P b) = idOf (Some r).
Proof.
  unfold parseBody. destruct (JSON_parse P b) as [v|]; cbn.
  - now intros ->.
  - discriminate.
Qed.

Lemma afterFetch_digests (P : Platform) (O : Oracle) (force : bool) (d : Disk)
    (b : jsstring) :
  filter isDigest (trace (snd (afterFetch P O force d b))) = digestsOf P b.
Proof.
  assert (Hd : filter isDigest (digestsOf P b) = digestsOf P b)
    by (unfold digestsOf; now destruct (nonEmpty _)).
  unfold afterFetch, savesOf.
  destruct (isNewFor P b (loadedState d)); destruct force; cbn [negb andb];
    try (cbn [snd trace filter isDigest]; exact Hd);
    destruct (writable O STATE_FILE); cbn [negb];
    try (cbn [snd]; read_trace; rewrite Hd, ?app_nil_r; reflexivity);
    destruct (Nat.eqb _ 0);
    try (cbn [snd]; read_trace; rewrite Hd, ?app_nil_r; reflexivity);
    destruct (writable O SUBS_FILE);
    cbn [snd]; read_trace; rewrite Hd, ?app_nil_r; reflexivity.
Qed.

(** A record with an empty [hash] and a [ts]: no identifier is taken from
    it, the fingerprint is computed and the fingerprint is what the marker
    records. *)
Lemma empty_hash_counterexample :
  latestRecord (parseBody Sample.platform Sample.body_nohash)
  = Some Sample.record_nohash
  /\ get "hash" Sample.record_nohash = Some (JStr [])
  /\ get "ts" Sample.record_nohash = Some (JStr (js "1700000000"))
  /\ latestId (parseBody Sample.platform Sample.body_nohash) = []
  /\ In (EvDigest Sample.body_nohash)
        (trace (snd (run (pollLatest Sample.platform
                            (Sample.oracle Sample.body_nohash) false)
                       Sample.disk3)))
  /\ stateFile (disk (snd (run (pollLatest Sample.platform
                                  (Sample.oracle Sample.body_nohash) false)
                             Sample.disk3)))
     = Some {| lastSeenId := None;
               lastSeenHash :=
                 Some (fingerprint Sample.platform Sample.body_nohash) |}.
Proof.
  split; [vm_compute; reflexivity |].
  split; [vm_compute; reflexivity |].
  split; [vm_compute; reflexivity |].
  split; [vm_compute; reflexivity |].
  split; [vm_compute; right; right; left; reflexivity |].
  vm_compute. reflexivity.
Qed.


(** The marker writes of a cycle that got a body, and the state file it
    leaves. *)
Lemma afterFetch_state_writes (P : Platform) (O : Oracle) (force : bool)
    (d : Disk) (b : jsstring) :
  filter isStateWrite (trace (snd (afterFetch P O force d b)))
  = savesOf P b (isNewFor P b (loadedState d)).
Proof.
  unfold afterFetch, savesOf.
  destruct (isNewFor P b (loadedState d)); destruct force; cbn [negb andb];
    try (cbn [snd]; read_trace; reflexivity);
    destruct (writable O STATE_FILE); cbn [negb];
    try (cbn [snd]; read_trace; reflexivity);
    destruct (Nat.eqb _ 0);
    try (cbn [snd]; read_trace; reflexivity);
    destruct (writable O SUBS_FILE);
    cbn [snd]; read_trace; reflexivity.
Qed.

Lemma afterFetch_stateFile (P : Platform) (O : Oracle) (force : bool)
    (d : Disk) (b : jsstring) :
  stateFile (disk (snd (afterFetch P O force d b)))
  = if isNewFor P b (loadedState d) && writable O STATE_FILE
    then Some (markerOf P b)
    else stateFile d.
Proof.
  unfold afterFetch, savedDisk.
  destruct (isNewFor P b (loadedState d)); destruct force; cbn [negb andb];
    try reflexivity;
    destruct (writable O STATE_FILE); cbn [negb];
    try reflexivity;
    destruct (Nat.eqb _ 0);
    try reflexivity;
    destruct (writable O SUBS_FILE); reflexivity.
Qed.

(** C3: the identifier of a fetched record is taken from the first of
    [hash], [id], [timestamp], [ts] that is neither undefined nor null: it
    is that value when it is a string, its decimal form when it is a
    number, and empty otherwise.  When [hash] is a non-empty string or a
    number, it is the identifier whatever the other fields hold: no
    fingerprint is computed, the cycle writes a marker exactly when the
    identifier differs from the stored one, and the marker written and
    stored holds the identifier and no fingerprint.  When the identifier
    is empty, the fingerprint of the body is computed once, the cycle
    writes a marker exactly when the fingerprint differs from the stored
    one, and the marker written and stored holds the fingerprint and no
    identifier. *)
Theorem identifier_priority (P : Platform) (O : Oracle) (force : bool)
    (d : Disk) (res : FetchResponse) (b : jsstring) (r : json) :
  fetched O = Some res ->
  ok res = true ->
  text res = Some b ->
  trim b <> [] ->
  latestRecord (parseBody P b) = Some r ->
  latestId (parseBody P b) = asIdentifier (firstPresent idFields r)
  /\ (forall h,
        (get "hash" r = Some (JStr h) /\ h <> [])
        \/ (exists n, get "hash" r = Some (JNum n) /\ h = Number_toString n) ->
        latestId (parseBody P b) = h
        /\ markerOf P b = {| lastSeenId := Some h; lastSeenHash := None |}
        /\ isNewFor P b (loadedState d)
           = strictNeq h (lastSeenId (loadedState d))
        /\ filter isDigest
             (trace (snd (run (pollLatest P O force) d))) = []
        /\ filter isStateWrite
             (trace (snd (run (pollLatest P O force) d)))
           = (if strictNeq h (lastSeenId (loadedState d))
              then [EvWriteState {| lastSeenId := Some h; lastSeenHash := None |}]
              else [])
        /\ stateFile (disk (snd (run (pollLatest P O force) d)))
           = (if strictNeq h (lastSeenId (loadedState d))
                 && writable O STATE_FILE
              then Some {| lastSeenId := Some h; lastSeenHash := None |}
              else stateFile d))
  /\ (latestId (parseBody P b) = [] ->
      filter isDigest (trace (snd (run (pollLatest P O force) d)))
      = [EvDigest b]
      /\ isNewFor P b (loadedState d)
         = strictNeq (fingerprint P b) (lastSeenHash (loadedState d))
      /\ filter isStateWrite
           (trace (snd (run (pollLatest P O force) d)))
         = (if strictNeq (fingerprint P b) (lastSeenHash (loadedState d))
            then [EvWriteState {| lastSeenId := None;
                                  lastSeenHash := Some (fingerprint P b) |}]
            else [])
      /\ stateFile (disk (snd (run (pollLatest P O force) d)))
         = (if strictNeq (fingerprint P b) (lastSeenHash (loadedState d))
               && writable O STATE_FILE
            then Some {| lastSeenId := None;
                         lastSeenHash := Some (fingerprint P b) |}
            else stateFile d)).
Proof.
  intros Hfetch Hok Htext Hbody Hrec.
  apply nonEmpty_true in Hbody.
  pose proof (latestId_of_record P b Hrec) as Hid.
  rewrite (pollLatest_run P O force d Hfetch Hok Htext Hbody).
  rewrite afterFetch_digests, afterFetch_state_writes, afterFetch_stateFile.
  split; [now rewrite Hid, idOf_priority |].
  split.
  2: { intros Hnone.
       assert (Hnew : isNewFor P b (loadedState d)
                      = strictNeq (fingerprint P b) (lastSeenHash (loadedState d)))
         by (unfold isNewFor, isNew, latestHashOf; now rewrite Hnone).
       assert (Hmark : markerOf P b
                       = {| lastSeenId := None;
                            lastSeenHash := Some (fingerprint P b) |}).
       { unfold markerOf, latestHashOf. rewrite Hnone. cbn [nonEmpty orUndefined].
         unfold orUndefined. now rewrite fingerprint_nonEmpty. }
       unfold digestsOf, savesOf. rewrite Hnone, Hnew, Hmark. cbn [nonEmpty].
       repeat split. }
  intros h Hhash.
  assert (Hh : latestId (parseBody P b) = h /\ nonEmpty h = true).
  { rewrite Hid. unfold idOf, candidateOf.
    destruct Hhash as [[Hs Hne] | [n [Hn ->]]].
    - rewrite Hs. cbn. split; [reflexivity | now apply nonEmpty_true].
    - rewrite Hn. cbn. split; reflexivity. }
  destruct Hh as [Hh Hne].
  assert (Hmark : markerOf P b = {| lastSeenId := Some h; lastSeenHash := None |})
    by (unfold markerOf, latestHashOf, orUndefined; rewrite Hh, Hne; reflexivity).
  assert (Hnew : isNewFor P b (loadedState d)
                 = strictNeq h (lastSeenId (loadedState d)))
    by (unfold isNewFor, isNew; rewrite Hh, Hne; reflexivity).
  split; [exact Hh |].
  split; [exact Hmark |].
  split; [exact Hnew |].
  unfold digestsOf, savesOf. rewrite Hh, Hne, Hnew, Hmark.
  repeat split.
Qed.

Lemma identifier_priority_witness :
  get "hash" Cases.record_all = Some (JStr (js "abc123"))
  /\ get "id" Cases.record_all = Some (JStr (js "42"))
  /\ get "timestamp" Cases.record_all
     = Some (JNum {| num_first := 49%N; num_rest := js "700000001" |})
  /\ get "ts" Cases.record_all = Some (JStr (js "1700000000"))
  /\ latestId (parseBody Cases.reader Cases.body_all) = js "abc123"
  /\ filter isDigest
       (trace (snd (run (pollLatest Cases.reader
                           (Sample.oracle Cases.body_all) false)
                      Sample.disk0))) = []
  /\ stateFile (disk (snd (run (pollLatest Cases.reader
                                  (Sample.oracle Cases.body_all) false)
                             Sample.disk0)))
     = Some {| lastSeenId := Some (js "abc123"); lastSeenHash := None |}.
Proof.
  destruct (@identifier_priority Cases.reader (Sample.oracle Cases.body_all)
              false Sample.disk0 (Sample.answers Cases.body_all)
              Cases.body_all Cases.record_all eq_refl eq_refl eq_refl
              ltac:(vm_compute; discriminate)
              ltac:(vm_compute; reflexivity)) as [_ [Huse _]].
  destruct (Huse (js "abc123")) as [Hid [_ [_ [Hdigest [_ Hstore]]]]].
  { left. split; [vm_compute; reflexivity | vm_compute; discriminate]. }
  split; [vm_compute; reflexivity |].
  split; [vm_compute; reflexivity |].
  split; [vm_compute; reflexivity |].
  split; [vm_compute; reflexivity |].
  split; [exact Hid |].
  split; [exact Hdigest |].
  exact Hstore.
Defined.

(* ------------------------------------------------------------------ *)
(** ** The payload *)

Lemma trimStart_suffix (s : jsstring) : exists p, s = p ++ trimStart s.
Proof.
  induction s as [|c s [p IH]]; [now exists [] |].
  cbn [trimStart]. destruct (isWhiteSpace c).
  - exists (c :: p). cbn. now rewrite <- IH.
  - now exists [].
Qed.

Lemma trimStart_head (s : jsstring) (c : codeunit) (t : jsstring) :
  trimStart s = c :: t -> isWhiteSpace c = false.
Proof.
  induction s as [|x s IH]; [discriminate |].
  cbn [trimStart]. destruct (isWhiteSpace x) eqn:Hx; [exact IH |].
  intro H. inversion H; subst. exact Hx.
Qed.

Lemma trimStart_clean (c : codeunit) (t : jsstring) :
  isWhiteSpace c = false -> trimStart (c :: t) = c :: t.
Proof. intro H. cbn [trimStart]. now rewrite H. Qed.

Lemma trimStart_idempotent (s : jsstring) :
  trimStart (trimStart s) = trimStart s.
Proof.
  destruct (trimStart s) as [|c t] eqn:H; [reflexivity |].
  apply trimStart_clean. exact (trimStart_head s H).
Qed.

Lemma trimEnd_prefix (s : jsstring) : exists q, s = trimEnd s ++ q.
Proof.
  unfold trimEnd. destruct (trimStart_suffix (rev s)) as [p Hp].
  exists (rev p). rewrite <- rev_app_distr, <- Hp. now rewrite rev_involutive.
Qed.

Lemma trimEnd_idempotent (s : jsstring) : trimEnd (trimEnd s) = trimEnd s.
Proof.
  unfold trimEnd. now rewrite rev_involutive, trimStart_idempotent.
Qed.

Lemma trim_idempotent (s : jsstring) : trim (trim s) = trim s.
Proof.
  unfold trim.
  assert (H : trimStart (trimEnd (trimStart s)) = trimEnd (trimStart s)).
  { destruct (trimEnd_prefix (trimStart s)) as [q Hq].
    destruct (trimEnd (trimStart s)) as [|c t] eqn:He; [reflexivity |].
    apply trimStart_clean. cbn in Hq. exact (trimStart_head s Hq). }
  rewrite H. apply trimEnd_idempotent.
Qed.

Lemma formatPushBody_trimmed (s : jsstring) :
  trim s <> [] -> formatPushBody (Some (trim s)) = trim s.
Proof.
  intro H. unfold formatPushBody. rewrite trim_idempotent.
  apply nonEmpty_true in H. now rewrite H.
Qed.

Lemma formatPushTitle_name (n : jsstring) :
  n <> [] -> formatPushTitle (Some n) = js "New Wiredove Message from " ++ n.
Proof. destruct n; [contradiction | reflexivity]. Qed.

Lemma trimmedField_string (v : option json) (s : jsstring) :
  v = Some (JStr s) -> trim s <> [] -> trimmedField v = Some (trim s).
Proof.
  intros -> H. unfold trimmedField, orUndefined. cbn [stringField].
  apply nonEmpty_true in H. now rewrite H.
Qed.

Lemma trimmedField_nonEmpty (v : option json) (s : jsstring) :
  trimmedField v = Some s -> s <> [].
Proof.
  unfold trimmedField, orUndefined.
  destruct (stringField v) as [x|]; [| discriminate].
  destruct (nonEmpty (trim x)) eqn:H; [| discriminate].
  intro E. inversion E; subst. now apply nonEmpty_true.
Qed.

(** A record identified by its [id], without text: the identifier is
    known, yet the link is the bare root page, and the title is
    "New anproto message", not "New message". *)
Lemma payload_counterexample :
  idOf (Some Sample.record_id) = js "42"
  /\ get "text" Sample.record_id = None
  /\ url (toPushPayload Sample.platform Sample.record_id)
     = js "https://wiredove.net/"
  /\ url (toPushPayload Sample.platform Sample.record_id)
     <> js "https://wiredove.net/#42"
  /\ title (toPushPayload Sample.platform Sample.record_id)
     = js "New anproto message"
  /\ title (toPushPayload Sample.platform Sample.record_id)
     <> js "New message".
Proof.
  split; [vm_compute; reflexivity |].
  split; [vm_compute; reflexivity |].
  split; [vm_compute; reflexivity |].
  split; [vm_compute; discriminate |].
  split; [vm_compute; reflexivity |].
  vm_compute; discriminate.
Qed.

(** C6: the link of the payload is [https://wiredove.net/#] followed by
    the [hash] field of the record when that field is a non-empty string,
    and the bare root page otherwise, whatever identifier or fingerprint
    the cycle derived.  When the parser returns a [name] (a [body]) string
    that is not empty once trimmed, the title is
    "New Wiredove Message from " followed by the trimmed name (the body is
    the trimmed body).  When the parser throws, when the record has no
    text, or when the field is missing or empty once trimmed, the title is
    "New anproto message" and the body "Tap to view the latest update". *)
Theorem payload_of_record (P : Platform) (latest : json) :
  (forall h, get "hash" latest = Some (JStr h) -> h <> [] ->
     url (toPushPayload P latest) = js "https://wiredove.net/#" ++ h)
  /\ (stringOr (get "hash" latest) [] = [] ->
      url (toPushPayload P latest) = js "https://wiredove.net/")
  /\ (forall text parsed,
        get "text" latest = Some (JStr text) -> text <> [] ->
        parseYaml P text = Some parsed ->
        (forall n, get "name" parsed = Some (JStr n) -> trim n <> [] ->
           title (toPushPayload P latest)
           = js "New Wiredove Message from " ++ trim n)
        /\ (forall t, get "body" parsed = Some (JStr t) -> trim t <> [] ->
              body (toPushPayload P latest) = trim t)
        /\ (trimmedField (get "name" parsed) = None ->
            title (toPushPayload P latest) = js "New anproto message")
        /\ (trimmedField (get "body" parsed) = None ->
            body (toPushPayload P latest)
            = js "Tap to view the latest update"))
  /\ (forall text,
        get "text" latest = Some (JStr text) ->
        parseYaml P text = None ->
        title (toPushPayload P latest) = js "New anproto message"
        /\ body (toPushPayload P latest) = js "Tap to view the latest update")
  /\ (stringOr (get "text" latest) [] = [] ->
      title (toPushPayload P latest) = js "New anproto message"
      /\ body (toPushPayload P latest) = js "Tap to view the latest update").
Proof.
  assert (Hobj : forall k v, get k latest = Some v -> isObject latest = true).
  { intros k v. destruct latest; cbn; try discriminate; reflexivity. }
  assert (Hnone : forall k, isObject latest = false -> get k latest = None).
  { intros k. destruct latest; cbn; try discriminate; reflexivity. }
  split.
  { intros h Hh Hne. unfold toPushPayload. cbn [url].
    rewrite (Hobj _ _ Hh), Hh. cbn [stringOr].
    apply nonEmpty_true in Hne. now rewrite Hne. }
  split.
  { intros Hh. unfold toPushPayload. cbn [url].
    destruct (isObject latest); [rewrite Hh |]; reflexivity. }
  split.
  { intros text parsed Ht Hne Hy.
    assert (Hp : toPushPayload P latest
                 = {| title := formatPushTitle (name (parsePostYaml P text));
                      body := formatPushBody (post_body (parsePostYaml P text));
                      url := url (toPushPayload P latest);
                      hash := hash (toPushPayload P latest);
                      icon := PUSH_ICON_URL P;
                      p_latest := latest |}).
    { unfold toPushPayload. rewrite (Hobj _ _ Ht), Ht. cbn [stringOr url hash].
      apply nonEmpty_true in Hne. now rewrite Hne. }
    rewrite Hp. cbn [title body]. unfold parsePostYaml. rewrite Hy.
    assert (Hgetobj : forall k v, get k parsed = Some v -> isObject parsed = true).
    { intros k v. destruct parsed; cbn; try discriminate; reflexivity. }
    split.
    { intros n Hn Htrim. rewrite (Hgetobj _ _ Hn). cbn [name].
      rewrite (trimmedField_string Hn Htrim).
      now apply formatPushTitle_name. }
    split.
    { intros t Hb Htrim. rewrite (Hgetobj _ _ Hb). cbn [post_body].
      rewrite (trimmedField_string Hb Htrim).
      now apply formatPushBody_trimmed. }
    split.
    { intros Hn. destruct (isObject parsed); cbn [name noFields];
        [rewrite Hn |]; reflexivity. }
    { intros Hb. destruct (isObject parsed); cbn [post_body noFields];
        [rewrite Hb |]; reflexivity. } }
  split.
  { intros text Ht Hy. unfold toPushPayload. cbn [title body].
    rewrite (Hobj _ _ Ht), Ht. cbn [stringOr].
    destruct (nonEmpty text); [unfold parsePostYaml; rewrite Hy |]; split; reflexivity. }
  { intros Ht. unfold toPushPayload. cbn [title body].
    destruct (isObject latest); [rewrite Ht |]; split; reflexivity. }
Qed.

Lemma payload_of_record_witness :
  url (toPushPayload Sample.platform Sample.record_abc)
  = js "https://wiredove.net/#abc123"
  /\ title (toPushPayload Sample.platform Sample.record_abc)
     = js "New Wiredove Message from Alice"
  /\ body (toPushPayload Sample.platform Sample.record_abc)
     = js "Hello world".
Proof.
  destruct (payload_of_record Sample.platform Sample.record_abc)
    as [Hurl [_ [Hparsed _]]].
  split.
  { apply (Hurl (js "abc123")); [reflexivity | vm_compute; discriminate]. }
  destruct (Hparsed Sample.text_abc
              (JObj [(js "name", JStr (js "Alice"));
                     (js "body", JStr (js "Hello world"))]))
    as [Htitle [Hbody _]].
  - reflexivity.
  - vm_compute. discriminate.
  - vm_compute. reflexivity.
  - split.
    + apply (Htitle (js "Alice")); [reflexivity | vm_compute; discriminate].
    + apply (Hbody (js "Hello world")); [reflexivity | vm_compute; discriminate].
Defined.

(* ------------------------------------------------------------------ *)
(** ** Further properties of the handlers, the cycle and the encodings *)

Lemma hasId_true (id : jsstring) (s : Subscription) :
  hasId id s = true <-> sub_id s = id.
Proof. unfold hasId. apply jseqb_eq. Qed.

Lemma find_hasId_none (id : jsstring) (subs : list Subscription) :
  find (hasId id) subs = None <-> ~ In id (ids subs).
Proof.
  unfold ids. induction subs as [|s l IH]; cbn [find map In].
  - tauto.
  - destruct (hasId id s) eqn:H.
    + apply hasId_true in H. split; [discriminate | intros Hn; exfalso; auto].
    + rewrite IH. split.
      * intros Hn [Heq | Hin]; [| auto].
        apply hasId_true in Heq. congruence.
      * intros Hn Hin. auto.
Qed.

Lemma subscribe_invalid (O : Oracle) (d : Disk) (body : option SubscribeBody) :
  match body with
  | None => True
  | Some sub =>
      truthy (b_endpoint sub) = false
      \/ truthy (keys_p256dh sub) = false
      \/ truthy (keys_auth sub) = false
  end ->
  exists msg,
    run (subscribe O body) d
    = (Returned (jsonError msg), {| disk := d; trace := [] |}).
Proof.
  destruct body as [sub|]; intro H.
  - exists "missing fields"%string. unfold run, subscribe.
    assert (Hc : negb (truthy (b_endpoint sub)) || negb (truthy (keys_p256dh sub))
                 || negb (truthy (keys_auth sub)) = true).
    { destruct H as [H | [H | H]]; rewrite H; cbn;
        rewrite ?orb_true_r; reflexivity. }
    rewrite Hc. reflexivity.
  - exists "invalid subscription"%string. reflexivity.
Qed.

(** What [/subscribe] does with a complete request. *)
Lemma subscribe_complete (O : Oracle) (d : Disk) (sub : SubscribeBody) :
  truthy (b_endpoint sub) = true ->
  truthy (keys_p256dh sub) = true ->
  truthy (keys_auth sub) = true ->
  run (subscribe O (Some sub)) d
  = match subscriptionId (orEmpty (b_endpoint sub)) with
    | None => (Thrown InvalidCharacterError,
               {| disk := d; trace := [EvRead SUBS_FILE] |})
    | Some id =>
        match find (hasId id) (loadedSubs d) with
        | Some _ =>
            (Returned okResponse, {| disk := d; trace := [EvRead SUBS_FILE] |})
        | None =>
            let subs :=
              loadedSubs d
              ++ [registered id (orEmpty (b_endpoint sub))
                    {| p256dh := orEmpty (keys_p256dh sub);
                       auth := orEmpty (keys_auth sub) |} (clock O)] in
            if writable O SUBS_FILE
            then (Returned okResponse,
                  {| disk := {| stateFile := stateFile d; subsFile := Some subs |};
                     trace := [EvRead SUBS_FILE; EvWriteSubs subs] |})
            else (Thrown (WriteError SUBS_FILE),
                  {| disk := d; trace := [EvRead SUBS_FILE; EvWriteSubs subs] |})
        end
    end.
Proof.
  intros He Hp Ha.
  unfold run, subscribe. rewrite He, Hp, Ha. cbn [negb orb].
  unfold bind, loadSubscriptions, readJsonFile, try_catch, readAndParse,
    subscriptionIdM, saveSubscriptions, writeJsonFile, loadedSubs, ret, throw,
    hasId, registered.
  cbn [disk trace logEvent app].
  destruct (subsFile d) as [subs|];
    destruct (subscriptionId (orEmpty (b_endpoint sub))) as [id|];
    try reflexivity.
  - destruct (find _ subs); [reflexivity |].
    destruct (writable O SUBS_FILE); reflexivity.
  - cbn [find]. destruct (writable O SUBS_FILE); reflexivity.
Qed.

Lemma unsubscribe_run (O : Oracle) (d : Disk) (e : jsstring) :
  e <> [] ->
  run (unsubscribe O (Some e)) d
  = match subscriptionId e with
    | None => (Thrown InvalidCharacterError,
               {| disk := d; trace := [EvRead SUBS_FILE] |})
    | Some id =>
        let nextSubs := filter (fun s => negb (hasId id s)) (loadedSubs d) in
        if Nat.eqb (List.length nextSubs) (List.length (loadedSubs d))
        then (Returned okResponse, {| disk := d; trace := [EvRead SUBS_FILE] |})
        else if writable O SUBS_FILE
        then (Returned okResponse,
              {| disk := {| stateFile := stateFile d; subsFile := Some nextSubs |};
                 trace := [EvRead SUBS_FILE; EvWriteSubs nextSubs] |})
        else (Thrown (WriteError SUBS_FILE),
              {| disk := d; trace := [EvRead SUBS_FILE; EvWriteSubs nextSubs] |})
    end.
Proof.
  intros He. apply nonEmpty_true in He.
  unfold run, unsubscribe. cbn [truthy orEmpty]. rewrite He. cbn [negb].
  unfold bind, loadSubscriptions, readJsonFile, try_catch, readAndParse,
    subscriptionIdM, saveSubscriptions, writeJsonFile, loadedSubs, ret, throw,
    hasId.
  cbn [disk trace logEvent app].
  destruct (subsFile d) as [subs|];
    destruct (subscriptionId e) as [id|]; try reflexivity.
  - cbv zeta. destruct (Nat.eqb _ _); cbn [negb]; [reflexivity |].
    destruct (writable O SUBS_FILE); reflexivity.
Qed.

Lemma filter_same_length {A} (f : A -> bool) (l : list A) :
  List.length (filter f l) = List.length l -> filter f l = l.
Proof.
  induction l as [|x l IH]; [reflexivity |].
  cbn [filter]. destruct (f x); cbn [List.length]; intro H.
  - f_equal. apply IH. lia.
  - pose proof (filter_length_le f l). lia.
Qed.

Lemma filter_not_hasId (id : jsstring) (subs : list Subscription) :
  ~ In id (ids subs) -> filter (fun s => negb (hasId id s)) subs = subs.
Proof.
  unfold ids. induction subs as [|s l IH]; [reflexivity |].
  cbn [map In filter]. intro Hn.
  destruct (hasId id s) eqn:H.
  - apply hasId_true in H. exfalso. auto.
  - cbn [negb]. f_equal. apply IH. auto.
Qed.

Lemma not_in_filtered (id : jsstring) (subs : list Subscription) :
  ~ In id (ids (filter (fun s => negb (hasId id s)) subs)).
Proof.
  unfold ids. intro Hin. apply in_map_iff in Hin as [s [Hs Hin]].
  apply filter_In in Hin as [_ Hf].
  apply negb_true_iff in Hf.
  apply hasId_true in Hs. congruence.
Qed.

Lemma NoDup_ids_filter (f : Subscription -> bool) (subs : list Subscription) :
  NoDup (ids subs) -> NoDup (ids (filter f subs)).
Proof.
  unfold ids. induction subs as [|s l IH]; cbn [map filter]; intro H.
  - constructor.
  - inversion H as [|x xs Hnin Hnd]; subst.
    destruct (f s); [| auto].
    cbn [map]. constructor; [| auto].
    intro Hin. apply Hnin.
    apply in_map_iff in Hin as [s' [Hs' Hin]].
    apply filter_In in Hin as [Hin _].
    apply in_map_iff. now exists s'.
Qed.

Lemma wellFormed_filter (f : Subscription -> bool) (subs : list Subscription) :
  wellFormed subs -> wellFormed (filter f subs).
Proof.
  unfold wellFormed. rewrite !Forall_forall. intros H s Hin.
  apply filter_In in Hin as [Hin _]. auto.
Qed.

(** X1: a [/subscribe] request without a JSON object is answered 400
    "invalid subscription", one whose endpoint, [p256dh] or [auth] is
    missing or empty 400 "missing fields", and an [/unsubscribe] request
    without endpoint 400 "missing endpoint"; none of them reads or writes
    a file. *)
Theorem invalid_requests_touch_nothing (O : Oracle) (d : Disk) :
  run (subscribe O None) d
  = (Returned (jsonError "invalid subscription"), {| disk := d; trace := [] |})
  /\ (forall sub,
        truthy (b_endpoint sub) = false
        \/ truthy (keys_p256dh sub) = false
        \/ truthy (keys_auth sub) = false ->
        run (subscribe O (Some sub)) d
        = (Returned (jsonError "missing fields"), {| disk := d; trace := [] |}))
  /\ (forall endpoint,
        truthy endpoint = false ->
        run (unsubscribe O endpoint) d
        = (Returned (jsonError "missing endpoint"), {| disk := d; trace := [] |})).
Proof.
  split; [reflexivity |]. split.
  - intros sub H. unfold run, subscribe.
    assert (Hc : negb (truthy (b_endpoint sub)) || negb (truthy (keys_p256dh sub))
                 || negb (truthy (keys_auth sub)) = true).
    { destruct H as [H | [H | H]]; rewrite H; cbn;
        rewrite ?orb_true_r; reflexivity. }
    rewrite Hc. reflexivity.
  - intros endpoint H. unfold run, unsubscribe. rewrite H. reflexivity.
Qed.

(** X2: whatever the request and however it ends, [/subscribe] leaves the
    state file alone, keeps every stored subscription as it is and in
    place, adds at most one at the end, and keeps the stored ids distinct
    and equal to [subscriptionId] of their endpoints when they were. *)
Theorem subscribe_keeps_store (O : Oracle) (d : Disk)
    (body : option SubscribeBody) (out : Outcome HttpResponse) (w' : World) :
  run (subscribe O body) d = (out, w') ->
  stateFile (disk w') = stateFile d
  /\ (exists added,
        loadedSubs (disk w') = loadedSubs d ++ added
        /\ List.length added <= 1)
  /\ (NoDup (ids (loadedSubs d)) -> NoDup (ids (loadedSubs (disk w'))))
  /\ (wellFormed (loadedSubs d) -> wellFormed (loadedSubs (disk w'))).
Proof.
  intro Hrun.
  assert (Hsame : disk w' = d ->
            stateFile (disk w') = stateFile d
            /\ (exists added,
                  loadedSubs (disk w') = loadedSubs d ++ added
                  /\ List.length added <= 1)
            /\ (NoDup (ids (loadedSubs d)) -> NoDup (ids (loadedSubs (disk w'))))
            /\ (wellFormed (loadedSubs d) -> wellFormed (loadedSubs (disk w')))).
  { intros ->. split; [reflexivity |]. split; [| tauto].
    exists []. rewrite app_nil_r. split; [reflexivity | cbn; lia]. }
  destruct body as [sub|].
  2: { destruct (subscribe_invalid O d None I) as [msg Hinv].
       rewrite Hinv in Hrun. inversion Hrun; subst. now apply Hsame. }
  destruct (truthy (b_endpoint sub)) eqn:He.
  2: { destruct (subscribe_invalid O d (Some sub) (or_introl He)) as [msg Hinv].
       rewrite Hinv in Hrun. inversion Hrun; subst. now apply Hsame. }
  destruct (truthy (keys_p256dh sub)) eqn:Hp.
  2: { destruct (subscribe_invalid O d (Some sub) (or_intror (or_introl Hp)))
         as [msg Hinv].
       rewrite Hinv in Hrun. inversion Hrun; subst. now apply Hsame. }
  destruct (truthy (keys_auth sub)) eqn:Ha.
  2: { destruct (subscribe_invalid O d (Some sub) (or_intror (or_intror Ha)))
         as [msg Hinv].
       rewrite Hinv in Hrun. inversion Hrun; subst. now apply Hsame. }
  rewrite (subscribe_complete O d sub He Hp Ha) in Hrun.
  destruct (subscriptionId (orEmpty (b_endpoint sub))) as [id|] eqn:Hid.
  2: { inversion Hrun; subst. now apply Hsame. }
  destruct (find (hasId id) (loadedSubs d)) eqn:Hfind.
  { inversion Hrun; subst. now apply Hsame. }
  cbv zeta in Hrun. destruct (writable O SUBS_FILE).
  2: { inversion Hrun; subst. now apply Hsame. }
  inversion Hrun; subst. cbn [disk stateFile].
  change (loadedSubs {| stateFile := stateFile d; subsFile := Some ?l |}) with l.
  split; [reflexivity |].
  split; [eexists; split; [reflexivity | cbn; lia] |].
  apply find_hasId_none in Hfind.
  split.
  - intro Hnd. unfold ids. rewrite map_app. cbn [map registered sub_id].
    apply NoDup_app; [exact Hnd | repeat constructor; intros [] |].
    intros x Hin [Hx | []]. subst. exact (Hfind Hin).
  - unfold wellFormed. intro Hwf. apply Forall_app. split; [exact Hwf |].
    constructor; [exact Hid | constructor].
Qed.

Lemma subscribe_keeps_store_witness :
  stateFile (disk (snd (run (subscribe (Sample.oracle Sample.body_abc)
                              (Some (request (js "https://push.example/dave")
                                       {| p256dh := js "BKey1"; auth := js "s1" |})))
                         Sample.disk3)))
  = stateFile Sample.disk3
  /\ NoDup (ids (loadedSubs
                   (disk (snd (run (subscribe (Sample.oracle Sample.body_abc)
                                      (Some (request (js "https://push.example/dave")
                                               {| p256dh := js "BKey1";
                                                  auth := js "s1" |})))
                                 Sample.disk3))))).
Proof.
  destruct (@subscribe_keeps_store (Sample.oracle Sample.body_abc) Sample.disk3
              (Some (request (js "https://push.example/dave")
                       {| p256dh := js "BKey1"; auth := js "s1" |}))
              _ _ (surjective_pairing _)) as [Hstate [_ [Hnd _]]].
  split; [exact Hstate |].
  apply Hnd. vm_compute.
  repeat (constructor; [cbn; intuition discriminate |]). constructor.
Defined.

(** X3: an [/unsubscribe] that answers ok leaves exactly the stored
    subscriptions whose id is not the one of the endpoint, in their order;
    the state file is untouched; when no stored subscription has that id
    nothing is written. *)
Theorem unsubscribe_removes (O : Oracle) (d : Disk) (e id : jsstring)
    (w' : World) :
  e <> [] ->
  subscriptionId e = Some id ->
  run (unsubscribe O (Some e)) d = (Returned okResponse, w') ->
  loadedSubs (disk w') = filter (fun s => negb (hasId id s)) (loadedSubs d)
  /\ ~ In id (ids (loadedSubs (disk w')))
  /\ stateFile (disk w') = stateFile d
  /\ (~ In id (ids (loadedSubs d)) ->
      disk w' = d /\ trace w' = [EvRead SUBS_FILE])
  /\ (NoDup (ids (loadedSubs d)) -> NoDup (ids (loadedSubs (disk w'))))
  /\ (wellFormed (loadedSubs d) -> wellFormed (loadedSubs (disk w'))).
Proof.
  intros He Hid Hrun.
  rewrite (unsubscribe_run O d He), Hid in Hrun. cbv zeta in Hrun.
  assert (Hloaded : loadedSubs (disk w')
                    = filter (fun s => negb (hasId id s)) (loadedSubs d)
                    /\ stateFile (disk w') = stateFile d
                    /\ (~ In id (ids (loadedSubs d)) ->
                        disk w' = d /\ trace w' = [EvRead SUBS_FILE])).
  { destruct (Nat.eqb _ _) eqn:Hlen.
    - inversion Hrun; subst. cbn [disk trace].
      apply Nat.eqb_eq, filter_same_length in Hlen.
      split; [now rewrite Hlen |]. split; [reflexivity |]. now split.
    - destruct (writable O SUBS_FILE); [| discriminate].
      inversion Hrun; subst. cbn [disk trace stateFile].
      split; [reflexivity |]. split; [reflexivity |].
      intro Hnin. apply filter_not_hasId in Hnin.
      rewrite Hnin, Nat.eqb_refl in Hlen. discriminate. }
  destruct Hloaded as [Hl [Hs Hno]].
  split; [exact Hl |].
  split; [rewrite Hl; apply not_in_filtered |].
  split; [exact Hs |].
  split; [exact Hno |].
  rewrite Hl. split; [apply NoDup_ids_filter | apply wellFormed_filter].
Qed.

Lemma unsubscribe_removes_witness :
  loadedSubs (disk (snd (run (unsubscribe (Sample.oracle Sample.body_abc)
                                (Some (js "https://push.example/bob")))
                           Sample.disk3)))
  = [Sample.alice; Sample.carol].
Proof.
  destruct (@unsubscribe_removes (Sample.oracle Sample.body_abc) Sample.disk3
              (js "https://push.example/bob") (sub_id Sample.bob)
              (snd (run (unsubscribe (Sample.oracle Sample.body_abc)
                           (Some (js "https://push.example/bob")))
                      Sample.disk3)))
    as [Hl _].
  - vm_compute. discriminate.
  - vm_compute. reflexivity.
  - vm_compute. reflexivity.
  - rewrite Hl. vm_compute. reflexivity.
Defined.



(** Every cycle either stops at the fetch, having done nothing else, or
    goes on with a body. *)
Lemma pollLatest_cases (P : Platform) (O : Oracle) (force : bool) (d : Disk) :
  (exists r,
      run (pollLatest P O force) d
      = (Returned r, {| disk := d; trace := [EvFetch] |})
      /\ changed r = false /\ sent r = false
      /\ (exists why, reason r = Some why /\ In why earlyReasons))
  \/ (exists res b,
        fetched O = Some res /\ ok res = true /\ text res = Some b
        /\ trim b <> []
        /\ run (pollLatest P O force) d = afterFetch P O force d b).
Proof.
  destruct (fetched O) as [res|] eqn:Hfetch.
  2: { left. eexists. split; [now apply pollLatest_rejected |].
       split; [reflexivity |]. split; [reflexivity |].
       eexists. split; [reflexivity |]. cbn. tauto. }
  destruct (ok res) eqn:Hok.
  2: { left. eexists. split; [now apply pollLatest_not_ok with (res := res) |].
       split; [reflexivity |]. split; [reflexivity |].
       eexists. split; [reflexivity |]. cbn. tauto. }
  destruct (text res) as [b|] eqn:Htext.
  2: { left. eexists. split; [now apply pollLatest_no_body with (res := res) |].
       split; [reflexivity |]. split; [reflexivity |].
       eexists. split; [reflexivity |]. cbn. tauto. }
  destruct (nonEmpty (trim b)) eqn:Hbody.
  2: { apply nonEmpty_false in Hbody.
       left. eexists.
       split; [now apply pollLatest_blank with (res := res) (b := b) |].
       split; [reflexivity |]. split; [reflexivity |].
       eexists. split; [reflexivity |]. cbn. tauto. }
  right. exists res, b.
  split; [reflexivity |]. split; [exact Hok |]. split; [exact Htext |].
  split; [now apply nonEmpty_true |].
  now apply pollLatest_run with (res := res).
Qed.

(** X8: every cycle returns a summary.  [sent] implies [changed]; the
    reason is absent exactly when [sent] is true, and is otherwise one of
    "poll error", "latest fetch failed", "empty response",
    "no new messages", "no subscriptions"; [sent] is true exactly when the
    subscriptions file was written and the write succeeded; a cycle writes
    each file at most once. *)
Theorem summary_shape (P : Platform) (O : Oracle) (force : bool) (d : Disk) :
  exists r w',
    run (pollLatest P O force) d = (Returned r, w')
    /\ (sent r = true -> changed r = true)
    /\ (reason r = None <-> sent r = true)
    /\ (forall why, reason r = Some why ->
        In why [js "poll error"; js "latest fetch failed"; js "empty response";
                js "no new messages"; js "no subscriptions"])
    /\ (sent r = true <->
        filter isSubsWrite (trace w') <> [] /\ writable O SUBS_FILE = true)
    /\ List.length (filter isStateWrite (trace w')) <= 1
    /\ List.length (filter isSubsWrite (trace w')) <= 1.
Proof.
  destruct (pollLatest_cases P O force d)
    as [[r [Hrun [Hc [Hs [why [Hwhy Hin]]]]]] | [res [b [_ [_ [_ [_ Hrun]]]]]]].
  - exists r, {| disk := d; trace := [EvFetch] |}.
    split; [exact Hrun |].
    split; [rewrite Hs; discriminate |].
    split; [rewrite Hs, Hwhy; split; discriminate |].
    split.
    { intros why' Hr. rewrite Hwhy in Hr. inversion Hr; subst.
      cbn in Hin |- *. tauto. }
    split; [rewrite Hs; cbn; split; [discriminate | intros [H _]; now elim H] |].
    cbn. lia.
  - rewrite Hrun. unfold afterFetch, savesOf.
    destruct (isNewFor P b (loadedState d)); destruct force; cbn [negb andb];
      try (do 2 eexists; split; [reflexivity |]; cbn [sent changed reason trace];
           split; [discriminate |]; split; [split; discriminate |];
           split; [intros why Hr; inversion Hr; subst; cbn; tauto |];
           split; [read_trace; split; [discriminate | intros [H _]; now elim H] |];
           read_trace; cbn; lia);
      destruct (writable O STATE_FILE); cbn [negb];
      try (do 2 eexists; split; [reflexivity |]; cbn [sent changed reason trace];
           split; [discriminate |]; split; [split; discriminate |];
           split; [intros why Hr; inversion Hr; subst; cbn; tauto |];
           split; [read_trace; split; [discriminate | intros [H _]; now elim H] |];
           read_trace; cbn; lia);
      destruct (Nat.eqb _ 0);
      try (do 2 eexists; split; [reflexivity |]; cbn [sent changed reason trace];
           split; [discriminate |]; split; [split; discriminate |];
           split; [intros why Hr; inversion Hr; subst; cbn; tauto |];
           split; [read_trace; split; [discriminate | intros [H _]; now elim H] |];
           read_trace; cbn; lia);
      destruct (writable O SUBS_FILE) eqn:Hw;
      do 2 eexists; (split; [reflexivity |]); cbn [sent changed reason trace pollError];
      (split; [first [reflexivity | discriminate] |]);
      (split; [split; first [reflexivity | discriminate] |]);
      (split; [intros why Hr; inversion Hr; subst; cbn; tauto |]);
      (split; [read_trace; split;
                 [first [discriminate | intros _; split; [discriminate | reflexivity]]
                 | first [reflexivity | intros [_ H]; discriminate]] |]);
      read_trace; cbn; lia.
Qed.

(** X9: once the feed has answered with a body, [changed] is true exactly
    when the body is new or the cycle is forced, and no write of the cycle
    failed.  So a forced cycle on content already handled reports
    [changed = true], and leaves the marker as it was. *)
Theorem changed_means_past_the_gate (P : Platform) (O : Oracle) (force : bool)
    (d : Disk) (res : FetchResponse) (b : jsstring) :
  fetched O = Some res ->
  ok res = true ->
  text res = Some b ->
  trim b <> [] ->
  exists r w',
    run (pollLatest P O force) d = (Returned r, w')
    /\ (changed r = true <->
        isNewFor P b (loadedState d) || force = true
        /\ (isNewFor P b (loadedState d) = true -> writable O STATE_FILE = true)
        /\ (loadedSubs d <> [] -> writable O SUBS_FILE = true))
    /\ (force = true -> isNewFor P b (loadedState d) = false ->
        loadedSubs d = [] \/ writable O SUBS_FILE = true ->
        changed r = true /\ stateFile (disk w') = stateFile d).
Proof.
  intros Hfetch Hok Htext Hbody.
  apply nonEmpty_true in Hbody.
  rewrite (pollLatest_run P O force d Hfetch Hok Htext Hbody).
  unfold afterFetch, savedDisk.
  destruct (loadedSubs d) as [|s l] eqn:Hsubs; cbn [List.length Nat.eqb];
    destruct (isNewFor P b (loadedState d)); destruct force;
    destruct (writable O STATE_FILE); cbn [negb andb orb];
    try destruct (writable O SUBS_FILE);
    do 2 eexists; (split; [reflexivity |]);
    cbn [changed pollError disk stateFile];
    (split; [split;
               [ intro H; first [discriminate H | repeat split; congruence]
               | intros [H1 [H2 H3]];
                 first [ reflexivity | discriminate H1
                       | discriminate (H2 eq_refl)
                       | (assert (Hn : s :: l <> []) by discriminate;
                          discriminate (H3 Hn)) ] ]
            |]);
    intros Hf Hn Hw; first [discriminate Hf | discriminate Hn
                           | split; reflexivity
                           | destruct Hw; discriminate ].
Qed.

(** Checking a property of every number below a bound by running it. *)
Lemma forall_below (k : nat) (p : N -> bool) :
  forallb p (map N.of_nat (seq 0 k)) = true ->
  forall n, (n < N.of_nat k)%N -> p n = true.
Proof.
  intros Hall n Hn. rewrite forallb_forall in Hall. apply Hall.
  apply in_map_iff. exists (N.to_nat n). split; [apply N2Nat.id |].
  apply in_seq. lia.
Qed.

Lemma land_ones_lt (n : N) (k : N) : (N.land n (N.ones k) < 2 ^ k)%N.
Proof.
  rewrite N.land_ones. apply N.mod_lt. apply N.pow_nonzero. discriminate.
Qed.

Lemma hexDigit_isHex (n : N) : isHexDigit (hexDigit n) = true.
Proof.
  unfold hexDigit.
  apply (forall_below 16
           (fun m => isHexDigit (nth (N.to_nat m) (js "0123456789abcdef") 0%N)));
    [vm_compute; reflexivity |].
  exact (land_ones_lt n 4).
Qed.

Lemma hexPair_isHex (b : N) :
  forallb isHexDigit (padStart2 (toString16 b)) = true.
Proof.
  unfold toString16. destruct (N.ltb b 16); cbn [padStart2 forallb];
    rewrite ?hexDigit_isHex; reflexivity.
Qed.

Lemma hexOf_isHex (bytes : list N) : forallb isHexDigit (hexOf bytes) = true.
Proof.
  induction bytes as [|b bytes IH] using rev_ind; [reflexivity |].
  unfold hexOf in *. rewrite fold_left_app. cbn [fold_left].
  rewrite forallb_app, IH, hexPair_isHex. reflexivity.
Qed.

(** The marker a cycle writes, whatever the cycle: only for a body
    classified as new, and the marker of that body. *)
Lemma state_write_is_marker (P : Platform) (O : Oracle) (force : bool)
    (d : Disk) (out : Outcome PollResult) (w' : World) (m : State) :
  run (pollLatest P O force) d = (out, w') ->
  In (EvWriteState m) (trace w') ->
  exists b, isNewFor P b (loadedState d) = true /\ m = markerOf P b.
Proof.
  intros Hrun Hin.
  destruct (pollLatest_cases P O force d)
    as [[r [Hr _]] | [res [b [_ [_ [_ [_ Hr]]]]]]]; rewrite Hr in Hrun.
  - inversion Hrun; subst. destruct Hin as [H | []]. discriminate.
  - exists b. unfold afterFetch in Hrun.
    assert (Hf : In (EvWriteState m) (filter isStateWrite (trace w')))
      by (apply filter_In; now split).
    destruct (isNewFor P b (loadedState d)) eqn:Hnew.
    + split; [reflexivity |].
      assert (Hw : filter isStateWrite (trace w') = [EvWriteState (markerOf P b)]).
      { cbn [negb andb savesOf savedDisk] in Hrun.
        destruct (negb (writable O STATE_FILE));
          [|destruct (Nat.eqb _ 0); [|destruct (writable O SUBS_FILE)]];
          inversion Hrun; subst; read_trace; reflexivity. }
      rewrite Hw in Hf. destruct Hf as [Hf | []]. now inversion Hf.
    + exfalso.
      assert (Hw : filter isStateWrite (trace w') = []).
      { cbn [negb andb savesOf savedDisk] in Hrun.
        destruct (negb force);
          [|destruct (Nat.eqb _ 0); [|destruct (writable O SUBS_FILE)]];
          inversion Hrun; subst; read_trace; reflexivity. }
      now rewrite Hw in Hf.
Qed.

(** X11: a marker that a cycle writes differs from the one it loaded, and
    holds either an identifier that is not empty and no hash, or no
    identifier and a hash of 64 lowercase hexadecimal digits. *)
Theorem marker_shape (P : Platform) (O : Oracle) (force : bool) (d : Disk)
    (out : Outcome PollResult) (w' : World) (m : State) :
  run (pollLatest P O force) d = (out, w') ->
  In (EvWriteState m) (trace w') ->
  m <> loadedState d
  /\ ((exists id, id <> [] /\ m = {| lastSeenId := Some id; lastSeenHash := None |})
      \/ (exists h,
            List.length h = 64
            /\ forallb isHexDigit h = true
            /\ m = {| lastSeenId := None; lastSeenHash := Some h |})).
Proof.
  intros Hrun Hin.
  destruct (state_write_is_marker P O force d m Hrun Hin) as [b [Hnew ->]].
  split.
  - intro Heq. rewrite <- Heq, marker_is_handled in Hnew. discriminate.
  - destruct (markerOf_cases P b) as [[Hid Hm] | [Hid Hm]]; rewrite Hm.
    + left. eexists. split; [exact Hid | reflexivity].
    + right. exists (fingerprint P b).
      split; [apply fingerprint_length |].
      split; [apply hexOf_isHex | reflexivity].
Qed.

Lemma marker_shape_witness :
  Sample.seen_abc <> loadedState Sample.disk0.
Proof.
  apply (@marker_shape Sample.platform (Sample.oracle Sample.body_abc) false
           Sample.disk0 _ _ Sample.seen_abc (surjective_pairing _)).
  vm_compute. right. right. left. reflexivity.
Defined.

(** The subscriptions stored after a cycle: those stored before, or the
    next set of the dispatch. *)
Lemma subs_after_cycle (P : Platform) (O : Oracle) (force : bool) (d : Disk)
    (out : Outcome PollResult) (w' : World) :
  run (pollLatest P O force) d = (out, w') ->
  loadedSubs (disk w') = loadedSubs d
  \/ loadedSubs (disk w') = nextSet O (clock O) 0 (loadedSubs d).
Proof.
  intro Hrun.
  destruct (pollLatest_cases P O force d)
    as [[r [Hr _]] | [res [b [_ [_ [_ [_ Hr]]]]]]]; rewrite Hr in Hrun.
  - inversion Hrun; subst. now left.
  - unfold afterFetch, savedDisk in Hrun.
    destruct (negb (isNewFor P b (loadedState d)) && negb force);
      [inversion Hrun; subst; now left |].
    destruct (isNewFor P b (loadedState d) && negb (writable O STATE_FILE));
      [inversion Hrun; subst; now left |].
    destruct (Nat.eqb _ 0);
      [inversion Hrun; subst; left; now destruct (isNewFor _ _ _) |].
    destruct (writable O SUBS_FILE); inversion Hrun; subst.
    + now right.
    + left. now destruct (isNewFor _ _ _).
Qed.

Lemma retained_origin (now : jsstring) (result : SendResult)
    (s s' : Subscription) :
  In s' (retained now result s) -> s' = s \/ s' = notifiedAt now s.
Proof.
  unfold retained. destruct result as [|status].
  - intros [H | []]. now right.
  - destruct (gone status); [intros [] | intros [H | []]; now left].
Qed.

Lemma nextSet_origin (O : Oracle) (now : jsstring) (subs : list Subscription) :
  forall n s',
    In s' (nextSet O now n subs) ->
    exists s, In s subs /\ (s' = s \/ s' = notifiedAt now s).
Proof.
  induction subs as [|s rest IH]; intros n s' Hin; [destruct Hin |].
  cbn [nextSet] in Hin. apply in_app_or in Hin as [Hin | Hin].
  - exists s. split; [now left | exact (retained_origin _ _ _ _ Hin)].
  - destruct (IH _ _ Hin) as [x [Hx Hor]]. exists x. split; [now right | exact Hor].
Qed.

Lemma retained_length (now : jsstring) (result : SendResult) (s : Subscription) :
  List.length (retained now result s) <= 1.
Proof.
  unfold retained. destruct result as [|status]; [cbn; lia |].
  destruct (gone status); cbn; lia.
Qed.

Lemma nextSet_length (O : Oracle) (now : jsstring) (subs : list Subscription) :
  forall n, List.length (nextSet O now n subs) <= List.length subs.
Proof.
  induction subs as [|s rest IH]; intro n; [cbn; lia |].
  cbn [nextSet List.length]. rewrite length_app.
  pose proof (retained_length now (pushOutcome O n) s).
  pose proof (IH (S n)). lia.
Qed.

Lemma nextSet_ids (O : Oracle) (now : jsstring) (subs : list Subscription) :
  forall n id, In id (ids (nextSet O now n subs)) -> In id (ids subs).
Proof.
  intros n id Hin. unfold ids in *.
  apply in_map_iff in Hin as [s' [Hid Hin]].
  destruct (nextSet_origin _ _ _ _ _ Hin) as [s [Hs [-> | ->]]];
    apply in_map_iff; exists s; split; auto.
Qed.

Lemma nextSet_NoDup (O : Oracle) (now : jsstring) (subs : list Subscription) :
  forall n, NoDup (ids subs) -> NoDup (ids (nextSet O now n subs)).
Proof.
  induction subs as [|s rest IH]; intros n Hnd; [constructor |].
  cbn [nextSet]. unfold ids in *. cbn [map] in Hnd.
  inversion Hnd as [|x xs Hnin Hrest]; subst.
  rewrite map_app. apply NoDup_app.
  - unfold retained. destruct (pushOutcome O n) as [|status];
      [| destruct (gone status)]; cbn; repeat constructor; intros [].
  - now apply IH.
  - intros id H1 H2. apply Hnin.
    assert (Hid : id = sub_id s).
    { apply in_map_iff in H1 as [s' [Hs' Hin]].
      destruct (retained_origin _ _ _ _ Hin) as [-> | ->]; now subst. }
    subst. exact (nextSet_ids O now rest (S n) _ H2).
Qed.

Lemma nextSet_wellFormed (O : Oracle) (now : jsstring) (subs : list Subscription) :
  forall n, wellFormed subs -> wellFormed (nextSet O now n subs).
Proof.
  unfold wellFormed. intros n Hwf. rewrite Forall_forall in *.
  intros s' Hin.
  destruct (nextSet_origin _ _ _ _ _ Hin) as [s [Hs [-> | ->]]];
    exact (Hwf s Hs).
Qed.

(** X14: a cycle, however it ends, adds no subscription: every
    subscription stored afterwards was stored before, with the same id,
    endpoint, keys and [createdAt], and differs at most by
    [lastNotifiedAt], set to the time of the dispatch.  Stored ids that
    were distinct stay distinct. *)
Theorem cycle_keeps_subscriptions (P : Platform) (O : Oracle) (force : bool)
    (d : Disk) (out : Outcome PollResult) (w' : World) :
  run (pollLatest P O force) d = (out, w') ->
  (forall s',
      In s' (loadedSubs (disk w')) ->
      exists s,
        In s (loadedSubs d)
        /\ (s' = s \/ s' = notifiedAt (clock O) s)
        /\ sub_id s' = sub_id s
        /\ endpoint s' = endpoint s
        /\ keys s' = keys s
        /\ createdAt s' = createdAt s)
  /\ List.length (loadedSubs (disk w')) <= List.length (loadedSubs d)
  /\ (NoDup (ids (loadedSubs d)) -> NoDup (ids (loadedSubs (disk w'))))
  /\ (wellFormed (loadedSubs d) -> wellFormed (loadedSubs (disk w'))).
Proof.
  intro Hrun.
  destruct (subs_after_cycle P O force d Hrun) as [-> | ->].
  - split; [| split; [lia | tauto]].
    intros s' Hin. exists s'. repeat split; auto.
  - split.
    { intros s' Hin.
      destruct (nextSet_origin _ _ _ _ _ Hin) as [s [Hs Hor]].
      exists s. split; [exact Hs |]. split; [exact Hor |].
      destruct Hor as [-> | ->]; repeat split. }
    split; [apply nextSet_length |].
    split; [apply nextSet_NoDup | apply nextSet_wellFormed].
Qed.

Lemma cycle_keeps_subscriptions_witness :
  List.length
    (loadedSubs (disk (snd (run (pollLatest Sample.platform
                                   (Sample.oracle Sample.body_abc) true)
                              Sample.disk3))))
  <= 3.
Proof.
  exact (proj1 (proj2 (@cycle_keeps_subscriptions Sample.platform
                         (Sample.oracle Sample.body_abc) true Sample.disk3
                         _ _ (surjective_pairing _)))).
Defined.








(** X10: when [fetch] rejects, or the body of a successful response
    cannot be read, the cycle returns the "poll error" summary; the fetch
    is all it did. *)
Theorem failed_fetch_is_a_poll_error (P : Platform) (O : Oracle) (force : bool)
    (d : Disk) :
  fetched O = None
  \/ (exists res, fetched O = Some res /\ ok res = true /\ text res = None) ->
  run (pollLatest P O force) d
  = (Returned pollError, {| disk := d; trace := [EvFetch] |}).
Proof.
  intros [Hnone | [res [Hfetch [Hok Htext]]]].
  - now apply pollLatest_rejected.
  - now apply pollLatest_no_body with (res := res).
Qed.

(** X13: a body from which no record is taken (text that is not JSON, a
    scalar, an empty array, an array whose first element is not an object)
    has no identifier and no summary; it is compared and marked by its
    fingerprint, and its payload has the generic title and body, the bare
    root link and no hash, and carries the parsed value, or the text itself
    when it is not JSON. *)
Theorem body_without_record (P : Platform) (b : jsstring) :
  latestRecord (parseBody P b) = None ->
  latestId (parseBody P b) = []
  /\ summaryOf P b = None
  /\ digestsOf P b = [EvDigest b]
  /\ markerOf P b
     = {| lastSeenId := None; lastSeenHash := Some (fingerprint P b) |}
  /\ (forall st, isNewFor P b st = strictNeq (fingerprint P b) (lastSeenHash st))
  /\ payloadOf P b = genericPayload P (latestJson (parseBody P b))
  /\ (JSON_parse P b = None -> latestJson (parseBody P b) = JStr b).
Proof.
  intros Hrec.
  assert (Hid : latestId (parseBody P b) = []).
  { unfold parseBody in *. destruct (JSON_parse P b) as [v|]; cbn in *;
      [now rewrite Hrec | reflexivity]. }
  split; [exact Hid |].
  split; [unfold summaryOf; now rewrite Hrec |].
  split; [unfold digestsOf; now rewrite Hid |].
  split.
  { unfold markerOf, latestHashOf, orUndefined. rewrite Hid. cbn [nonEmpty].
    now rewrite fingerprint_nonEmpty. }
  split; [intro st; unfold isNewFor, isNew, latestHashOf; now rewrite Hid |].
  split.
  { unfold payloadOf. rewrite Hrec.
    assert (Hnot : forall k, get k (latestJson (parseBody P b)) = None).
    { intro k. unfold parseBody in *.
      destruct (JSON_parse P b) as [v|]; cbn in *; [| reflexivity].
      destruct v; cbn in *; try reflexivity. discriminate. }
    unfold toPushPayload, genericPayload.
    destruct (isObject (latestJson (parseBody P b))); rewrite ?Hnot; reflexivity. }
  intro Hparse. unfold parseBody. now rewrite Hparse.
Qed.

Lemma forall_below2 (k : nat) (p : N -> N -> bool) :
  forallb (fun a => forallb (p a) (below k)) (below k) = true ->
  forall a b, (a < N.of_nat k)%N -> (b < N.of_nat k)%N -> p a b = true.
Proof.
  intros Hall a b Ha Hb.
  apply (forall_below k (p a)); [| exact Hb].
  exact (forall_below k (fun a => forallb (p a) (below k)) Hall Ha).
Qed.

Lemma triple_ind (Q : list N -> Prop) :
  Q [] ->
  (forall a, Q [a]) ->
  (forall a b, Q [a; b]) ->
  (forall a b c rest, Q rest -> Q (a :: b :: c :: rest)) ->
  forall s, Q s.
Proof.
  intros H0 H1 H2 H3.
  fix IH 1. intros [|a [|b [|c rest]]];
    [exact H0 | exact (H1 a) | exact (H2 a b) | exact (H3 a b c rest (IH rest))].
Qed.

Lemma unsextet_sextet (v : N) : unsextet (sextet v) = N.land v 63.
Proof.
  unfold sextet.
  pose proof (land_ones_lt v 6) as Hlt. change (N.ones 6) with 63%N in Hlt.
  generalize dependent (N.land v 63). intros m Hm.
  apply N.eqb_eq.
  exact (forall_below 64
           (fun m => N.eqb (unsextet (nth (N.to_nat m) base64Alphabet 0%N)) m)
           ltac:(vm_compute; reflexivity) Hm).
Qed.

Lemma sextet_not_pad (v : N) : N.eqb (sextet v) padChar = false.
Proof.
  unfold sextet.
  pose proof (land_ones_lt v 6) as Hlt. change (N.ones 6) with 63%N in Hlt.
  generalize dependent (N.land v 63). intros m Hm.
  apply negb_true_iff.
  exact (forall_below 64
           (fun m => negb (N.eqb (nth (N.to_nat m) base64Alphabet 0%N) padChar))
           ltac:(vm_compute; reflexivity) Hm).
Qed.

Lemma removeAll_base64 (s : list N) : removeAll padChar (base64 s) = core s.
Proof.
  induction s as [| a | a b | a b c rest IH] using triple_ind;
    unfold removeAll in *; cbn [base64 core filter];
    rewrite ?sextet_not_pad; cbn [negb]; rewrite ?N.eqb_refl; cbn [negb];
    try reflexivity.
  now rewrite IH.
Qed.

(** From the sextets back to the bytes. *)
Lemma first_byte (a b : N) :
  (a < 256)%N -> (b < 256)%N ->
  N.lor (N.shiftl (N.land (N.shiftr a 2) 63) 2)
    (N.shiftr (N.land (N.lor (N.shiftl (N.land a 3) 4) (N.shiftr b 4)) 63) 4)
  = a.
Proof.
  intros Ha Hb. apply N.eqb_eq.
  exact (forall_below2 256
           (fun a b =>
              N.eqb (N.lor (N.shiftl (N.land (N.shiftr a 2) 63) 2)
                       (N.shiftr (N.land (N.lor (N.shiftl (N.land a 3) 4)
                                            (N.shiftr b 4)) 63) 4)) a)
           ltac:(vm_compute; reflexivity) Ha Hb).
Qed.

Lemma first_byte_alone (a : N) :
  (a < 256)%N ->
  N.lor (N.shiftl (N.land (N.shiftr a 2) 63) 2)
    (N.shiftr (N.land (N.shiftl (N.land a 3) 4) 63) 4)
  = a.
Proof.
  intros Ha. apply N.eqb_eq.
  exact (forall_below 256
           (fun a =>
              N.eqb (N.lor (N.shiftl (N.land (N.shiftr a 2) 63) 2)
                       (N.shiftr (N.land (N.shiftl (N.land a 3) 4) 63) 4)) a)
           ltac:(vm_compute; reflexivity) Ha).
Qed.

Lemma second_high (a b : N) :
  (a < 256)%N -> (b < 256)%N ->
  N.land (N.land (N.lor (N.shiftl (N.land a 3) 4) (N.shiftr b 4)) 63) 15
  = N.shiftr b 4.
Proof.
  intros Ha Hb. apply N.eqb_eq.
  exact (forall_below2 256
           (fun a b =>
              N.eqb (N.land (N.land (N.lor (N.shiftl (N.land a 3) 4)
                                       (N.shiftr b 4)) 63) 15)
                (N.shiftr b 4))
           ltac:(vm_compute; reflexivity) Ha Hb).
Qed.

Lemma second_low (b c : N) :
  (b < 256)%N -> (c < 256)%N ->
  N.shiftr (N.land (N.lor (N.shiftl (N.land b 15) 2) (N.shiftr c 6)) 63) 2
  = N.land b 15.
Proof.
  intros Hb Hc. apply N.eqb_eq.
  exact (forall_below2 256
           (fun b c =>
              N.eqb (N.shiftr (N.land (N.lor (N.shiftl (N.land b 15) 2)
                                         (N.shiftr c 6)) 63) 2)
                (N.land b 15))
           ltac:(vm_compute; reflexivity) Hb Hc).
Qed.

Lemma second_low_alone (b : N) :
  (b < 256)%N ->
  N.shiftr (N.land (N.shiftl (N.land b 15) 2) 63) 2 = N.land b 15.
Proof.
  intros Hb. apply N.eqb_eq.
  exact (forall_below 256
           (fun b =>
              N.eqb (N.shiftr (N.land (N.shiftl (N.land b 15) 2) 63) 2)
                (N.land b 15))
           ltac:(vm_compute; reflexivity) Hb).
Qed.

Lemma third_high (b c : N) :
  (b < 256)%N -> (c < 256)%N ->
  N.land (N.land (N.lor (N.shiftl (N.land b 15) 2) (N.shiftr c 6)) 63) 3
  = N.shiftr c 6.
Proof.
  intros Hb Hc. apply N.eqb_eq.
  exact (forall_below2 256
           (fun b c =>
              N.eqb (N.land (N.land (N.lor (N.shiftl (N.land b 15) 2)
                                       (N.shiftr c 6)) 63) 3)
                (N.shiftr c 6))
           ltac:(vm_compute; reflexivity) Hb Hc).
Qed.

Lemma nibbles (b : N) :
  (b < 256)%N -> N.lor (N.shiftl (N.shiftr b 4) 4) (N.land b 15) = b.
Proof.
  intros Hb. apply N.eqb_eq.
  exact (forall_below 256
           (fun b => N.eqb (N.lor (N.shiftl (N.shiftr b 4) 4) (N.land b 15)) b)
           ltac:(vm_compute; reflexivity) Hb).
Qed.

Lemma third_parts (c : N) :
  (c < 256)%N ->
  N.lor (N.shiftl (N.shiftr c 6) 6) (N.land (N.land c 63) 63) = c.
Proof.
  intros Hc. apply N.eqb_eq.
  exact (forall_below 256
           (fun c => N.eqb (N.lor (N.shiftl (N.shiftr c 6) 6)
                              (N.land (N.land c 63) 63)) c)
           ltac:(vm_compute; reflexivity) Hc).
Qed.

Lemma cons_eq {A} (x y : A) (l l' : list A) :
  x :: l = y :: l' -> x = y /\ l = l'.
Proof. intro H. now inversion H. Qed.

Lemma sextet_eq (v v' : N) : sextet v = sextet v' -> N.land v 63 = N.land v' 63.
Proof. intro H. rewrite <- !unsextet_sextet. now rewrite H. Qed.

Lemma core_inj (s : list N) :
  forall s', Forall isByte s -> Forall isByte s' -> core s = core s' -> s = s'.
Proof.
  induction s as [| a | a b | a b c rest IH] using triple_ind;
    intros [|a' [|b' [|c' rest']]] Hs Hs' Heq; cbn [core] in Heq;
    try discriminate; try reflexivity.
  - (* one byte *)
    apply cons_eq in Heq as [E1 Heq]. apply cons_eq in Heq as [E2 _].
    apply sextet_eq in E1, E2.
    inversion Hs as [|? ? Ha _]; inversion Hs' as [|? ? Ha' _]; subst.
    rewrite <- (first_byte_alone Ha), <- (first_byte_alone Ha').
    now rewrite E1, E2.
  - (* two bytes *)
    apply cons_eq in Heq as [E1 Heq]. apply cons_eq in Heq as [E2 Heq].
    apply cons_eq in Heq as [E3 _]. apply sextet_eq in E1, E2, E3.
    inversion Hs as [|? ? Ha Hs1]; inversion Hs1 as [|? ? Hb _];
      inversion Hs' as [|? ? Ha' Hs1']; inversion Hs1' as [|? ? Hb' _]; subst.
    assert (Eb : b = b').
    { rewrite <- (nibbles Hb), <- (nibbles Hb').
      rewrite <- (second_high Ha Hb), <- (second_high Ha' Hb').
      rewrite <- (second_low_alone Hb), <- (second_low_alone Hb').
      now rewrite E2, E3. }
    assert (Ea : a = a').
    { rewrite <- (first_byte Ha Hb), <- (first_byte Ha' Hb').
      now rewrite E1, E2. }
    now subst.
  - (* three bytes and the rest *)
    apply cons_eq in Heq as [E1 Heq]. apply cons_eq in Heq as [E2 Heq].
    apply cons_eq in Heq as [E3 Heq]. apply cons_eq in Heq as [E4 Erest].
    apply sextet_eq in E1, E2, E3, E4.
    inversion Hs as [|? ? Ha Hs1]; inversion Hs1 as [|? ? Hb Hs2];
      inversion Hs2 as [|? ? Hc Hs3];
      inversion Hs' as [|? ? Ha' Hs1']; inversion Hs1' as [|? ? Hb' Hs2'];
      inversion Hs2' as [|? ? Hc' Hs3']; subst.
    assert (Ea : a = a').
    { rewrite <- (first_byte Ha Hb), <- (first_byte Ha' Hb').
      now rewrite E1, E2. }
    assert (Eb : b = b').
    { rewrite <- (nibbles Hb), <- (nibbles Hb').
      rewrite <- (second_high Ha Hb), <- (second_high Ha' Hb').
      rewrite <- (second_low Hb Hc), <- (second_low Hb' Hc').
      now rewrite E2, E3. }
    assert (Ec : c = c').
    { rewrite <- (third_parts Hc), <- (third_parts Hc').
      rewrite <- (third_high Hb Hc), <- (third_high Hb' Hc').
      now rewrite E3, E4. }
    subst. f_equal. f_equal. f_equal. now apply IH.
Qed.

Lemma btoa_some (e out : jsstring) :
  btoa e = Some out -> Forall isByte e /\ out = base64 e.
Proof.
  unfold btoa. destruct (forallb (fun c => N.ltb c 256) e) eqn:H; [| discriminate].
  intro E. inversion E. split; [| reflexivity].
  apply Forall_forall. intros x Hx.
  rewrite forallb_forall in H. apply N.ltb_lt. now apply H.
Qed.

Lemma subscriptionId_core (e id : jsstring) :
  subscriptionId e = Some id -> Forall isByte e /\ id = core e.
Proof.
  unfold subscriptionId. destruct (btoa e) as [out|] eqn:Hb; [| discriminate].
  apply btoa_some in Hb as [Hbytes ->]. cbn [option_map].
  intro E. inversion E. split; [exact Hbytes |]. now rewrite removeAll_base64.
Qed.

Lemma subscriptionId_inj (e e' id : jsstring) :
  subscriptionId e = Some id -> subscriptionId e' = Some id -> e = e'.
Proof.
  intros H H'.
  apply subscriptionId_core in H as [Hb ->].
  apply subscriptionId_core in H' as [Hb' E].
  now apply core_inj.
Qed.

(** X5: [subscriptionId] is one-to-one: two endpoints that [btoa]
    accepts have the same id only when they are the same endpoint; and an
    id holds no [=]. *)
Theorem distinct_endpoints_distinct_ids (e e' id id' : jsstring) :
  subscriptionId e = Some id ->
  subscriptionId e' = Some id' ->
  (id = id' <-> e = e')
  /\ ~ In padChar id.
Proof.
  intros H H'. split.
  - split.
    + intros <-. exact (subscriptionId_inj _ _ H H').
    + intros <-. congruence.
  - unfold subscriptionId in H. destruct (btoa e); [| discriminate].
    inversion H. unfold removeAll. intro Hin.
    apply filter_In in Hin as [_ Hf]. now rewrite N.eqb_refl in Hf.
Qed.

Lemma hasId_hasEndpoint (e id : jsstring) (s : Subscription) :
  subscriptionId e = Some id ->
  subscriptionId (endpoint s) = Some (sub_id s) ->
  hasId id s = hasEndpoint e s.
Proof.
  intros He Hs. unfold hasId, hasEndpoint.
  destruct (jseqb (endpoint s) e) eqn:Hend.
  - apply jseqb_eq in Hend. apply jseqb_eq. congruence.
  - destruct (jseqb (sub_id s) id) eqn:Hid; [| reflexivity].
    apply jseqb_eq in Hid. subst id.
    rewrite (@subscriptionId_inj _ _ _ Hs He), jseqb_refl in Hend. discriminate.
Qed.

Lemma filter_by_endpoint (e id : jsstring) (subs : list Subscription) :
  subscriptionId e = Some id ->
  wellFormed subs ->
  filter (fun s => negb (hasId id s)) subs
  = filter (fun s => negb (hasEndpoint e s)) subs.
Proof.
  intros He Hwf. apply filter_ext_in. intros s Hin.
  unfold wellFormed in Hwf. rewrite Forall_forall in Hwf.
  now rewrite (@hasId_hasEndpoint e id s He (Hwf s Hin)).
Qed.

Lemma find_by_endpoint (e id : jsstring) (subs : list Subscription) :
  subscriptionId e = Some id ->
  wellFormed subs ->
  find (hasId id) subs = find (hasEndpoint e) subs.
Proof.
  intros He Hwf. induction subs as [|s l IH]; [reflexivity |].
  inversion Hwf as [|? ? Hs Hl]; subst. cbn [find].
  rewrite (@hasId_hasEndpoint e id s He Hs), (IH Hl). reflexivity.
Qed.

(** C5: for an endpoint address whose code units are all at most 255 (the
    addresses [btoa] accepts) and that is not stored yet, a registration
    that is stored and a second registration of the same address with
    other keys leave exactly one subscription with the id of that address,
    and on a store whose ids are those of its endpoints exactly one with
    that address; it carries the keys and the time of the first
    registration.  The id is [subscriptionId] of the address, and the
    second registration writes nothing. *)
Theorem registration_idempotent (O1 O2 : Oracle) (d : Disk) (e : jsstring)
    (k1 k2 : Keys) :
  e <> [] ->
  p256dh k1 <> [] -> auth k1 <> [] ->
  p256dh k2 <> [] -> auth k2 <> [] ->
  Forall isByte e ->
  (forall s, In s (loadedSubs d) -> subscriptionId e <> Some (sub_id s)) ->
  writable O1 SUBS_FILE = true ->
  exists id w1 w2,
    subscriptionId e = Some id
    /\ run (subscribe O1 (Some (request e k1))) d = (Returned okResponse, w1)
    /\ run (subscribe O2 (Some (request e k2))) (disk w1)
       = (Returned okResponse, w2)
    /\ disk w2 = disk w1
    /\ filter isSubsWrite (trace w2) = []
    /\ subsFile (disk w2)
       = Some (loadedSubs d ++ [registered id e k1 (clock O1)])
    /\ filter (hasId id) (loadedSubs (disk w2))
       = [registered id e k1 (clock O1)]
    /\ (wellFormed (loadedSubs d) ->
        filter (hasEndpoint e) (loadedSubs (disk w2))
        = [registered id e k1 (clock O1)]).
Proof.
  intros He Hp1 Ha1 Hp2 Ha2 Hbytes Hnew Hwrite.
  destruct (subscriptionId_defined Hbytes) as [id Hid].
  assert (Hfind : find (hasId id) (loadedSubs d) = None).
  { destruct (find (hasId id) (loadedSubs d)) as [s|] eqn:Hf; [| reflexivity].
    exfalso. apply find_some in Hf as [Hin Hs].
    apply jseqb_eq in Hs. apply (Hnew s Hin). now rewrite Hs. }
  destruct (registration_twice O1 O2 d k1 k2 He Hp1 Ha1 Hp2 Ha2 Hid Hfind Hwrite)
    as [w1 [w2 [H1 [H2 [Hsame [Hquiet [Hfile Hone]]]]]]].
  exists id, w1, w2.
  repeat (split; [assumption |]).
  intro Hwf. rewrite <- Hone.
  unfold loadedSubs at 1 2. rewrite Hfile. cbv beta iota.
  apply filter_ext_in. intros s Hin. symmetry.
  apply (@hasId_hasEndpoint e id s Hid).
  apply in_app_or in Hin as [Hin | [<- | []]]; [| exact Hid].
  unfold wellFormed in Hwf. rewrite Forall_forall in Hwf. exact (Hwf s Hin).
Qed.

Lemma registration_idempotent_witness :
  exists id w1 w2,
    subscriptionId (js "https://push.example/dave") = Some id
    /\ run (subscribe (Sample.oracle Sample.body_abc)
              (Some (request (js "https://push.example/dave")
                       {| p256dh := js "BKey1"; auth := js "s1" |})))
         Sample.disk3 = (Returned okResponse, w1)
    /\ run (subscribe (Sample.readOnly Sample.body_abc)
              (Some (request (js "https://push.example/dave")
                       {| p256dh := js "BKey2"; auth := js "s2" |})))
         (disk w1) = (Returned okResponse, w2)
    /\ disk w2 = disk w1
    /\ filter isSubsWrite (trace w2) = []
    /\ subsFile (disk w2)
       = Some (loadedSubs Sample.disk3
                 ++ [registered id (js "https://push.example/dave")
                       {| p256dh := js "BKey1"; auth := js "s1" |}
                       Sample.now])
    /\ filter (hasId id) (loadedSubs (disk w2))
       = [registered id (js "https://push.example/dave")
            {| p256dh := js "BKey1"; auth := js "s1" |} Sample.now]
    /\ filter (hasEndpoint (js "https://push.example/dave"))
         (loadedSubs (disk w2))
       = [registered id (js "https://push.example/dave")
            {| p256dh := js "BKey1"; auth := js "s1" |} Sample.now].
Proof.
  destruct (@registration_idempotent (Sample.oracle Sample.body_abc)
              (Sample.readOnly Sample.body_abc)
              Sample.disk3 (js "https://push.example/dave")
              {| p256dh := js "BKey1"; auth := js "s1" |}
              {| p256dh := js "BKey2"; auth := js "s2" |})
    as [id [w1 [w2 [Hid [H1 [H2 [Hsame [Hquiet [Hfile [Hone Hend]]]]]]]]]].
  - vm_compute. discriminate.
  - vm_compute. discriminate.
  - vm_compute. discriminate.
  - vm_compute. discriminate.
  - vm_compute. discriminate.
  - apply encodable. vm_compute. reflexivity.
  - intros s Hin.
    repeat (destruct Hin as [<- | Hin]; [vm_compute; discriminate |]).
    destruct Hin.
  - reflexivity.
  - exists id, w1, w2.
    repeat (split; [assumption |]).
    apply Hend.
    repeat (apply Forall_cons; [vm_compute; reflexivity |]). apply Forall_nil.
Defined.

(** The deliveries of a cycle go to stored subscriptions only. *)
Lemma sends_from_store (P : Platform) (O : Oracle) (force : bool) (d : Disk)
    (out : Outcome PollResult) (w' : World) (e : jsstring) (k : Keys)
    (p : Payload) :
  run (pollLatest P O force) d = (out, w') ->
  In (EvSend e k p) (trace w') ->
  exists s, In s (loadedSubs d) /\ endpoint s = e /\ keys s = k.
Proof.
  intros Hrun Hin.
  assert (Hf : In (EvSend e k p) (filter isSend (trace w')))
    by (apply filter_In; now split).
  assert (Hsends : filter isSend (trace w') = []
                   \/ exists b, filter isSend (trace w')
                                = map (sendEvent (payloadOf P b)) (loadedSubs d)).
  { destruct (pollLatest_cases P O force d)
      as [[r [Hr _]] | [res [b [_ [_ [_ [_ Hr]]]]]]]; rewrite Hr in Hrun.
    - inversion Hrun; subst. now left.
    - unfold afterFetch, savesOf in Hrun.
      destruct (negb (isNewFor P b (loadedState d)) && negb force);
        [inversion Hrun; subst; left; read_trace; reflexivity |].
      destruct (isNewFor P b (loadedState d) && negb (writable O STATE_FILE));
        [inversion Hrun; subst; left;
         destruct (isNewFor _ _ _); read_trace; reflexivity |].
      destruct (Nat.eqb _ 0);
        [inversion Hrun; subst; left;
         destruct (isNewFor _ _ _); read_trace; reflexivity |].
      right. exists b.
      destruct (writable O SUBS_FILE); inversion Hrun; subst;
        destruct (isNewFor _ _ _); read_trace; reflexivity. }
  destruct Hsends as [Hnil | [b Hmap]].
  - now rewrite Hnil in Hf.
  - rewrite Hmap in Hf. apply in_map_iff in Hf as [s [Hs Hin']].
    exists s. inversion Hs. auto.
Qed.

(** A cycle brings no endpoint into the store. *)
Lemma cycle_keeps_endpoint_out (P : Platform) (O : Oracle) (force : bool)
    (d : Disk) (e : jsstring) :
  (forall s, In s (loadedSubs d) -> endpoint s <> e) ->
  forall s,
    In s (loadedSubs (disk (snd (run (pollLatest P O force) d)))) ->
    endpoint s <> e.
Proof.
  intros Hout s Hin.
  destruct (subs_after_cycle P O force d (surjective_pairing _)) as [Heq | Heq];
    rewrite Heq in Hin.
  - exact (Hout s Hin).
  - destruct (nextSet_origin _ _ _ _ _ Hin) as [s0 [Hs0 [-> | ->]]];
      exact (Hout s0 Hs0).
Qed.

(** Cycles run one after the other send nothing to an endpoint that is
    not stored when the first one starts, and do not store it. *)
Lemma cycles_keep_endpoint_out (P : Platform) (e : jsstring)
    (runs : list (Oracle * bool)) :
  forall d,
    (forall s, In s (loadedSubs d) -> endpoint s <> e) ->
    (forall k p, ~ In (EvSend e k p) (fst (cycles P runs d)))
    /\ (forall s, In s (loadedSubs (snd (cycles P runs d))) -> endpoint s <> e).
Proof.
  induction runs as [|[O force] rest IH]; intros d Hout.
  - split; [intros k p [] | exact Hout].
  - cbn [cycles]. cbv zeta.
    pose proof (@cycle_keeps_endpoint_out P O force d e Hout) as Hnext.
    destruct (IH _ Hnext) as [Hsends Hstore].
    destruct (cycles P rest (disk (snd (run (pollLatest P O force) d))))
      as [later d'] eqn:Hrest.
    cbn [fst snd] in *. split; [| exact Hstore].
    intros k p Hin. apply in_app_or in Hin as [Hin | Hin].
    + destruct (@sends_from_store P O force d _ _ e k p
                  (surjective_pairing _) Hin) as [s [Hs [He _]]].
      exact (Hout s Hs He).
    + exact (Hsends k p Hin).
Qed.

(** X7: on a store whose ids are those of its endpoints, an
    [/unsubscribe] that answers ok leaves exactly the subscriptions with
    another endpoint; and poll cycles that run after it, one after the
    other, each on the files the one before left (no cycle in flight while
    the handler runs, no request in between), send nothing to that
    endpoint and never store it again. *)
Theorem unsubscribe_by_endpoint (O1 : Oracle) (d : Disk) (e id : jsstring)
    (w1 : World) :
  e <> [] ->
  subscriptionId e = Some id ->
  wellFormed (loadedSubs d) ->
  run (unsubscribe O1 (Some e)) d = (Returned okResponse, w1) ->
  loadedSubs (disk w1)
  = filter (fun s => negb (hasEndpoint e s)) (loadedSubs d)
  /\ (forall P O2 force out w2 k p,
        run (pollLatest P O2 force) (disk w1) = (out, w2) ->
        ~ In (EvSend e k p) (trace w2))
  /\ (forall P runs,
        (forall k p, ~ In (EvSend e k p) (fst (cycles P runs (disk w1))))
        /\ (forall s,
              In s (loadedSubs (snd (cycles P runs (disk w1)))) ->
              endpoint s <> e)).
Proof.
  intros He Hid Hwf Hrun.
  assert (Hl : loadedSubs (disk w1)
               = filter (fun s => negb (hasEndpoint e s)) (loadedSubs d)).
  { rewrite (unsubscribe_run O1 d He), Hid in Hrun. cbv zeta in Hrun.
    rewrite <- (@filter_by_endpoint e id _ Hid Hwf).
    destruct (Nat.eqb _ _) eqn:Hlen.
    - inversion Hrun; subst. cbn [disk].
      apply Nat.eqb_eq, filter_same_length in Hlen. now rewrite Hlen.
    - destruct (writable O1 SUBS_FILE); [| discriminate].
      inversion Hrun; subst. reflexivity. }
  assert (Hout : forall s, In s (loadedSubs (disk w1)) -> endpoint s <> e).
  { intros s Hs Hend. rewrite Hl in Hs. apply filter_In in Hs as [_ Hf].
    unfold hasEndpoint in Hf. rewrite Hend, jseqb_refl in Hf. discriminate. }
  split; [exact Hl |].
  split.
  - intros P O2 force out w2 k p Hcycle Hin.
    destruct (@sends_from_store P O2 force (disk w1) out w2 e k p Hcycle Hin)
      as [s [Hs [He' _]]].
    exact (Hout s Hs He').
  - intros P runs. exact (@cycles_keep_endpoint_out P e runs _ Hout).
Qed.

(** X6: on a store whose ids are those of its endpoints, a registration
    is skipped, without any write, when a stored subscription has the same
    endpoint, and otherwise attempts one write that appends the new
    subscription. *)
Theorem subscribe_by_endpoint (O : Oracle) (d : Disk) (e id : jsstring)
    (k : Keys) :
  e <> [] ->
  p256dh k <> [] ->
  auth k <> [] ->
  subscriptionId e = Some id ->
  wellFormed (loadedSubs d) ->
  ((exists s, In s (loadedSubs d) /\ endpoint s = e) ->
   run (subscribe O (Some (request e k))) d
   = (Returned okResponse, {| disk := d; trace := [EvRead SUBS_FILE] |}))
  /\ ((forall s, In s (loadedSubs d) -> endpoint s <> e) ->
      filter isSubsWrite (trace (snd (run (subscribe O (Some (request e k))) d)))
      = [EvWriteSubs (loadedSubs d ++ [registered id e k (clock O)])]).
Proof.
  intros He Hp Ha Hid Hwf.
  rewrite (subscribe_run O d k He Hp Ha Hid), (@find_by_endpoint e id _ Hid Hwf).
  split.
  - intros [s [Hin Hend]].
    destruct (find (hasEndpoint e) (loadedSubs d)) eqn:Hfind; [reflexivity |].
    exfalso. apply (find_none _ _ Hfind) in Hin.
    unfold hasEndpoint in Hin. rewrite Hend, jseqb_refl in Hin. discriminate.
  - intros Hnone.
    destruct (find (hasEndpoint e) (loadedSubs d)) as [s|] eqn:Hfind.
    + exfalso. apply find_some in Hfind as [Hin Hend].
      apply jseqb_eq in Hend. exact (Hnone s Hin Hend).
    + cbv zeta. destruct (writable O SUBS_FILE); reflexivity.
Qed.

Lemma hexPair_length (b : N) : List.length (hexPair b) = 2.
Proof. unfold hexPair, toString16. now destruct (N.ltb b 16). Qed.

Lemma hexPair_inj (a b : N) : isByte a -> isByte b -> hexPair a = hexPair b -> a = b.
Proof.
  intros Ha Hb Heq. apply N.eqb_eq.
  pose proof (forall_below2 256
                (fun a b => implb (jseqb (hexPair a) (hexPair b)) (N.eqb a b))
                ltac:(vm_compute; reflexivity) Ha Hb) as H.
  cbv beta in H. rewrite Heq, jseqb_refl in H. exact H.
Qed.

Lemma hexOf_cons (b : N) (l : list N) : hexOf (b :: l) = hexPair b ++ hexOf l.
Proof. unfold hexOf at 1. cbn [fold_left]. now rewrite hexOf_acc. Qed.

Lemma app_pairs {A} (p p' r r' : list A) :
  List.length p = 2 -> List.length p' = 2 ->
  p ++ r = p' ++ r' -> p = p' /\ r = r'.
Proof.
  destruct p as [|x [|y [|z p]]]; try discriminate.
  destruct p' as [|x' [|y' [|z' p']]]; try discriminate.
  intros _ _ H. cbn in H. inversion H. now subst.
Qed.

Lemma hexOf_inj (l : list N) :
  forall l', Forall isByte l -> Forall isByte l' -> hexOf l = hexOf l' -> l = l'.
Proof.
  induction l as [|a l IH]; intros [|a' l'] Hl Hl' Heq.
  - reflexivity.
  - apply (f_equal (@List.length _)) in Heq. rewrite !hexOf_length in Heq.
    cbn in Heq. lia.
  - apply (f_equal (@List.length _)) in Heq. rewrite !hexOf_length in Heq.
    cbn in Heq. lia.
  - rewrite !hexOf_cons in Heq.
    apply app_pairs in Heq as [Hp Hr]; try apply hexPair_length.
    inversion Hl; inversion Hl'; subst.
    f_equal; [now apply hexPair_inj | now apply IH].
Qed.

Lemma digestBytes_bytes (d : N) : Forall isByte (digestBytes d).
Proof.
  unfold digestBytes. apply Forall_forall. intros x Hx.
  apply in_map_iff in Hx as [i [<- _]].
  exact (land_ones_lt _ 8).
Qed.

Lemma byte_bit (d s r : N) :
  N.testbit (N.land (N.shiftr d s) 255) r
  = N.testbit d (r + s) && N.ltb r 8.
Proof.
  rewrite N.land_spec, N.shiftr_spec by apply N.le_0_l. f_equal.
  change 255%N with (N.ones 8).
  destruct (N.ltb_spec r 8).
  - now apply N.ones_spec_low.
  - now apply N.ones_spec_high.
Qed.

Lemma digestBytes_mod (d d' : N) :
  digestBytes d = digestBytes d' <-> (d mod 2 ^ 256 = d' mod 2 ^ 256)%N.
Proof.
  unfold digestBytes. rewrite map_ext_in_iff. split.
  - intros Hall. apply N.bits_inj. intro m.
    destruct (N.lt_ge_cases m 256) as [Hm | Hm].
    2: { now rewrite !N.mod_pow2_bits_high. }
    rewrite !N.mod_pow2_bits_low by exact Hm.
    assert (Hj : (m / 8 < 32)%N) by (apply N.Div0.div_lt_upper_bound; lia).
    assert (Hr : (m mod 8 < 8)%N) by (apply N.mod_lt; lia).
    pose proof (N.div_mod m 8 ltac:(lia)) as Hdm.
    remember (m / 8)%N as j. remember (m mod 8)%N as r.
    assert (Hin : In (31 - N.to_nat j) (seq 0 32)) by (apply in_seq; lia).
    specialize (Hall _ Hin). cbv beta in Hall.
    replace (N.of_nat (31 - (31 - N.to_nat j))) with j in Hall by lia.
    apply (f_equal (fun x => N.testbit x r)) in Hall.
    rewrite !byte_bit in Hall.
    apply N.ltb_lt in Hr. rewrite Hr, !andb_true_r in Hall.
    replace (r + 8 * j)%N with m in Hall by lia.
    exact Hall.
  - intros Hmod i Hi. apply in_seq in Hi.
    apply N.bits_inj. intro r. rewrite !byte_bit.
    destruct (N.ltb_spec r 8) as [Hr | Hr]; [| now rewrite !andb_false_r].
    rewrite !andb_true_r.
    assert (Hlow : (r + 8 * N.of_nat (31 - i) < 256)%N) by lia.
    rewrite <- (N.mod_pow2_bits_low d 256 _ Hlow),
            <- (N.mod_pow2_bits_low d' 256 _ Hlow).
    now rewrite Hmod.
Qed.

(** X12: [hashText] returns 64 lowercase hexadecimal digits, and two
    texts get the same result exactly when their digests agree (as 256-bit
    numbers). *)
Theorem fingerprint_faithful (P : Platform) (a b : jsstring) :
  List.length (fingerprint P a) = 64
  /\ forallb isHexDigit (fingerprint P a) = true
  /\ (fingerprint P a = fingerprint P b
      <-> (SHA256 P a mod 2 ^ 256 = SHA256 P b mod 2 ^ 256)%N).
Proof.
  split; [apply fingerprint_length |].
  split; [apply hexOf_isHex |].
  unfold fingerprint. rewrite <- digestBytes_mod. split.
  - apply hexOf_inj; apply digestBytes_bytes.
  - now intros ->.
Qed.

(** X18: the preview of [summarizeLatest] is absent exactly when the
    record has no text or an empty one; otherwise it is not empty and at
    most 403 code units long: the text itself when that has at most 400
    code units, and else its first 400 code units followed by the three
    code units U+00E2, U+20AC, U+00A6 of the source literal, 403 code
    units in all. *)
Theorem preview_is_bounded (record : json) :
  match textPreview (summarizeLatest record) with
  | None => stringOr (get "text" record) [] = []
  | Some p =>
      p <> []
      /\ List.length p <= 403
      /\ (List.length (stringOr (get "text" record) []) <= 400 ->
          p = stringOr (get "text" record) [])
      /\ (400 < List.length (stringOr (get "text" record) []) ->
          p = firstn 400 (stringOr (get "text" record) [])
                ++ [226; 8364; 166]%N
          /\ List.length p = 403)
  end.
Proof.
  unfold summarizeLatest. cbn [textPreview]. cbv zeta.
  set (text := stringOr (get "text" record) []).
  destruct (Nat.ltb 400 (List.length text)) eqn:Hlen.
  - apply Nat.ltb_lt in Hlen. unfold orUndefined, ellipsis.
    assert (Hsize : List.length (firstn 400 text ++ [226; 8364; 166]%N) = 403)
      by (rewrite length_app, length_firstn; cbn [List.length]; lia).
    destruct (firstn 400 text ++ [226; 8364; 166]%N) as [|c p] eqn:Hp;
      [discriminate Hsize |].
    cbn [nonEmpty].
    split; [discriminate |].
    split; [rewrite Hsize; lia |].
    split; [lia |].
    intros _. split; [reflexivity | exact Hsize].
  - apply Nat.ltb_ge in Hlen. unfold orUndefined.
    destruct text as [|c t] eqn:Ht; cbn [nonEmpty]; [reflexivity |].
    split; [discriminate |]. split; [lia |]. split; [reflexivity | lia].
Qed.

Lemma ensure_complete_stable (E : ConfigOracle) (subject : jsstring)
    (c : VapidConfig) :
  complete c ->
  ensureVapidConfig E subject (Some c)
  = {| outcome := Configured c; fileAfter := Some c; writes := [] |}.
Proof.
  intros [Hpub [Hpriv Hsub]]. unfold ensureVapidConfig.
  now rewrite Hpub, Hpriv, Hsub.
Qed.

(** X19: when the generated keys and the subject are not empty, a run of
    [ensureVapidConfig] that returns gives a configuration with both keys
    and a subject; the file then holds exactly that configuration, written
    at most once; and any later run returns it again without writing. *)
Theorem config_is_completed_once (E E' : ConfigOracle) (subject subject' : jsstring)
    (file : option VapidConfig) (c : VapidConfig) :
  publicKey (generateVAPIDKeys E) <> [] ->
  privateKey (generateVAPIDKeys E) <> [] ->
  subject <> [] ->
  outcome (ensureVapidConfig E subject file) = Configured c ->
  complete c
  /\ fileAfter (ensureVapidConfig E subject file) = Some c
  /\ (writes (ensureVapidConfig E subject file) = []
      \/ writes (ensureVapidConfig E subject file) = [c])
  /\ ensureVapidConfig E' subject' (Some c)
     = {| outcome := Configured c; fileAfter := Some c; writes := [] |}.
Proof.
  intros Hpub Hpriv Hsub Hout.
  apply nonEmpty_true in Hpub, Hpriv, Hsub.
  assert (H : complete c
              /\ fileAfter (ensureVapidConfig E subject file) = Some c
              /\ (writes (ensureVapidConfig E subject file) = []
                  \/ writes (ensureVapidConfig E subject file) = [c])).
  { assert (Hgen : forall sub,
              complete {| vapidPublicKey := Some (publicKey (generateVAPIDKeys E));
                          vapidPrivateKey := Some (privateKey (generateVAPIDKeys E));
                          vapidSubject :=
                            Some (if truthy sub then orEmpty sub else subject) |}).
    { intro sub. unfold complete. cbn [vapidPublicKey vapidPrivateKey vapidSubject truthy].
      split; [exact Hpub |]. split; [exact Hpriv |].
      destruct (truthy sub) eqn:Tsub; [| exact Hsub].
      destruct sub as [x|]; [exact Tsub | discriminate]. }
    unfold ensureVapidConfig in *. cbv zeta in *.
    set (config := match file with
                   | Some c0 => c0
                   | None => {| vapidPublicKey := Some []; vapidPrivateKey := Some [];
                                vapidSubject := Some subject |}
                   end) in *.
    destruct (negb (truthy (vapidPublicKey config))
              || negb (truthy (vapidPrivateKey config))) eqn:Hkeys.
    - unfold writeAndReturn in *. destruct (configWritable E); [| discriminate].
      cbn [outcome fileAfter writes] in *. inversion Hout; subst c.
      split; [apply Hgen |]. split; [reflexivity | now right].
    - apply orb_false_iff in Hkeys as [Kpub Kpriv].
      apply negb_false_iff in Kpub, Kpriv.
      destruct (truthy (vapidSubject config)) eqn:Tsub; cbn [negb] in *.
      + cbn [outcome fileAfter writes] in *. inversion Hout; subst c.
        split; [now repeat split |]. split; [| now left].
        subst config. destruct file as [c0|]; [reflexivity | discriminate]. 
      + unfold writeAndReturn in *. destruct (configWritable E); [| discriminate].
        cbn [outcome fileAfter writes] in *. inversion Hout; subst c.
        split; [now repeat split |]. split; [reflexivity | now right]. }
  destruct H as [Hc [Hf Hw]].
  split; [exact Hc |]. split; [exact Hf |]. split; [exact Hw |].
  now apply ensure_complete_stable.
Qed.

(** X20: [ensureVapidConfig] keeps the keys of [config.json] only when
    both are there: it then writes at most to add the subject; when either
    key is missing or empty both are replaced by the generated pair, the
    stored subject being kept when there is one; without a file the
    generated pair is written with the given subject. *)
Theorem keys_are_replaced_as_a_pair (E : ConfigOracle) (subject : jsstring)
    (c0 : VapidConfig) :
  (truthy (vapidPublicKey c0) = true ->
   truthy (vapidPrivateKey c0) = true ->
   forall w, In w (writes (ensureVapidConfig E subject (Some c0))) ->
     w = {| vapidPublicKey := vapidPublicKey c0;
            vapidPrivateKey := vapidPrivateKey c0;
            vapidSubject := Some subject |}
     /\ truthy (vapidSubject c0) = false)
  /\ (truthy (vapidPublicKey c0) = false \/ truthy (vapidPrivateKey c0) = false ->
      writes (ensureVapidConfig E subject (Some c0))
      = [{| vapidPublicKey := Some (publicKey (generateVAPIDKeys E));
            vapidPrivateKey := Some (privateKey (generateVAPIDKeys E));
            vapidSubject :=
              Some (if truthy (vapidSubject c0)
                    then orEmpty (vapidSubject c0) else subject) |}])
  /\ writes (ensureVapidConfig E subject None)
     = [{| vapidPublicKey := Some (publicKey (generateVAPIDKeys E));
           vapidPrivateKey := Some (privateKey (generateVAPIDKeys E));
           vapidSubject := Some subject |}].
Proof.
  split; [| split].
  - intros Hpub Hpriv w Hin. unfold ensureVapidConfig in Hin.
    rewrite Hpub, Hpriv in Hin. cbn [negb orb] in Hin.
    destruct (truthy (vapidSubject c0)); cbn [negb writes] in Hin; [destruct Hin |].
    unfold writeAndReturn in Hin.
    destruct (configWritable E); cbn [writes] in Hin;
      destruct Hin as [<- | []]; now split.
  - intros Hmiss. unfold ensureVapidConfig.
    assert (Hc : negb (truthy (vapidPublicKey c0))
                 || negb (truthy (vapidPrivateKey c0)) = true).
    { destruct Hmiss as [H | H]; rewrite H; cbn; rewrite ?orb_true_r; reflexivity. }
    rewrite Hc. unfold writeAndReturn. now destruct (configWritable E).
  - unfold ensureVapidConfig. cbn [truthy nonEmpty negb orb vapidPublicKey].
    unfold writeAndReturn. cbn [vapidSubject orEmpty truthy].
    destruct (configWritable E); cbn [writes];
      destruct (nonEmpty subject); reflexivity.
Qed.

Lemma keys_are_replaced_as_a_pair_witness :
  writes (ensureVapidConfig Cases.freshKeys (js "mailto:ops@wiredove.net")
            (Some Cases.halfConfig))
  = [{| vapidPublicKey := Some (js "BNewPublic");
        vapidPrivateKey := Some (js "newPrivate");
        vapidSubject := Some (js "mailto:me@example.org") |}].
Proof.
  apply (proj1 (proj2 (keys_are_replaced_as_a_pair Cases.freshKeys
                         (js "mailto:ops@wiredove.net") Cases.halfConfig))).
  right. reflexivity.
Defined.

Lemma config_is_completed_once_witness :
  complete {| vapidPublicKey := Some (js "BNewPublic");
              vapidPrivateKey := Some (js "newPrivate");
              vapidSubject := Some (js "mailto:ops@wiredove.net") |}.
Proof.
  apply (@config_is_completed_once Cases.freshKeys Cases.freshKeys
           (js "mailto:ops@wiredove.net") (js "mailto:ops@wiredove.net") None).
  - vm_compute. discriminate.
  - vm_compute. discriminate.
  - vm_compute. discriminate.
  - vm_compute. reflexivity.
Defined.

Lemma distinct_endpoints_distinct_ids_witness :
  (sub_id Sample.alice = sub_id Sample.bob
   <-> js "https://push.example/alice" = js "https://push.example/bob")
  /\ ~ In padChar (sub_id Sample.alice).
Proof.
  apply (@distinct_endpoints_distinct_ids (js "https://push.example/alice")
           (js "https://push.example/bob")).
  - vm_compute. reflexivity.
  - vm_compute. reflexivity.
Defined.

Lemma changed_means_past_the_gate_witness :
  exists r w',
    run (pollLatest Sample.platform (Sample.oracle Sample.body_abc) true)
      Sample.disk3 = (Returned r, w')
    /\ changed r = true
    /\ stateFile (disk w') = stateFile Sample.disk3.
Proof.
  destruct (@changed_means_past_the_gate Sample.platform
              (Sample.oracle Sample.body_abc) true Sample.disk3
              (Sample.answers Sample.body_abc) Sample.body_abc)
    as [r [w' [Hrun [_ Hforced]]]].
  - reflexivity.
  - reflexivity.
  - reflexivity.
  - vm_compute. discriminate.
  - exists r, w'. split; [exact Hrun |].
    apply Hforced; [reflexivity | vm_compute; reflexivity | right; reflexivity].
Defined.

Lemma unsubscribe_by_endpoint_witness :
  loadedSubs (disk (snd (run (unsubscribe (Sample.oracle Sample.body_abc)
                                (Some (js "https://push.example/bob")))
                           Sample.disk3)))
  = [Sample.alice; Sample.carol]
  /\ (forall k p,
        ~ In (EvSend (js "https://push.example/bob") k p)
            (fst (cycles Sample.platform
                    [(Sample.oracle Sample.body_abc, true);
                     (Sample.oracle Sample.body_nohash, false);
                     (Cases.allGone Sample.body_abc, true)]
                    (disk (snd (run (unsubscribe (Sample.oracle Sample.body_abc)
                                       (Some (js "https://push.example/bob")))
                                  Sample.disk3))))))
  /\ List.length
       (filter isSend
          (fst (cycles Sample.platform
                  [(Sample.oracle Sample.body_abc, true);
                   (Sample.oracle Sample.body_nohash, false);
                   (Cases.allGone Sample.body_abc, true)]
                  (disk (snd (run (unsubscribe (Sample.oracle Sample.body_abc)
                                     (Some (js "https://push.example/bob")))
                                Sample.disk3))))))
     = 4.
Proof.
  destruct (@unsubscribe_by_endpoint (Sample.oracle Sample.body_abc) Sample.disk3
              (js "https://push.example/bob") (sub_id Sample.bob)
              (snd (run (unsubscribe (Sample.oracle Sample.body_abc)
                           (Some (js "https://push.example/bob")))
                      Sample.disk3)))
    as [Hleft [_ Hlater]].
  - vm_compute. discriminate.
  - vm_compute. reflexivity.
  - repeat (apply Forall_cons; [vm_compute; reflexivity |]). apply Forall_nil.
  - vm_compute. reflexivity.
  - split; [rewrite Hleft; vm_compute; reflexivity |].
    split; [exact (proj1 (Hlater Sample.platform _)) |].
    vm_compute. reflexivity.
Defined.

Lemma subscribe_by_endpoint_witness :
  run (subscribe (Sample.oracle Sample.body_abc)
         (Some (request (js "https://push.example/bob")
                  {| p256dh := js "BKey9"; auth := js "s9" |})))
    Sample.disk3
  = (Returned okResponse, {| disk := Sample.disk3; trace := [EvRead SUBS_FILE] |}).
Proof.
  apply (proj1 (@subscribe_by_endpoint (Sample.oracle Sample.body_abc)
                  Sample.disk3 (js "https://push.example/bob")
                  (sub_id Sample.bob)
                  {| p256dh := js "BKey9"; auth := js "s9" |}
                  ltac:(vm_compute; discriminate)
                  ltac:(vm_compute; discriminate)
                  ltac:(vm_compute; discriminate)
                  ltac:(vm_compute; reflexivity)
                  ltac:(repeat (apply Forall_cons; [vm_compute; reflexivity |]);
                        apply Forall_nil))).
  exists Sample.bob. split; [right; left; reflexivity | vm_compute; reflexivity].
Defined.

Lemma failed_fetch_is_a_poll_error_witness :
  run (pollLatest Sample.platform Cases.offline false) Sample.disk3
  = (Returned pollError, {| disk := Sample.disk3; trace := [EvFetch] |}).
Proof.
  apply failed_fetch_is_a_poll_error. left. reflexivity.
Defined.


Lemma body_without_record_witness :
  payloadOf Sample.platform Sample.body_plain
  = genericPayload Sample.platform (JStr Sample.body_plain).
Proof.
  destruct (@body_without_record Sample.platform Sample.body_plain)
    as [_ [_ [_ [_ [_ [Hpayload Hjson]]]]]].
  - vm_compute. reflexivity.
  - rewrite Hpayload, Hjson; [reflexivity | vm_compute; reflexivity].
Defined.
